(** * Strava activity analyzer: a shallow embedding of [md_strava_viz_final.py]

    The development follows the pipeline of the script: cell coercion
    ([convert_to_number]), row normalisation ([process_single_row]), loading
    ([read_csv_file]), categorisation ([separate_running_and_cycling]) and
    aggregation ([calculate_advanced_stats], [analyze_weekly_patterns]);
    then the reports ([format_pace], [analyze_time_of_day_patterns],
    [analyze_personal_records], [analyze_gear_usage],
    [create_text_bar_chart], [analyze_monthly_patterns],
    [compare_running_vs_cycling], the prints of [calculate_advanced_stats])
    and the menu of [main].

    Modelling conventions.
    - Text is ASCII text: a [string] is the sequence of characters of the
      Python [str]; bytes above 127 stand for characters outside ASCII and
      are treated as ordinary characters (no space, no digit, no case).
    - A Python [float] is an IEEE 754 binary64 value, the [spec_float] of the
      standard library with [prec = 53] and [emax = 1024]; the operations
      are the correctly rounded ones of [SpecFloat].  The [int] literal [0]
      that the script uses as a default is represented by [+0.0]: it
      compares equal to it and every later use (comparison, [+], [*], [/],
      [statistics]) treats both alike.
    - A [dict] read by [csv.DictReader] is a finite map from column names to
      cells; a cell is a [str], or [None] when the row is shorter than the
      header ([restval]).
    - [print] is modelled by a log of diagnostics returned beside the value.
    - Exceptions are explicit: a computation returns [Ok v] or [Raise e].
    - A report is the list of the lines it prints, one constructor per
      [print] with the values the line interpolates, and the value
      returned or the exception that ended it ([printing]); the lines
      typed at the prompt of [main] are a list of texts. *)

From Stdlib Require Import ZArith List Bool Ascii String Lia Sorting.Sorted.
From Stdlib Require Import Floats.SpecFloat.
From Stdlib Require Import DecimalString.
From Stdlib Require OrderedTypeEx.
From stdpp Require Import base option list gmap strings.

Local Open Scope string_scope.
Local Open Scope Z_scope.
Local Open Scope list_scope.

(** ** Text: the [str] methods the script calls *)

Module PyStr.

(** [str.isspace] on one ASCII character: tab .. carriage return,
    the four separators 28 .. 31, and the blank. *)
Definition is_space (c : ascii) : bool :=
  let n := N_of_ascii c in
  ((9 <=? n)%N && (n <=? 13)%N) || ((28 <=? n)%N && (n <=? 32)%N).

Definition is_digit (c : ascii) : bool :=
  let n := N_of_ascii c in (48 <=? n)%N && (n <=? 57)%N.

Definition digit_value (c : ascii) : Z := Z.of_N (N_of_ascii c) - 48.

Definition lower_char (c : ascii) : ascii :=
  let n := N_of_ascii c in
  if (65 <=? n)%N && (n <=? 90)%N then ascii_of_N (n + 32) else c.

Definition upper_char (c : ascii) : ascii :=
  let n := N_of_ascii c in
  if (97 <=? n)%N && (n <=? 122)%N then ascii_of_N (n - 32) else c.

Definition chars (s : string) : list ascii := list_ascii_of_string s.
Definition of_chars (l : list ascii) : string := string_of_list_ascii l.

(** [s.lower()] and [s.upper()]. *)
Definition lower (s : string) : string := of_chars (map lower_char (chars s)).
Definition upper (s : string) : string := of_chars (map upper_char (chars s)).

Fixpoint drop_while (p : ascii -> bool) (l : list ascii) : list ascii :=
  match l with
  | [] => []
  | c :: l' => if p c then drop_while p l' else l
  end.

Definition strip_with (p : ascii -> bool) (s : string) : string :=
  of_chars (rev (drop_while p (rev (drop_while p (chars s))))).

(** [s.strip()]: leading and trailing white space removed. *)
Definition strip (s : string) : string := strip_with is_space s.

(** [s.strip(cs)]: leading and trailing characters of [cs] removed. *)
Definition strip_chars (cs : string) (s : string) : string :=
  strip_with (fun c => existsb (Ascii.eqb c) (chars cs)) s.

Fixpoint is_prefix (p l : list ascii) : bool :=
  match p, l with
  | [], _ => true
  | _ :: _, [] => false
  | a :: p', b :: l' => Ascii.eqb a b && is_prefix p' l'
  end.

Fixpoint contains_chars (p l : list ascii) : bool :=
  is_prefix p l ||
  match l with
  | [] => false
  | _ :: l' => contains_chars p l'
  end.

(** [sub in s]. *)
Definition contains (sub s : string) : bool :=
  contains_chars (chars sub) (chars s).

End PyStr.

(** ** Numbers: binary64 *)

Module F64.

Definition prec : Z := 53.
Definition emax : Z := 1024.

Definition float : Type := spec_float.

Definition zero : float := S754_zero false.
Definition nan : float := S754_nan.
Definition infinity (s : bool) : float := S754_infinity s.

Definition add : float -> float -> float := SFadd prec emax.
Definition mul : float -> float -> float := SFmul prec emax.
Definition div : float -> float -> float := SFdiv prec emax.

(** The comparisons [x < y], [x <= y], [x == y]; all three are [False]
    as soon as one side is NaN. *)
Definition ltb : float -> float -> bool := SFltb.
Definition leb : float -> float -> bool := SFleb.
Definition eqb : float -> float -> bool := SFeqb.
Definition gtb (x y : float) : bool := ltb y x.
(** [x != y] is the negation of [x == y], hence [True] on NaN. *)
Definition neqb (x y : float) : bool := negb (eqb x y).

Definition is_nan (x : float) : bool :=
  match x with S754_nan => true | _ => false end.

Definition is_finite (x : float) : bool :=
  match x with S754_zero _ | S754_finite _ _ _ => true | _ => false end.

(** [float(n)] for an [int] [n]. *)
Definition of_Z (n : Z) : float := binary_normalize prec emax n 0 false.

(** The quotient [a / b] of two positive integers, rounded to nearest
    even, with sign [s]: the value of a decimal literal and of
    [int / int]. *)
Definition round_ratio (s : bool) (a b : positive) : float :=
  let '(q, e, l) := SFdiv_core_binary prec emax (Zpos a) 0 (Zpos b) 0 in
  binary_round_aux prec emax s q e l.

(** [m * 10 ^ e] rounded to nearest even: the value of the decimal
    numeral with digits [m] and decimal exponent [e]. *)
Definition of_decimal (s : bool) (m : Z) (e : Z) : float :=
  match m with
  | Zpos p =>
      match e with
      | Zneg k => round_ratio s p (Pos.pow 10 k)
      | Z0 => round_ratio s p 1
      | Zpos k => round_ratio s (p * Pos.pow 10 k) 1
      end
  | _ => S754_zero s
  end.

(** ** [float(text)]

    After white space is stripped: an optional sign, then [inf],
    [infinity] or [nan] in any case, or a decimal numeral
    [digits [. digits] [e [sign] digits]] with at least one digit before
    the exponent.  A single underscore may stand between two digits.
    Anything else is a [ValueError], here [None]. *)

(** Underscores: allowed only between two digits; removed. *)
Fixpoint remove_underscores (prev : option ascii) (l : list ascii)
  : option (list ascii) :=
  let digit_before :=
    match prev with Some c => PyStr.is_digit c | None => false end in
  match l with
  | [] => if prev is Some "_"%char then None else Some []
  | c :: l' =>
      if Ascii.eqb c "_" then
        if digit_before then remove_underscores (Some c) l' else None
      else
        if (if prev is Some "_"%char then negb (PyStr.is_digit c) else false)
        then None
        else cons c <$> remove_underscores (Some c) l'
  end.

(** A run of digits: its value continuing [acc], its length, the rest. *)
Fixpoint digits (l : list ascii) (acc : Z) (n : nat) : Z * nat * list ascii :=
  match l with
  | c :: l' =>
      if PyStr.is_digit c then digits l' (10 * acc + PyStr.digit_value c) (S n)
      else (acc, n, l)
  | [] => (acc, n, l)
  end.

Definition sign (l : list ascii) : bool * list ascii :=
  match l with
  | "-"%char :: l' => (true, l')
  | "+"%char :: l' => (false, l')
  | _ => (false, l)
  end.

(** The exponent part; a missing or digit-less exponent is not consumed. *)
Definition exponent (l : list ascii) : Z * list ascii :=
  match l with
  | c :: l' =>
      if Ascii.eqb c "e" || Ascii.eqb c "E" then
        let '(neg, l'') := sign l' in
        let '(v, n, rest) := digits l'' 0 0%nat in
        match n with
        | O => (0, l)
        | _ => (if neg then - v else v, rest)
        end
      else (0, l)
  | [] => (0, l)
  end.

Definition decimal (s : bool) (l : list ascii) : option float :=
  let '(ip, n1, l1) := digits l 0 0%nat in
  let '(m, n2, l2) :=
    match l1 with
    | "."%char :: l1' => digits l1' ip 0%nat
    | _ => (ip, 0%nat, l1)
    end in
  match (n1 + n2)%nat with
  | O => None
  | _ =>
      let '(e, l3) := exponent l2 in
      match l3 with
      | [] => Some (of_decimal s m (e - Z.of_nat n2))
      | _ => None
      end
  end.

Definition inf_or_nan (s : bool) (l : list ascii) : option float :=
  let w := PyStr.lower (PyStr.of_chars l) in
  if String.eqb w "inf" || String.eqb w "infinity" then Some (S754_infinity s)
  else if String.eqb w "nan" then Some S754_nan
  else None.

Definition of_string (text : string) : option float :=
  let body := PyStr.chars (PyStr.strip text) in
  l ← (if existsb (Ascii.eqb "_") body then remove_underscores None body
       else Some body);
  let '(s, l') := sign l in
  match decimal s l' with
  | Some x => Some x
  | None => inf_or_nan s l'
  end.

End F64.

(** ** Dates: [datetime.strptime] with the format of the script *)

Module Datetime.

Record datetime := mk_datetime
  { year : Z; month : Z; day : Z; hour : Z; minute : Z; second : Z }.

(** *** The regular expression of the format

    [_strptime] turns the format into a regular expression and matches
    it, with backtracking, at the start of the text.  The fragment of
    regular expressions it needs: a character class, sequence, ordered
    choice, a greedy non-empty repetition of a class, a named group. *)

Inductive group := Gd | Gb | GY | GH | GM | GS.

Inductive regex :=
| RChar (p : ascii -> bool)
| RSeq (r1 r2 : regex)
| RAlt (r1 r2 : regex)
| RPlus (p : ascii -> bool)
| RGroup (g : group) (r : regex).

Definition group_eqb (g1 g2 : group) : bool :=
  match g1, g2 with
  | Gd, Gd | Gb, Gb | GY, GY | GH, GH | GM, GM | GS, GS => true
  | _, _ => false
  end.

Definition captures := group -> list ascii.

Definition capture (g : group) (txt : list ascii) (c : captures) : captures :=
  fun g' => if group_eqb g g' then txt else c g'.

Section Match.
Context {A : Type}.

(** Greedy repetition: takes the longest run first and gives characters
    back one at a time while the continuation fails. *)
Fixpoint match_plus (p : ascii -> bool) (l : list ascii)
    (k : list ascii -> option A) : option A :=
  match l with
  | c :: l' =>
      if p c then
        match match_plus p l' k with
        | Some a => Some a
        | None => k l'
        end
      else None
  | [] => None
  end.

Fixpoint match_re (r : regex) (l : list ascii) (c : captures)
    (k : captures -> list ascii -> option A) : option A :=
  match r with
  | RChar p =>
      match l with
      | x :: l' => if p x then k c l' else None
      | [] => None
      end
  | RSeq r1 r2 => match_re r1 l c (fun c' l' => match_re r2 l' c' k)
  | RAlt r1 r2 =>
      match match_re r1 l c k with
      | Some a => Some a
      | None => match_re r2 l c k
      end
  | RPlus p => match_plus p l (k c)
  | RGroup g r' =>
      match_re r' l c
        (fun c' l' => k (capture g (take (length l - length l') l) c') l')
  end.
End Match.

Definition lit (x : ascii) : regex :=
  RChar (fun c => Ascii.eqb (PyStr.lower_char c) (PyStr.lower_char x)).
Definition range (lo hi : ascii) : regex :=
  RChar (fun c => (N_of_ascii lo <=? N_of_ascii c)%N
                  && (N_of_ascii c <=? N_of_ascii hi)%N).
Definition digit : regex := RChar PyStr.is_digit.
Definition spaces : regex := RPlus PyStr.is_space.

Fixpoint word (l : list ascii) : regex :=
  match l with
  | [] => RPlus (fun _ => false)
  | [x] => lit x
  | x :: l' => RSeq (lit x) (word l')
  end.

Fixpoint alternatives (rs : list regex) : regex :=
  match rs with
  | [] => RPlus (fun _ => false)
  | [r] => r
  | r :: rs' => RAlt r (alternatives rs')
  end.

(** The abbreviated month names of the C locale, in calendar order. *)
Definition a_month : list string :=
  ["jan"; "feb"; "mar"; "apr"; "may"; "jun";
   "jul"; "aug"; "sep"; "oct"; "nov"; "dec"].

(** [%d]: [3[0-1]|[1-2]\d|0[1-9]|[1-9]| [1-9]]. *)
Definition re_d : regex :=
  alternatives
    [ RSeq (lit "3") (range "0" "1");
      RSeq (range "1" "2") digit;
      RSeq (lit "0") (range "1" "9");
      range "1" "9";
      RSeq (lit " ") (range "1" "9") ].

(** [%b]: one of the month abbreviations, in any case. *)
Definition re_b : regex :=
  alternatives (map (fun m => word (PyStr.chars m)) a_month).

(** [%Y]: [\d\d\d\d]. *)
Definition re_Y : regex := RSeq digit (RSeq digit (RSeq digit digit)).

(** [%H]: [2[0-3]|[0-1]\d|\d]. *)
Definition re_H : regex :=
  alternatives
    [ RSeq (lit "2") (range "0" "3"); RSeq (range "0" "1") digit; digit ].

(** [%M]: [[0-5]\d|\d]. *)
Definition re_M : regex :=
  alternatives [ RSeq (range "0" "5") digit; digit ].

(** [%S]: [6[0-1]|[0-5]\d|\d]. *)
Definition re_S : regex :=
  alternatives
    [ RSeq (lit "6") (range "0" "1"); RSeq (range "0" "5") digit; digit ].

Fixpoint sequence (rs : list regex) : regex :=
  match rs with
  | [] => RPlus (fun _ => false)
  | [r] => r
  | r :: rs' => RSeq r (sequence rs')
  end.

(** The expression of ['%d %b %Y, %H:%M:%S']: every blank of the format
    stands for [\s+]. *)
Definition format_regex : regex :=
  sequence
    [ RGroup Gd re_d; spaces; RGroup Gb re_b; spaces; RGroup GY re_Y;
      lit ","; spaces; RGroup GH re_H; lit ":"; RGroup GM re_M; lit ":";
      RGroup GS re_S ].

(** [int(text)] on a captured group: digits, possibly after a blank. *)
Definition int_of (l : list ascii) : Z :=
  fold_left (fun acc c => if PyStr.is_digit c then 10 * acc + PyStr.digit_value c else acc)
            l 0.

Fixpoint index_of (s : string) (l : list string) (i : Z) : option Z :=
  match l with
  | [] => None
  | x :: l' => if String.eqb s x then Some i else index_of s l' (i + 1)
  end.

(** *** The calendar *)

Definition is_leap (y : Z) : bool :=
  (y mod 4 =? 0) && (negb (y mod 100 =? 0) || (y mod 400 =? 0)).

Definition days_in_month (y m : Z) : Z :=
  if m =? 2 then (if is_leap y then 29 else 28)
  else if (m =? 4) || (m =? 6) || (m =? 9) || (m =? 11) then 30
  else 31.

Definition days_before_year (y : Z) : Z :=
  let p := y - 1 in p * 365 + p / 4 - p / 100 + p / 400.

Fixpoint days_before_month_nat (y : Z) (m : nat) : Z :=
  match m with
  | O => 0
  | S m' => days_before_month_nat y m' + days_in_month y (Z.of_nat m)
  end.

Definition days_before_month (y m : Z) : Z :=
  days_before_month_nat y (Z.to_nat (m - 1)).

(** [date.toordinal()]: 1 for 1 January of year 1. *)
Definition toordinal (d : datetime) : Z :=
  days_before_year (year d) + days_before_month (year d) (month d) + day d.

(** [date.weekday()]: Monday is 0. *)
Definition weekday (d : datetime) : Z := (toordinal d + 6) mod 7.

Definition day_names : list string :=
  ["Monday"; "Tuesday"; "Wednesday"; "Thursday"; "Friday"; "Saturday"; "Sunday"].

(** [d.strftime('%A')] in the C locale. *)
Definition strftime_A (d : datetime) : string :=
  nth (Z.to_nat (weekday d)) day_names "".

(** The checks of the [datetime] constructor ([MINYEAR = 1]). *)
Definition valid (d : datetime) : bool :=
  (1 <=? year d) && (year d <=? 9999)
  && (1 <=? month d) && (month d <=? 12)
  && (1 <=? day d) && (day d <=? days_in_month (year d) (month d))
  && (0 <=? hour d) && (hour d <=? 23)
  && (0 <=? minute d) && (minute d <=? 59)
  && (0 <=? second d) && (second d <=? 59).

(** [datetime.strptime(text, '%d %b %Y, %H:%M:%S')]; [None] stands for
    the [ValueError] raised when the text does not match, when text
    remains after the match, or when the fields are no date. *)
Definition strptime (text : string) : option datetime :=
  let l := PyStr.chars text in
  '(c, rest) ← match_re format_regex l (fun _ => []) (fun c rest => Some (c, rest));
  if negb (Nat.eqb (length rest) 0) then None
  else
    m ← index_of (PyStr.lower (PyStr.of_chars (c Gb))) a_month 1;
    let d := {| year := int_of (c GY); month := m; day := int_of (c Gd);
                hour := int_of (c GH); minute := int_of (c GM);
                second := int_of (c GS) |} in
    if valid d then Some d else None.

End Datetime.

(** ** Values, exceptions and diagnostics *)

(** A cell of a row: a [str], or [None] where the row is shorter than the
    header. *)
Inductive cell := CNone | CStr (s : string).

(** A row yielded by [csv.DictReader]. *)
Abbreviation row := (gmap string cell).

Inductive exn :=
| ValueError
| AttributeError
| FileNotFoundError
| PermissionError
| IsADirectoryError
| UnicodeDecodeError.

Inductive result (A : Type) :=
| Ok (a : A)
| Raise (e : exn).
Arguments Ok {A} a.
Arguments Raise {A} e.

#[global] Instance result_ret : MRet result := fun A a => Ok a.
#[global] Instance result_bind : MBind result := fun A B f r =>
  match r with
  | Ok a => f a
  | Raise e => Raise e
  end.

(** One constructor per [print] of the loader and the normaliser, with the
    values it interpolates. *)
Inductive diagnostic :=
| SkipNoDate (name : cell)
| SkipNoDistance (name : cell)
| Problem (name : cell) (error : exn)
| CouldNotFindFile (filename : string)
| MakeSureFileIsInFolder.

(** [row.get(key, default)] *)
Definition get (r : row) (key default : string) : cell :=
  match r !! key with
  | Some v => v
  | None => CStr default
  end.

(** [c.upper()] and [c.strip()]: [None] has neither method. *)
Definition upper (c : cell) : result string :=
  match c with
  | CStr s => Ok (PyStr.upper s)
  | CNone => Raise AttributeError
  end.

Definition strip (c : cell) : result string :=
  match c with
  | CStr s => Ok (PyStr.strip s)
  | CNone => Raise AttributeError
  end.

Definition lower (c : cell) : result string :=
  match c with
  | CStr s => Ok (PyStr.lower s)
  | CNone => Raise AttributeError
  end.

Definition double_quote : string := String (ascii_of_N 34) EmptyString.

(** ** Field coercion *)

(** [convert_to_number]; the bare [except] turns the [ValueError] of
    [float] into [0]. *)
Definition convert_to_number (text_value : cell) : F64.float :=
  match text_value with
  | CNone => F64.zero
  | CStr s =>
      if String.eqb s "" || String.eqb (PyStr.strip s) "" then F64.zero
      else
        match F64.of_string (PyStr.strip s) with
        | Some x => x
        | None => F64.zero
        end
  end.

(** ** The normaliser *)

Record Activity := mk_Activity
  { name : cell;
    type : cell;
    description : cell;
    gear : cell;
    distance_km : F64.float;
    time_seconds : F64.float;
    elapsed_time : F64.float;
    elevation_low : F64.float;
    elevation_high : F64.float;
    max_heart_rate : F64.float;
    max_speed : F64.float;
    max_grade : F64.float;
    avg_grade : F64.float;
    avg_speed_kmh : F64.float;
    max_speed_kmh : F64.float;
    is_commute : bool;
    pace_min_per_km : F64.float;
    date : Datetime.datetime;
    day_of_week : string;
    hour : Z }.

(** The literals [3.6] and [60]. *)
Definition f3_6 : F64.float := F64.of_decimal false 36 (-1).
Definition f60 : F64.float := F64.of_Z 60.

(** The body of the [try] of [process_single_row]: the value returned with
    what was printed before, or the exception raised. *)
Definition process_single_row_try (r : row)
  : result (option Activity * list diagnostic) :=
  let name := get r "Activity Name" "" in
  let type := get r "Activity Type" "" in
  let description := get r "Activity Description" "" in
  let gear := get r "Activity Gear" "" in
  let distance_km := convert_to_number (get r "Distance_KM" "") in
  let time_seconds := convert_to_number (get r "Moving Time" "") in
  let elapsed_time := convert_to_number (get r "Elapsed Time" "") in
  let elevation_low := convert_to_number (get r "Elevation Low" "") in
  let elevation_high := convert_to_number (get r "Elevation High" "") in
  let max_heart_rate := convert_to_number (get r "Max Heart Rate" "") in
  let max_speed := convert_to_number (get r "Max Speed" "") in
  let max_grade := convert_to_number (get r "Max Grade" "") in
  let avg_grade := convert_to_number (get r "Average Grade" "") in
  let speed_ms := convert_to_number (get r "Average Speed" "") in
  let avg_speed_kmh :=
    if F64.gtb speed_ms F64.zero then F64.mul speed_ms f3_6 else F64.zero in
  let max_speed_ms := max_speed in
  let max_speed_kmh :=
    if F64.gtb max_speed_ms F64.zero then F64.mul max_speed_ms f3_6
    else F64.zero in
  commute ← upper (get r "Commute" "");
  let is_commute := String.eqb commute "TRUE" in
  let pace_min_per_km :=
    if F64.gtb distance_km F64.zero && F64.gtb time_seconds F64.zero then
      let pace_seconds_per_km := F64.div time_seconds distance_km in
      F64.div pace_seconds_per_km f60
    else F64.zero in
  stripped ← strip (get r "Activity Date" "");
  let date_text := PyStr.strip_chars double_quote stripped in
  if negb (String.eqb date_text "") then
    match Datetime.strptime date_text with
    | None => Raise ValueError
    | Some date =>
        let activity :=
          {| name := name; type := type; description := description;
             gear := gear; distance_km := distance_km;
             time_seconds := time_seconds; elapsed_time := elapsed_time;
             elevation_low := elevation_low; elevation_high := elevation_high;
             max_heart_rate := max_heart_rate; max_speed := max_speed;
             max_grade := max_grade; avg_grade := avg_grade;
             avg_speed_kmh := avg_speed_kmh; max_speed_kmh := max_speed_kmh;
             is_commute := is_commute; pace_min_per_km := pace_min_per_km;
             date := date; day_of_week := Datetime.strftime_A date;
             hour := Datetime.hour date |} in
        if F64.leb distance_km F64.zero then
          Ok (None, [SkipNoDistance name])
        else Ok (Some activity, [])
    end
  else Ok (None, [SkipNoDate name]).

(** [process_single_row]: [except Exception] prints the problem and
    returns [None]. *)
Definition process_single_row (r : row) : option Activity * list diagnostic :=
  match process_single_row_try r with
  | Ok v => v
  | Raise error => (None, [Problem (get r "Activity Name" "Unknown") error])
  end.

(** ** The loader *)

(** What [open] and the reader do for a file name: [open] raises, or the
    reader yields rows and then ends ([failure = None]) or raises. *)
Inductive source :=
| OpenRaises (e : exn)
| Rows (rows : list row) (failure : option exn).

Abbreviation filesystem := (string -> source).

(** The [for] loop over the reader: the activities appended and the
    diagnostics printed so far. *)
Fixpoint read_rows (rows : list row) (activities : list Activity)
  : list Activity * list diagnostic :=
  match rows with
  | [] => (activities, [])
  | r :: rows' =>
      let '(activity, out) := process_single_row r in
      let activities' :=
        match activity with
        | Some a => activities ++ [a]
        | None => activities
        end in
      let '(final, out') := read_rows rows' activities' in
      (final, out ++ out')
  end.

(** The body of the [try] of [read_csv_file]. *)
Definition read_csv_file_try (src : source)
  : result (list Activity) * list diagnostic :=
  match src with
  | OpenRaises e => (Raise e, [])
  | Rows rows failure =>
      let '(activities, out) := read_rows rows [] in
      match failure with
      | None => (Ok activities, out)
      | Some e => (Raise e, out)
      end
  end.

Definition exn_eqb (e1 e2 : exn) : bool :=
  match e1, e2 with
  | ValueError, ValueError | AttributeError, AttributeError
  | FileNotFoundError, FileNotFoundError | PermissionError, PermissionError
  | IsADirectoryError, IsADirectoryError
  | UnicodeDecodeError, UnicodeDecodeError => true
  | _, _ => false
  end.

(** [read_csv_file]: only [FileNotFoundError] is handled. *)
Definition read_csv_file (fs : filesystem) (filename : string)
  : result (list Activity) * list diagnostic :=
  match read_csv_file_try (fs filename) with
  | (Raise e, out) =>
      if exn_eqb e FileNotFoundError then
        (Ok [], out ++ [CouldNotFindFile filename; MakeSureFileIsInFolder])
      else (Raise e, out)
  | (Ok activities, out) => (Ok activities, out)
  end.

(** ** The categoriser *)

(** The loop of [separate_running_and_cycling] over the three lists. *)
Fixpoint separate_loop (activities running cycling other : list Activity)
  : result (list Activity * list Activity * list Activity) :=
  match activities with
  | [] => Ok (running, cycling, other)
  | activity :: rest =>
      activity_type ← lower (type activity);
      if PyStr.contains "run" activity_type then
        separate_loop rest (running ++ [activity]) cycling other
      else if existsb (fun word => PyStr.contains word activity_type)
                      ["ride"; "cycling"; "bike"] then
        separate_loop rest running (cycling ++ [activity]) other
      else
        separate_loop rest running cycling (other ++ [activity])
  end.

Definition separate_running_and_cycling (activities : list Activity)
  : result (list Activity * list Activity * list Activity) :=
  separate_loop activities [] [] [].

(** The classification rule in the words of the specification. *)
Inductive bucket := Running | Cycling | Other.

Definition classify (label : string) : bucket :=
  let l := PyStr.lower label in
  if PyStr.contains "run" l then Running
  else if PyStr.contains "ride" l || PyStr.contains "cycling" l
          || PyStr.contains "bike" l then Cycling
  else Other.

(** ** The [statistics] module and the builtins [sum], [max], [min], [sorted] *)

Module Statistics.

(** [sum(xs)]: from [0], left to right. *)
Definition sum (xs : list F64.float) : F64.float :=
  fold_left F64.add xs F64.zero.

(** [max(xs)] and [min(xs)]: the first greatest (smallest) element;
    [None] stands for the [ValueError] on an empty list. *)
Definition max (xs : list F64.float) : option F64.float :=
  match xs with
  | [] => None
  | x :: rest =>
      Some (fold_left (fun m y => if F64.gtb y m then y else m) rest x)
  end.

Definition min (xs : list F64.float) : option F64.float :=
  match xs with
  | [] => None
  | x :: rest =>
      Some (fold_left (fun m y => if F64.ltb y m then y else m) rest x)
  end.

(** [sorted(xs)]: the stable sort by [<]. *)
Fixpoint insert (x : F64.float) (l : list F64.float) : list F64.float :=
  match l with
  | [] => [x]
  | y :: l' => if F64.ltb x y then x :: l else y :: insert x l'
  end.

Definition sorted (xs : list F64.float) : list F64.float :=
  fold_left (fun acc x => insert x acc) xs [].

(** [x.as_integer_ratio()]: the exact value of a finite float as a
    fraction; [None] for an infinity or NaN. *)
Definition exact_ratio (x : F64.float) : option (Z * positive) :=
  match x with
  | S754_zero _ => Some (0, 1%positive)
  | S754_finite s m e =>
      let n := if s then Zneg m else Zpos m in
      match e with
      | Zneg k => Some (n, Pos.pow 2 k)
      | _ => Some (n * 2 ^ e, 1%positive)
      end
  | _ => None
  end.

Definition fraction_add (p q : Z * positive) : Z * positive :=
  (fst p * Zpos (snd q) + fst q * Zpos (snd p), (snd p * snd q)%positive).

(** [float(Fraction(n, d))]: the correctly rounded quotient. *)
Definition fraction_to_float (p : Z * positive) : F64.float :=
  match fst p with
  | Z0 => F64.zero
  | Zpos n => F64.round_ratio false n (snd p)
  | Zneg n => F64.round_ratio true n (snd p)
  end.

(** [_sum]: the exact sum of the finite values, or, when an infinity or
    a NaN is present, the float sum of these alone. *)
Definition exact_sum (xs : list F64.float) : Z * positive :=
  fold_left (fun acc x =>
               match exact_ratio x with
               | Some q => fraction_add acc q
               | None => acc
               end) xs (0, 1%positive).

Definition special_sum (xs : list F64.float) : F64.float :=
  fold_left (fun acc x => if F64.is_finite x then acc else F64.add acc x)
            xs F64.zero.

(** [statistics.mean(xs)]; [None] stands for the [StatisticsError] on
    an empty list. *)
Definition mean (xs : list F64.float) : option F64.float :=
  match xs with
  | [] => None
  | _ :: _ =>
      let n := Z.of_nat (length xs) in
      if forallb F64.is_finite xs then
        let total := exact_sum xs in
        Some (fraction_to_float (fst total, (snd total * Z.to_pos n)%positive))
      else Some (F64.div (special_sum xs) (F64.of_Z n))
  end.

(** [statistics.median(xs)]. *)
Definition median (xs : list F64.float) : option F64.float :=
  let data := sorted xs in
  let n := length data in
  match n with
  | O => None
  | _ =>
      if Nat.eqb (n mod 2) 1 then data !! (n / 2)%nat
      else
        let i := (n / 2)%nat in
        a ← data !! (i - 1)%nat;
        b ← data !! i;
        Some (F64.div (F64.add a b) (F64.of_Z 2))
  end.

End Statistics.

(** ** The aggregator *)

Module Stats.

(** The dictionary built by [calculate_advanced_stats]. *)
Record stats := mk_stats
  { count : Z;
    total_distance : F64.float;
    total_time_hours : F64.float;
    total_elapsed_hours : F64.float;
    commute_count : Z;
    avg_distance : F64.float;
    median_distance : F64.float;
    max_distance : F64.float;
    min_distance : F64.float;
    avg_speed : F64.float;
    max_speed : F64.float;
    avg_max_hr : F64.float;
    avg_pace : F64.float;
    best_pace : F64.float;
    avg_max_grade : F64.float;
    steepest_grade : F64.float;
    avg_grade : F64.float }.

(** What the function returns: the empty dictionary, or the seventeen
    statistics. *)
Inductive stats_dict :=
| Empty
| Full (s : stats).


End Stats.

(** [f(xs) if xs else 0] *)
Definition if_any (f : list F64.float -> option F64.float) (xs : list F64.float)
  : F64.float :=
  match xs with
  | [] => F64.zero
  | _ :: _ => default F64.zero (f xs)
  end.

Definition positive_values (f : Activity -> F64.float) (activities : list Activity)
  : list F64.float :=
  List.filter (fun x => F64.gtb x F64.zero) (map f activities).

Definition f3600 : F64.float := F64.of_Z 3600.

(** [calculate_advanced_stats]; the report it prints is presentation and
    is left out, so [activity_type_name] only names the report. *)
Definition calculate_advanced_stats (activities : list Activity)
    (activity_type_name : string) : Stats.stats_dict :=
  match activities with
  | [] => Stats.Empty
  | _ :: _ =>
      let total_count := Z.of_nat (length activities) in
      let total_distance := Statistics.sum (map distance_km activities) in
      let total_time_hours :=
        F64.div (Statistics.sum (map time_seconds activities)) f3600 in
      let total_elapsed_hours :=
        F64.div (Statistics.sum (map elapsed_time activities)) f3600 in
      let commute_count :=
        Z.of_nat (length (List.filter is_commute activities)) in
      let distances := positive_values distance_km activities in
      let speeds := positive_values avg_speed_kmh activities in
      let max_speeds := positive_values max_speed_kmh activities in
      let heart_rates := positive_values max_heart_rate activities in
      let paces := positive_values pace_min_per_km activities in
      let max_grades := positive_values max_grade activities in
      let avg_grades :=
        List.filter (fun x => F64.neqb x F64.zero) (map avg_grade activities) in
      Stats.Full
        {| Stats.count := total_count;
           Stats.total_distance := total_distance;
           Stats.total_time_hours := total_time_hours;
           Stats.total_elapsed_hours := total_elapsed_hours;
           Stats.commute_count := commute_count;
           Stats.avg_distance := if_any Statistics.mean distances;
           Stats.median_distance := if_any Statistics.median distances;
           Stats.max_distance := if_any Statistics.max distances;
           Stats.min_distance := if_any Statistics.min distances;
           Stats.avg_speed := if_any Statistics.mean speeds;
           Stats.max_speed := if_any Statistics.max max_speeds;
           Stats.avg_max_hr := if_any Statistics.mean heart_rates;
           Stats.avg_pace := if_any Statistics.mean paces;
           Stats.best_pace := if_any Statistics.min paces;
           Stats.avg_max_grade := if_any Statistics.mean max_grades;
           Stats.steepest_grade := if_any Statistics.max max_grades;
           Stats.avg_grade := if_any Statistics.mean avg_grades |}
  end.

(** ** Weekly patterns *)

(** A [defaultdict]: the keys in insertion order, each with its value. *)
Section DefaultDict.
Context {V : Type} (default_value : V).

Fixpoint dd_find (d : list (string * V)) (k : string) : option V :=
  match d with
  | [] => None
  | (k', v) :: d' => if String.eqb k k' then Some v else dd_find d' k
  end.

Fixpoint dd_set (d : list (string * V)) (k : string) (v : V)
  : list (string * V) :=
  match d with
  | [] => [(k, v)]
  | (k', v') :: d' =>
      if String.eqb k k' then (k, v) :: d' else (k', v') :: dd_set d' k v
  end.

(** [d[k]]: a missing key is inserted with the default value. *)
Definition dd_getitem (d : list (string * V)) (k : string)
  : V * list (string * V) :=
  match dd_find d k with
  | Some v => (v, d)
  | None => (default_value, d ++ [(k, default_value)])
  end.

(** [d[k] = f(d[k])], the shape of [d[k] += x]. *)
Definition dd_update (f : V -> V) (d : list (string * V)) (k : string)
  : list (string * V) :=
  let '(v, d') := dd_getitem d k in dd_set d' k (f v).
End DefaultDict.

(** One constructor per [print] of [analyze_weekly_patterns]. *)
Inductive weekly_line :=
| WeeklyBanner (activity_type : string)
| WeeklyHeader
| WeeklyRule
| WeeklyRow (day : string) (count : Z) (total_dist avg_dist : F64.float)
| WeeklyFavorite (activity_type favorite_day : string) (count : Z).

Definition days_order : list string :=
  ["Monday"; "Tuesday"; "Wednesday"; "Thursday"; "Friday"; "Saturday"; "Sunday"].

(** The tallying loop. *)
Definition tally (activities : list Activity)
  : list (string * Z) * list (string * F64.float) :=
  fold_left
    (fun '(day_counts, day_distances) activity =>
       let day := day_of_week activity in
       (dd_update 0 (fun c => c + 1) day_counts day,
        dd_update F64.zero (fun t => F64.add t (distance_km activity))
                  day_distances day))
    activities ([], []).

(** The printing loop over [days_order]; reading a missing day inserts it. *)
Fixpoint weekly_rows (days : list string) (day_counts : list (string * Z))
    (day_distances : list (string * F64.float))
  : list weekly_line * list (string * Z) :=
  match days with
  | [] => ([], day_counts)
  | day :: days' =>
      let '(count, day_counts') := dd_getitem 0 day_counts day in
      let '(total_dist, day_distances') := dd_getitem F64.zero day_distances day in
      let avg_dist :=
        if count >? 0 then F64.div total_dist (F64.of_Z count) else F64.zero in
      let '(lines, final) := weekly_rows days' day_counts' day_distances' in
      (WeeklyRow day count total_dist avg_dist :: lines, final)
  end.

(** [max(d, key=d.get)]: the first key with the greatest value. *)
Definition max_key (d : list (string * Z)) : option string :=
  match d with
  | [] => None
  | (k, v) :: d' =>
      Some (fst (fold_left (fun '(bk, bv) '(k', v') =>
                              if v' >? bv then (k', v') else (bk, bv))
                           d' (k, v)))
  end.

(** [analyze_weekly_patterns]: the lines it prints. *)
Definition analyze_weekly_patterns (activities : list Activity)
    (activity_type : string) : list weekly_line :=
  let '(day_counts, day_distances) := tally activities in
  let '(lines, day_counts') := weekly_rows days_order day_counts day_distances in
  let favorite_day := default "None" (max_key day_counts') in
  [WeeklyBanner (PyStr.upper activity_type); WeeklyHeader; WeeklyRule]
  ++ lines
  ++ [WeeklyFavorite activity_type favorite_day
        (fst (dd_getitem 0 day_counts' favorite_day))].

(** The per-weekday entries among the printed lines. *)
Definition weekly_entries (lines : list weekly_line)
  : list (string * Z * F64.float * F64.float) :=
  omap (fun l => match l with
                 | WeeklyRow d c t a => Some (d, c, t, a)
                 | _ => None
                 end) lines.

(** ** The reports: exceptions, printing and arithmetic

    The report functions print while they compute, and some of their
    arithmetic can raise.  A report is the list of lines printed, with the
    value returned or the exception that ended it. *)

(** What a report function can raise: an exception of the loader and the
    normaliser, or one of the arithmetic and of [input]. *)
Inductive raised :=
| Exn (e : exn)
| ZeroDivisionError
| OverflowError
| EOFError.

Inductive outcome (A : Type) :=
| Return (a : A)
| Throw (e : raised).
Arguments Return {A} a.
Arguments Throw {A} e.

(** Lines of type [L] printed, then a value or an exception. *)
Definition printing (L A : Type) : Type := list L * outcome A.

#[global] Instance printing_ret {L} : MRet (printing L) :=
  fun A a => ([], Return a).
#[global] Instance printing_bind {L} : MBind (printing L) := fun A B f m =>
  match m with
  | (out, Return a) => let '(out', r) := f a in (out ++ out', r)
  | (out, Throw e) => (out, Throw e)
  end.

(** [print(line)] *)
Definition print {L} (line : L) : printing L unit := ([line], Return tt).

(** A computation that prints nothing. *)
Definition quiet {L A} (o : outcome A) : printing L A := ([], o).

(** The lines of a report, and whether it raised. *)
Definition printed {L A} (m : printing L A) : list L := fst m.
Definition raises {L A} (m : printing L A) : option raised :=
  match snd m with
  | Return _ => None
  | Throw e => Some e
  end.

Module Py.

(** [x - y] on floats. *)
Definition sub : F64.float -> F64.float -> F64.float := SFsub F64.prec F64.emax.

(** [float(n)] for an [int]: too large an [int] is an [OverflowError]. *)
Definition float_of_int (n : Z) : outcome F64.float :=
  let x := F64.of_Z n in
  if F64.is_finite x then Return x else Throw OverflowError.

(** [x / y] on floats: a zero divisor is a [ZeroDivisionError]. *)
Definition float_truediv (x y : F64.float) : outcome F64.float :=
  if F64.eqb y F64.zero then Throw ZeroDivisionError
  else Return (F64.div x y).

(** [x / n] for a float and an [int]. *)
Definition float_div_int (x : F64.float) (n : Z) : outcome F64.float :=
  match float_of_int n with
  | Return y => float_truediv x y
  | Throw e => Throw e
  end.

(** [a / b] on two [int]s: the correctly rounded quotient. *)
Definition int_truediv (a b : Z) : outcome F64.float :=
  let quotient (n : Z) (d : positive) :=
    let r :=
      match n with
      | Z0 => S754_zero (b <? 0)
      | _ => Statistics.fraction_to_float (n, d)
      end in
    if F64.is_finite r then Return r else Throw OverflowError in
  match b with
  | Z0 => Throw ZeroDivisionError
  | Zpos d => quotient a d
  | Zneg d => quotient (- a) d
  end.

(** [int(x)]: truncation towards zero; no [int] for an infinity or NaN. *)
Definition int (x : F64.float) : outcome Z :=
  match x with
  | S754_zero _ => Return 0
  | S754_finite s m e =>
      let magnitude :=
        match e with
        | Zneg k => Zpos m / 2 ^ Zpos k
        | _ => Zpos m * 2 ^ e
        end in
      Return (if s then - magnitude else magnitude)
  | S754_infinity _ => Throw OverflowError
  | S754_nan => Throw (Exn ValueError)
  end.

(** [str(n)] for an [int]. *)
Definition str (n : Z) : string := NilZero.string_of_int (Z.to_int n).

(** [n] in decimal, filled with zeros after the sign up to [width]
    characters: [f"{n:02d}"] for [width = 2]. *)
Definition zero_padded (width : nat) (n : Z) : string :=
  let digits := str (Z.abs n) in
  let sign := if n <? 0 then "-" else "" in
  (sign
   ++ string_of_list_ascii
        (repeat "0"%char (width - String.length sign - String.length digits))
   ++ digits)%string.

Definition format_02d (n : Z) : string := zero_padded 2 n.

(** [max] of [int]s; [None] stands for the [ValueError] on no value. *)
Definition max_int (l : list Z) : option Z :=
  match l with
  | [] => None
  | x :: rest => Some (fold_left (fun m y => if y >? m then y else m) rest x)
  end.

(** [bool(c)] for a cell: [None] and the empty text are false. *)
Definition truthy (c : cell) : bool :=
  match c with
  | CStr s => negb (String.eqb s "")
  | CNone => false
  end.

(** [range(lo, hi)] *)
Definition range (lo hi : Z) : list Z := seqZ lo (hi - lo).

(** [sum] of [int]s. *)
Definition sum_int (l : list Z) : Z := fold_left Z.add l 0.

(** [max(activities, key=key)] and [min(activities, key=key)]: the first
    activity whose key is the greatest (the smallest); [None] stands for
    the [ValueError] on an empty list. *)
Definition max_by (key : Activity -> F64.float) (activities : list Activity)
  : option Activity :=
  match activities with
  | [] => None
  | a :: rest =>
      Some (fold_left (fun m x => if F64.gtb (key x) (key m) then x else m) rest a)
  end.

Definition min_by (key : Activity -> F64.float) (activities : list Activity)
  : option Activity :=
  match activities with
  | [] => None
  | a :: rest =>
      Some (fold_left (fun m x => if F64.ltb (key x) (key m) then x else m) rest a)
  end.

(** [sorted(items, key=lambda x: x[1], reverse=True)]: by count, the
    greatest first; the sort is stable, so items of equal count keep their
    order. *)
Fixpoint insert_by_count {K} (x : K * Z) (l : list (K * Z)) : list (K * Z) :=
  match l with
  | [] => [x]
  | y :: l' => if snd y <? snd x then x :: l else y :: insert_by_count x l'
  end.

Definition sorted_by_count {K} (items : list (K * Z)) : list (K * Z) :=
  fold_left (fun acc x => insert_by_count x acc) items [].

(** [sorted(set(keys))] for texts: ascending, without duplicates. *)
Fixpoint insert_text (x : string) (l : list string) : list string :=
  match l with
  | [] => [x]
  | y :: l' =>
      if String.eqb x y then l
      else if String.ltb x y then x :: l
      else y :: insert_text x l'
  end.

Definition sorted_set (keys : list string) : list string :=
  fold_left (fun acc x => insert_text x acc) keys [].

End Py.

(** ** Pace as text *)

(** [format_pace] *)
Definition format_pace (pace_min_per_km : F64.float) : outcome string :=
  if F64.leb pace_min_per_km F64.zero then Return "N/A"
  else
    match Py.int pace_min_per_km with
    | Throw e => Throw e
    | Return minutes =>
        match Py.float_of_int minutes with
        | Throw e => Throw e
        | Return minutes_float =>
            match Py.int (F64.mul (Py.sub pace_min_per_km minutes_float)
                                  (F64.of_Z 60)) with
            | Throw e => Throw e
            | Return seconds =>
                Return (Py.str minutes ++ ":" ++ Py.format_02d seconds
                        ++ " min/km")%string
            end
        end
    end.

(** ** Time of day *)

(** One constructor per [print] of [analyze_time_of_day_patterns]. *)
Inductive time_line :=
| TimeBanner (activity_type : string)
| TimeHeading
| TimeRow (period : string) (count : Z) (percentage : F64.float).

(** The loop that counts the activities of each hour. *)
Definition count_hours (activities : list Activity) : gmap Z Z :=
  fold_left
    (fun hour_counts activity =>
       let hour := hour activity in
       <[hour := default 0 (hour_counts !! hour) + 1]> hour_counts)
    activities ∅.

Definition periods : list (string * list Z) :=
  [ ("Early Morning (5-8 AM)", Py.range 5 9);
    ("Morning (9-11 AM)", Py.range 9 12);
    ("Afternoon (12-4 PM)", Py.range 12 17);
    ("Evening (5-8 PM)", Py.range 17 21);
    ("Night (9 PM - 4 AM)", Py.range 21 24 ++ Py.range 0 5) ].

(** [period_counts], in the order of [periods]; reading an hour that is
    not a key of [hour_counts] gives [0]. *)
Definition period_counts (hour_counts : gmap Z Z) : list (string * Z) :=
  map (fun '(period_name, hours) =>
         (period_name,
          Py.sum_int (map (fun hour => default 0 (hour_counts !! hour)) hours)))
      periods.

(** The printing loop over the sorted periods. *)
Fixpoint time_rows (items : list (string * Z)) (activities : list Activity)
  : printing time_line unit :=
  match items with
  | [] => mret tt
  | (period, count) :: items' =>
      (if count >? 0 then
         quotient ← quiet (Py.int_truediv count (Z.of_nat (length activities)));
         print (TimeRow period count (F64.mul quotient (F64.of_Z 100)))
       else mret tt);;
      time_rows items' activities
  end.

Definition analyze_time_of_day_patterns (activities : list Activity)
    (activity_type : string) : printing time_line unit :=
  print (TimeBanner (PyStr.upper activity_type));;
  let hour_counts := count_hours activities in
  let period_counts := period_counts hour_counts in
  print TimeHeading;;
  time_rows (Py.sorted_by_count period_counts) activities.

(** ** Personal records *)

(** One constructor per [print] of [analyze_personal_records]. *)
Inductive record_line :=
| RecordsBanner (activity_type : string)
| RecordLongest (activity_type : string) (distance : F64.float)
| RecordFastest (speed : F64.float)
| RecordSteepest (grade : F64.float)
| RecordBestPace (pace : string)
| RecordDate (d : Datetime.datetime)
| RecordDistance (distance : F64.float)
| RecordName (n : cell).

(** [max(activities, key=...) if any(... > 0 ...) else None] *)
Definition best_if_any (best : (Activity -> F64.float) -> list Activity -> option Activity)
    (key : Activity -> F64.float) (activities : list Activity) : option Activity :=
  if existsb (fun a => F64.gtb (key a) F64.zero) activities
  then best key activities else None.

Definition analyze_personal_records (activities : list Activity)
    (activity_type : string) : printing record_line unit :=
  match Py.max_by distance_km activities with
  | None => mret tt
  | Some longest =>
      print (RecordsBanner (PyStr.upper activity_type));;
      let fastest_speed := best_if_any Py.max_by avg_speed_kmh activities in
      let steepest_climb := best_if_any Py.max_by max_grade activities in
      print (RecordLongest (PyStr.lower activity_type) (distance_km longest));;
      print (RecordDate (date longest));;
      print (RecordName (name longest));;
      match fastest_speed with
      | Some fastest_speed =>
          if F64.gtb (avg_speed_kmh fastest_speed) F64.zero then
            print (RecordFastest (avg_speed_kmh fastest_speed));;
            print (RecordDate (date fastest_speed));;
            print (RecordDistance (distance_km fastest_speed));;
            print (RecordName (name fastest_speed))
          else mret tt
      | None => mret tt
      end;;
      match steepest_climb with
      | Some steepest_climb =>
          if F64.gtb (max_grade steepest_climb) F64.zero then
            print (RecordSteepest (max_grade steepest_climb));;
            print (RecordDate (date steepest_climb));;
            print (RecordDistance (distance_km steepest_climb));;
            print (RecordName (name steepest_climb))
          else mret tt
      | None => mret tt
      end;;
      if String.eqb (PyStr.lower activity_type) "running" then
        let best_pace_activity := best_if_any Py.min_by pace_min_per_km activities in
        match best_pace_activity with
        | Some best_pace_activity =>
            if F64.gtb (pace_min_per_km best_pace_activity) F64.zero then
              pace ← quiet (format_pace (pace_min_per_km best_pace_activity));
              print (RecordBestPace pace);;
              print (RecordDate (date best_pace_activity));;
              print (RecordDistance (distance_km best_pace_activity));;
              print (RecordName (name best_pace_activity))
            else mret tt
        | None => mret tt
        end
      else mret tt
  end.

(** ** Gear *)

(** One constructor per [print] of [analyze_gear_usage]. *)
Inductive gear_line :=
| GearBanner (activity_type : string)
| GearHeading
| GearRule
| GearName (gear : string)
| GearActivities (count : Z)
| GearTotal (distance : F64.float)
| GearAverage (avg_distance : F64.float).

(** [activity['gear'] if activity['gear'] else 'No gear specified'] *)
Definition gear_key (activity : Activity) : string :=
  match gear activity with
  | CStr s => if Py.truthy (CStr s) then s else "No gear specified"
  | CNone => "No gear specified"
  end.

(** The tallying loop. *)
Definition tally_gear (activities : list Activity)
  : list (string * Z) * list (string * F64.float) :=
  fold_left
    (fun '(gear_counts, gear_distances) activity =>
       let gear := gear_key activity in
       (dd_update 0 (fun c => c + 1) gear_counts gear,
        dd_update F64.zero (fun t => F64.add t (distance_km activity))
                  gear_distances gear))
    activities ([], []).

(** The printing loop over the sorted keys. *)
Fixpoint gear_rows (keys : list string) (gear_counts : list (string * Z))
    (gear_distances : list (string * F64.float)) : printing gear_line unit :=
  match keys with
  | [] => mret tt
  | gear :: keys' =>
      let '(count, gear_counts') := dd_getitem 0 gear_counts gear in
      let '(distance, gear_distances') := dd_getitem F64.zero gear_distances gear in
      avg_distance ← quiet (Py.float_div_int distance count);
      print GearRule;;
      print (GearName gear);;
      print (GearActivities count);;
      print (GearTotal distance);;
      print (GearAverage avg_distance);;
      gear_rows keys' gear_counts' gear_distances'
  end.

Definition analyze_gear_usage (activities : list Activity)
    (activity_type : string) : printing gear_line unit :=
  if negb (existsb (fun a => Py.truthy (gear a)) activities) then mret tt
  else
    print (GearBanner (PyStr.upper activity_type));;
    let '(gear_counts, gear_distances) := tally_gear activities in
    print GearHeading;;
    gear_rows (map fst (Py.sorted_by_count gear_counts)) gear_counts gear_distances.

(** ** Months as text *)

(** [%m]: [1[0-2]|0[1-9]|[1-9]]. *)
Definition re_m : Datetime.regex :=
  Datetime.alternatives
    [ Datetime.RSeq (Datetime.lit "1") (Datetime.range "0" "2");
      Datetime.RSeq (Datetime.lit "0") (Datetime.range "1" "9");
      Datetime.range "1" "9" ].

(** The expression of ['%Y-%m']. *)
Definition month_regex : Datetime.regex :=
  Datetime.sequence [Datetime.re_Y; Datetime.lit "-"; re_m].

(** [datetime.strptime(text, '%Y-%m')]: the year is the first four
    characters matched and the month what is matched after the hyphen;
    the day is 1, the time midnight.  [None] stands for the
    [ValueError]. *)
Definition strptime_month (text : string) : option Datetime.datetime :=
  let l := PyStr.chars text in
  rest ← Datetime.match_re month_regex l (fun _ => []) (fun _ rest => Some rest);
  if negb (Nat.eqb (length rest) 0) then None
  else
    let d := {| Datetime.year := Datetime.int_of (take 4 l);
                Datetime.month := Datetime.int_of (drop 5 l);
                Datetime.day := 1; Datetime.hour := 0;
                Datetime.minute := 0; Datetime.second := 0 |} in
    if Datetime.valid d then Some d else None.

(** The abbreviated month names of the C locale as [strftime] writes
    them. *)
Definition month_abbr : list string :=
  ["Jan"; "Feb"; "Mar"; "Apr"; "May"; "Jun";
   "Jul"; "Aug"; "Sep"; "Oct"; "Nov"; "Dec"].

(** [%Y] in [strftime]: the year in decimal, as the C library of Linux
    writes it; from the year 1000 on these are the four digits that every
    platform writes. *)
Definition strftime_Y (d : Datetime.datetime) : string :=
  Py.str (Datetime.year d).

(** [d.strftime('%b %Y')] and [d.strftime('%Y-%m')]. *)
Definition strftime_b_Y (d : Datetime.datetime) : string :=
  (nth (Z.to_nat (Datetime.month d - 1)) month_abbr "" ++ " " ++ strftime_Y d)%string.

Definition strftime_Y_m (d : Datetime.datetime) : string :=
  (strftime_Y d ++ "-" ++ Py.zero_padded 2 (Datetime.month d))%string.

(** ** The bar chart *)

(** One constructor per [print] of [create_text_bar_chart]; a bar is
    given by the number of its blocks. *)
Inductive chart_line :=
| ChartTitle (title : string)
| ChartRule (width : Z)
| ChartNoData
| ChartBar (month_name : string) (bar : Z) (count : Z).

(** The loop over the items of [data_dict]. *)
Fixpoint chart_bars (items : list (string * Z)) (max_value max_bar_length : Z)
  : printing chart_line unit :=
  match items with
  | [] => mret tt
  | (month, count) :: items' =>
      bar_length ← quiet
        (if max_value >? 0 then
           match Py.int_truediv count max_value with
           | Throw e => Throw e
           | Return quotient =>
               match Py.float_of_int max_bar_length with
               | Throw e => Throw e
               | Return length_float => Py.int (F64.mul quotient length_float)
               end
           end
         else Return 0);
      let bar := Z.max 0 bar_length in
      let month_name :=
        match strptime_month month with
        | Some month_date => strftime_b_Y month_date
        | None => month
        end in
      print (ChartBar month_name bar count);;
      chart_bars items' max_value max_bar_length
  end.

Definition create_text_bar_chart (data_dict : list (string * Z)) (title : string)
    (max_bar_length : Z) : printing chart_line unit :=
  print (ChartTitle title);;
  print (ChartRule (Z.of_nat (String.length title)));;
  match Py.max_int (map snd data_dict) with
  | None => print ChartNoData
  | Some max_value => chart_bars data_dict max_value max_bar_length
  end.

(** ** Monthly patterns *)

(** The lines of [analyze_monthly_patterns]: its banner and the lines of
    its charts. *)
Inductive monthly_line :=
| MonthlyRule
| MonthlyTitle
| MonthlyChart (line : chart_line).

(** A report whose lines are part of a larger report. *)
Definition within {L L' A} (f : L -> L') (m : printing L A) : printing L' A :=
  (map f (fst m), snd m).

(** One of the three counting loops. *)
Definition tally_months (activities : list Activity) : list (string * Z) :=
  fold_left
    (fun monthly activity =>
       let month_key := strftime_Y_m (date activity) in
       dd_update 0 (fun c => c + 1) monthly month_key)
    activities [].

(** [l[-12:] if len(l) >= 12 else l] *)
Definition last_twelve {A} (l : list A) : list A :=
  if (12 <=? length l)%nat then drop (length l - 12) l else l.

(** [{month: monthly[month] for month in recent_months if monthly[month] > 0}] *)
Definition recent (monthly : list (string * Z)) (recent_months : list string)
  : list (string * Z) :=
  omap (fun month =>
          let count := fst (dd_getitem 0 monthly month) in
          if count >? 0 then Some (month, count) else None)
       recent_months.

Definition analyze_monthly_patterns (running cycling other : list Activity)
  : printing monthly_line unit :=
  print MonthlyRule;;
  print MonthlyTitle;;
  print MonthlyRule;;
  let monthly_running := tally_months running in
  let monthly_cycling := tally_months cycling in
  let monthly_other := tally_months other in
  let all_months :=
    Py.sorted_set (map fst monthly_running ++ map fst monthly_cycling
                   ++ map fst monthly_other) in
  let recent_months := last_twelve all_months in
  let recent_running := recent monthly_running recent_months in
  let recent_cycling := recent monthly_cycling recent_months in
  let recent_other := recent monthly_other recent_months in
  (if recent_running is [] then mret tt
   else within MonthlyChart
          (create_text_bar_chart recent_running "RUNNING ACTIVITIES BY MONTH" 40));;
  (if recent_cycling is [] then mret tt
   else within MonthlyChart
          (create_text_bar_chart recent_cycling "CYCLING ACTIVITIES BY MONTH" 40));;
  (if recent_other is [] then mret tt
   else within MonthlyChart
          (create_text_bar_chart recent_other "OTHER ACTIVITIES BY MONTH" 40)).

(** ** Running against cycling *)

(** One constructor per [print] of [compare_running_vs_cycling]. *)
Inductive compare_line :=
| CompareRule
| CompareTitle
| NoRunningToCompare
| NoCyclingToCompare
| FrequencyHeading
| FrequencyRunning (count : Z) (percentage : F64.float)
| FrequencyCycling (count : Z) (percentage : F64.float)
| DistanceHeading
| DistanceRunning (km percentage : F64.float)
| DistanceCycling (km percentage : F64.float)
| AverageHeading
| AverageRunning (km : F64.float)
| AverageCycling (km : F64.float)
| RunningLonger (times : F64.float)
| CyclingLonger (times : F64.float)
| SameAverage
| TimeSpentHeading
| TimeRunning (hours : F64.float)
| TimeCycling (hours : F64.float).

Definition f100 : F64.float := F64.of_Z 100.

Definition compare_running_vs_cycling (running_act cycling_act : list Activity)
  : printing compare_line unit :=
  print CompareRule;;
  print CompareTitle;;
  print CompareRule;;
  if running_act is [] then print NoRunningToCompare
  else if cycling_act is [] then print NoCyclingToCompare
  else
    let len_running := Z.of_nat (length running_act) in
    let len_cycling := Z.of_nat (length cycling_act) in
    let total_activities := len_running + len_cycling in
    quotient ← quiet (Py.int_truediv len_running total_activities);
    let running_percentage := F64.mul quotient f100 in
    print FrequencyHeading;;
    print (FrequencyRunning len_running running_percentage);;
    print (FrequencyCycling len_cycling (Py.sub f100 running_percentage));;
    let run_total_km := Statistics.sum (map distance_km running_act) in
    let cycle_total_km := Statistics.sum (map distance_km cycling_act) in
    let total_distance := F64.add run_total_km cycle_total_km in
    print DistanceHeading;;
    run_share ← quiet (Py.float_truediv run_total_km total_distance);
    print (DistanceRunning run_total_km (F64.mul run_share f100));;
    cycle_share ← quiet (Py.float_truediv cycle_total_km total_distance);
    print (DistanceCycling cycle_total_km (F64.mul cycle_share f100));;
    run_avg_distance ← quiet (Py.float_div_int run_total_km len_running);
    cycle_avg_distance ← quiet (Py.float_div_int cycle_total_km len_cycling);
    print AverageHeading;;
    print (AverageRunning run_avg_distance);;
    print (AverageCycling cycle_avg_distance);;
    (if F64.gtb run_avg_distance cycle_avg_distance then
       times ← quiet (Py.float_truediv run_avg_distance cycle_avg_distance);
       print (RunningLonger times)
     else if F64.gtb cycle_avg_distance run_avg_distance then
       times ← quiet (Py.float_truediv cycle_avg_distance run_avg_distance);
       print (CyclingLonger times)
     else print SameAverage);;
    let run_total_hours :=
      F64.div (Statistics.sum (map time_seconds running_act)) f3600 in
    let cycle_total_hours :=
      F64.div (Statistics.sum (map time_seconds cycling_act)) f3600 in
    print TimeSpentHeading;;
    print (TimeRunning run_total_hours);;
    print (TimeCycling cycle_total_hours).

(** ** The report of the aggregator *)

(** One constructor per [print] of [calculate_advanced_stats]. *)
Inductive stats_line :=
| NoActivitiesFound (activity_type_name : string)
| StatsBanner (activity_type_name : string)
| TotalActivities (count : Z)
| CommuteActivities (count : Z) (percentage : F64.float)
| TotalDistance (km : F64.float)
| TotalMovingTime (hours days : F64.float)
| TotalElapsedTime (hours days : F64.float)
| DistanceStatistics
| AverageDistance (km : F64.float)
| MedianDistance (km : F64.float)
| LongestDistance (km : F64.float)
| ShortestDistance (km : F64.float)
| SpeedStatistics
| AverageSpeed (kmh : F64.float)
| TopSpeed (kmh : F64.float)
| PaceStatistics
| AveragePace (pace : string)
| BestPace (pace : string)
| HeartRateStatistics
| AverageMaxHR (bpm : F64.float)
| GradientStatistics
| AverageMaxGradient (grade : F64.float)
| SteepestGradient (grade : F64.float)
| OverallAverageGradient (grade : F64.float).

Definition f24 : F64.float := F64.of_Z 24.

(** What [calculate_advanced_stats] prints, in the order of its [print]s;
    the dictionary it builds is [calculate_advanced_stats]. *)
Definition advanced_stats_report (activities : list Activity)
    (activity_type_name : string) : printing stats_line unit :=
  match calculate_advanced_stats activities activity_type_name with
  | Stats.Empty => print (NoActivitiesFound activity_type_name)
  | Stats.Full stats =>
      let total_count := Stats.count stats in
      let commute_count := Stats.commute_count stats in
      let speeds := positive_values avg_speed_kmh activities in
      let heart_rates := positive_values max_heart_rate activities in
      let paces := positive_values pace_min_per_km activities in
      let max_grades := positive_values max_grade activities in
      let avg_grades :=
        List.filter (fun x => F64.neqb x F64.zero) (map avg_grade activities) in
      print (StatsBanner (PyStr.upper activity_type_name));;
      print (TotalActivities total_count);;
      (if commute_count >? 0 then
         quotient ← quiet (Py.int_truediv commute_count total_count);
         print (CommuteActivities commute_count (F64.mul quotient f100))
       else mret tt);;
      print (TotalDistance (Stats.total_distance stats));;
      print (TotalMovingTime (Stats.total_time_hours stats)
               (F64.div (Stats.total_time_hours stats) f24));;
      print (TotalElapsedTime (Stats.total_elapsed_hours stats)
               (F64.div (Stats.total_elapsed_hours stats) f24));;
      print DistanceStatistics;;
      print (AverageDistance (Stats.avg_distance stats));;
      print (MedianDistance (Stats.median_distance stats));;
      print (LongestDistance (Stats.max_distance stats));;
      print (ShortestDistance (Stats.min_distance stats));;
      (if speeds is [] then mret tt
       else
         print SpeedStatistics;;
         print (AverageSpeed (Stats.avg_speed stats));;
         print (TopSpeed (Stats.max_speed stats)));;
      (if paces is [] then mret tt
       else if String.eqb (PyStr.lower activity_type_name) "running" then
         print PaceStatistics;;
         pace ← quiet (format_pace (Stats.avg_pace stats));
         print (AveragePace pace);;
         pace ← quiet (format_pace (Stats.best_pace stats));
         print (BestPace pace)
       else mret tt);;
      (if heart_rates is [] then mret tt
       else
         print HeartRateStatistics;;
         print (AverageMaxHR (Stats.avg_max_hr stats)));;
      (if max_grades is [] then mret tt
       else
         print GradientStatistics;;
         print (AverageMaxGradient (Stats.avg_max_grade stats));;
         print (SteepestGradient (Stats.steepest_grade stats));;
         (if avg_grades is [] then mret tt
          else print (OverallAverageGradient (Stats.avg_grade stats))))
  end.

(** ** The program *)

(** The lines of [main]: its own, with the text of the fixed ones, and
    those of the loader and of the reports. *)
Inductive main_line :=
| MainTitle
| MainRule
| MainReading (filename : string)
| MainLoader (d : diagnostic)
| MainNothingLoaded
| MainLoaded (count : Z)
| BreakdownHeading
| BreakdownRunning (count : Z)
| BreakdownCycling (count : Z)
| BreakdownOther (count : Z)
| MenuTitle
| MenuItem (text : string)
| MenuPrompt
| MainStats (line : stats_line)
| MainWeekly (line : weekly_line)
| MainTime (line : time_line)
| MainRecords (line : record_line)
| MainGear (line : gear_line)
| MainMonthly (line : monthly_line)
| MainCompare (line : compare_line)
| MainComplete.

(** The twelve [print]s of the menu. *)
Definition menu : list main_line :=
  [ MainRule; MenuTitle; MainRule;
    MenuItem "1. Detailed Statistics";
    MenuItem "2. Weekly Patterns";
    MenuItem "3. Time of Day Analysis";
    MenuItem "4. Personal Records";
    MenuItem "5. Gear Analysis";
    MenuItem "6. Monthly Patterns";
    MenuItem "7. Running vs Cycling Comparison";
    MenuItem "8. Run All Analyses";
    MenuItem "0. Cancel and Exit" ].

(** [choice in [...]] *)
Definition chosen (choice : string) (choices : list string) : bool :=
  existsb (String.eqb choice) choices.

(** [if activities: report(activities, ...)] *)
Definition unless_empty {L} (activities : list Activity)
    (report : printing L unit) : printing L unit :=
  if activities is [] then mret tt else report.

(** One turn of the menu after the choice is read. *)
Definition run_choice (choice : string)
    (running_activities cycling_activities other_activities : list Activity)
  : printing main_line unit :=
  (if chosen choice ["1"; "8"; ""] then
     unless_empty running_activities
       (within MainStats (advanced_stats_report running_activities "Running"));;
     unless_empty cycling_activities
       (within MainStats (advanced_stats_report cycling_activities "Cycling"));;
     unless_empty other_activities
       (within MainStats
          (advanced_stats_report other_activities "Other Activities"))
   else mret tt);;
  (if chosen choice ["2"; "8"; ""] then
     unless_empty running_activities
       (map MainWeekly (analyze_weekly_patterns running_activities "Running"),
        Return tt);;
     unless_empty cycling_activities
       (map MainWeekly (analyze_weekly_patterns cycling_activities "Cycling"),
        Return tt)
   else mret tt);;
  (if chosen choice ["3"; "8"; ""] then
     unless_empty running_activities
       (within MainTime (analyze_time_of_day_patterns running_activities "Running"));;
     unless_empty cycling_activities
       (within MainTime (analyze_time_of_day_patterns cycling_activities "Cycling"))
   else mret tt);;
  (if chosen choice ["4"; "8"; ""] then
     unless_empty running_activities
       (within MainRecords (analyze_personal_records running_activities "Running"));;
     unless_empty cycling_activities
       (within MainRecords (analyze_personal_records cycling_activities "Cycling"))
   else mret tt);;
  (if chosen choice ["5"; "8"; ""] then
     unless_empty running_activities
       (within MainGear (analyze_gear_usage running_activities "Running"));;
     unless_empty cycling_activities
       (within MainGear (analyze_gear_usage cycling_activities "Cycling"))
   else mret tt);;
  (if chosen choice ["6"; "8"; ""] then
     within MainMonthly
       (analyze_monthly_patterns running_activities cycling_activities
          other_activities)
   else mret tt);;
  (if chosen choice ["7"; "8"; ""] then
     within MainCompare
       (compare_running_vs_cycling running_activities cycling_activities)
   else mret tt).

(** The [while] loop over the lines that [input] reads; at the end of the
    input, [input] raises [EOFError]. *)
Fixpoint menu_loop (inputs : list string)
    (running_activities cycling_activities other_activities : list Activity)
  : printing main_line unit :=
  match inputs with
  | [] => (menu ++ [MenuPrompt], Throw EOFError)
  | line :: inputs' =>
      (menu ++ [MenuPrompt], Return tt);;
      let choice := PyStr.strip line in
      run_choice choice running_activities cycling_activities other_activities;;
      if chosen choice ["0"; "8"] then mret tt
      else menu_loop inputs' running_activities cycling_activities other_activities
  end.

(** [main], for the file system [fs] and the lines typed. *)
Definition main (fs : filesystem) (inputs : list string)
  : printing main_line unit :=
  print MainTitle;;
  print MainRule;;
  let filename := "md_strava_acts.csv" in
  print (MainReading filename);;
  all_activities ←
    (let '(loaded, out) := read_csv_file fs filename in
     (map MainLoader out,
      match loaded with
      | Ok activities => Return activities
      | Raise e => Throw (Exn e)
      end));
  if all_activities is [] then print MainNothingLoaded
  else
    print (MainLoaded (Z.of_nat (length all_activities)));;
    '(running_activities, cycling_activities, other_activities) ←
      quiet (match separate_running_and_cycling all_activities with
             | Ok buckets => Return buckets
             | Raise e => Throw (Exn e)
             end);
    print BreakdownHeading;;
    print (BreakdownRunning (Z.of_nat (length running_activities)));;
    print (BreakdownCycling (Z.of_nat (length cycling_activities)));;
    print (BreakdownOther (Z.of_nat (length other_activities)));;
    menu_loop inputs running_activities cycling_activities other_activities;;
    print MainRule;;
    print MainComplete;;
    print MainRule.

(** * Notions used in the statements and the proofs *)

(** ** The activity of a row *)

(** The activity built from a row, its commute text and its date. *)
Definition activity_of (r : row) (commute : string) (d : Datetime.datetime)
  : Activity :=
  let distance := convert_to_number (get r "Distance_KM" "") in
  let time := convert_to_number (get r "Moving Time" "") in
  let speed_ms := convert_to_number (get r "Average Speed" "") in
  let max_speed_ms := convert_to_number (get r "Max Speed" "") in
  {| name := get r "Activity Name" "";
     type := get r "Activity Type" "";
     description := get r "Activity Description" "";
     gear := get r "Activity Gear" "";
     distance_km := distance;
     time_seconds := time;
     elapsed_time := convert_to_number (get r "Elapsed Time" "");
     elevation_low := convert_to_number (get r "Elevation Low" "");
     elevation_high := convert_to_number (get r "Elevation High" "");
     max_heart_rate := convert_to_number (get r "Max Heart Rate" "");
     max_speed := max_speed_ms;
     max_grade := convert_to_number (get r "Max Grade" "");
     avg_grade := convert_to_number (get r "Average Grade" "");
     avg_speed_kmh :=
       if F64.gtb speed_ms F64.zero then F64.mul speed_ms f3_6 else F64.zero;
     max_speed_kmh :=
       if F64.gtb max_speed_ms F64.zero then F64.mul max_speed_ms f3_6
       else F64.zero;
     is_commute := String.eqb commute "TRUE";
     pace_min_per_km :=
       if F64.gtb distance F64.zero && F64.gtb time F64.zero
       then F64.div (F64.div time distance) f60 else F64.zero;
     date := d;
     day_of_week := Datetime.strftime_A d;
     hour := Datetime.hour d |}.

(** The text handed to [strptime]. *)
Definition date_text_of (stripped : string) : string :=
  PyStr.strip_chars double_quote stripped.

(** ** Rows, files and activities used as examples *)

(** A row with the cells given, as [DictReader] builds it. *)
Definition row_of (cells : list (string * cell)) : row := list_to_map cells.

(** A run of 10 km in 3000 s. *)
Definition run_10km_3000s : row :=
  row_of [ ("Activity Name", CStr "Morning Run"); ("Activity Type", CStr "Run");
           ("Distance_KM", CStr "10"); ("Moving Time", CStr "3000");
           ("Commute", CStr "FALSE");
           ("Activity Date", CStr "01 Jan 2024, 12:00:00") ].

(** A run whose distance cell holds the text given. *)
Definition run_of_km (distance : string) : row :=
  row_of [ ("Activity Name", CStr "Long Run"); ("Activity Type", CStr "Run");
           ("Distance_KM", CStr distance); ("Moving Time", CStr "3000");
           ("Commute", CStr "FALSE");
           ("Activity Date", CStr "01 Jan 2024, 12:00:00") ].

(** 1 January 2024, 12:00:00, a Monday. *)
Definition new_year_noon : Datetime.datetime :=
  Datetime.mk_datetime 2024 1 1 12 0 0.

(** A ride that starts below sea level. *)
Definition negative_elevation_row : row :=
  row_of [ ("Activity Name", CStr "Dead Sea Ride"); ("Activity Type", CStr "Ride");
           ("Distance_KM", CStr "5.2"); ("Elevation Low", CStr "-3");
           ("Commute", CStr "FALSE");
           ("Activity Date", CStr "01 Jan 2024, 12:00:00") ].

(** A row whose distance cell reads [nan], which [float] accepts. *)
Definition nan_distance_row : row :=
  row_of [ ("Activity Name", CStr "Morning Run"); ("Activity Type", CStr "Run");
           ("Distance_KM", CStr "nan"); ("Moving Time", CStr "3000");
           ("Commute", CStr "FALSE");
           ("Activity Date", CStr "01 Jan 2024, 12:00:00") ].

(** A short row: the header has a [Commute] column and the row has no
    cell for it. *)
Definition row_without_commute : row :=
  row_of [ ("Activity Name", CStr "Lunch Ride"); ("Distance_KM", CStr "5.2");
           ("Activity Date", CStr "01 Jan 2024, 12:00:00"); ("Commute", CNone) ].



(** A file system where [open] is refused for want of permission. *)
Definition unreadable_file : filesystem := fun _ => OpenRaises PermissionError.

(** ** Weekly patterns, in the words of the specification *)

(** What reading key [k] of a [defaultdict] gives, inserted or not. *)
Definition dd_value {V : Type} (default_value : V) (d : list (string * V))
    (k : string) : V :=
  default default_value (dd_find d k).

(** The activities of one day of the week. *)
Definition on_day (d : string) (activities : list Activity) : list Activity :=
  List.filter (fun a => String.eqb d (day_of_week a)) activities.

(** The entry of a day, in the words of the specification. *)
Definition weekly_entry (activities : list Activity) (d : string)
  : string * Z * F64.float * F64.float :=
  let count := Z.of_nat (length (on_day d activities)) in
  let total := Statistics.sum (map distance_km (on_day d activities)) in
  (d, count, total,
   if count >? 0 then F64.div total (F64.of_Z count) else F64.zero).

(** ** Buckets *)

(** Buckets are compared by [=]. *)
#[global] Instance bucket_eq_dec : EqDecision bucket.
Proof. solve_decision. Defined.

(** The bucket of an activity: none when its label is [None]. *)
Definition bucket_of (a : Activity) : option bucket :=
  match type a with
  | CStr label => Some (classify label)
  | CNone => None
  end.

(** The activity carries a label of bucket [b]. *)
Definition in_bucket (b : bucket) (a : Activity) : Prop := bucket_of a = Some b.

(** Membership in a bucket is decidable, so buckets are [filter]s. *)
#[global] Instance in_bucket_dec b a : Decision (in_bucket b a).
Proof. unfold in_bucket. apply _. Defined.


(** ** Binary64: signs, formats and values *)

(** [x] is a value of binary64.  The type [spec_float] also holds triples
    that no Python [float] can be: a mantissa of more than 53 bits, an
    exponent out of range, a mantissa that is not normalised. *)
Definition binary64 (x : F64.float) : Prop :=
  valid_binary F64.prec F64.emax x = true.

(** The mantissa of a shift record is not negative. *)
Definition shr_nonneg (r : shr_record) : Prop := 0 <= shr_m r.

(** [+0.0], a positive finite float, or [+inf]. *)
Definition is_nonneg (x : F64.float) : Prop :=
  x = S754_zero false \/ x = S754_infinity false
  \/ exists m e, x = S754_finite false m e.

(** The least exponent of binary64, [3 - emax - prec]. *)
Definition emin : Z := -1074.

(** The value of mantissa [m] at exponent [e], in units of [2 ^ emin]. *)
Definition scaled (m e : Z) : Z := m * 2 ^ (e - emin).

(** The floats of the format, with no bound on the exponent: below
    [2 ^ 53], and at least [2 ^ 52] unless the exponent is the least. *)
Definition canon (m e : Z) : Prop :=
  emin <= e /\ 0 < m < 2 ^ 53 /\ (e = emin \/ 2 ^ 52 <= m).

(** A shift record has lost a non-zero bit. *)
Definition flags (r : shr_record) : bool := shr_r r || shr_s r.

(** A location other than [loc_Exact]. *)
Definition inexact (l : location) : bool :=
  match l with loc_Exact => false | loc_Inexact _ => true end.

(** [A / B] lies in the interval that starts at mantissa [m] of exponent
    [e], and strictly inside when [strict] is set. *)
Definition located (A B m e : Z) (strict : bool) : Prop :=
  scaled m e * B <= A < scaled (m + 1) e * B
  /\ (strict = true -> scaled m e * B < A).

(** What is known of the record after shifting [m0] from [e0] to [e],
    for a value [A / B]. *)
Definition shifted (A B m0 e0 : Z) (e : Z) (r : shr_record) : Prop :=
  e0 <= e /\ emin <= e /\ 0 <= shr_m r
  /\ located A B (shr_m r) e (flags r)
  /\ shr_m r * 2 ^ (e - e0) <= m0 < (shr_m r + 1) * 2 ^ (e - e0).

(** The float of the format, of unbounded exponent, that [binary_round_aux]
    finds, and what it returns for it. *)
Definition of_canon (m e : Z) : spec_float :=
  if e <=? F64.emax - F64.prec then S754_finite false (Z.to_pos m) e
  else S754_infinity false.

(** The least value above every finite float, [2 ^ 1024], in units of
    [2 ^ emin]. *)
Definition huge : Z := scaled (2 ^ 52) 972.

(** The positive binary64 values: the finite ones of the format and
    [+inf]. *)
Definition positive_float (x : spec_float) : Prop :=
  match x with
  | S754_infinity false => True
  | S754_finite false m e => canon (Zpos m) e /\ e <= 971
  | _ => False
  end.

(** The value of a positive float, [+inf] standing at [huge]. *)
Definition val (x : spec_float) : Z :=
  match x with
  | S754_finite _ m e => scaled (Zpos m) e
  | S754_infinity _ => huge
  | _ => 0
  end.

(** The rounding of [A / B], in values. *)
Definition rounds_to (A B : Z) (r : spec_float) : Prop :=
  positive_float r
  /\ forall y, positive_float y ->
       (val y * B <= A -> val y <= val r) /\ (A <= val y * B -> val r <= val y).

(** [2 ^ 1074], the value [1] in units of [2 ^ emin]. *)
Definition unit_value : Z := scaled 1 0.

(** The exact sum of the values of a list. *)
Definition sum_val (xs : list F64.float) : Z :=
  fold_right (fun x s => val x + s) 0 xs.

(** A positive float other than [+inf]. *)
Definition finite_positive (x : F64.float) : Prop :=
  positive_float x /\ F64.is_finite x = true.

(** A positive float with a value from [lo] to [hi]. *)
Definition between (lo hi : F64.float) (x : F64.float) : Prop :=
  positive_float x /\ val lo <= val x <= val hi.

(** ** Rows and diagnostics of a loaded file *)

(** A row that is short of its [Activity Date] cell. *)
Definition row_without_date : row :=
  row_of [ ("Activity Name", CStr "Evening Walk"); ("Distance_KM", CStr "3.1");
           ("Commute", CStr "FALSE"); ("Activity Date", CStr "") ].

(** ** Dictionaries in insertion order *)

(** The keys of a [defaultdict], in insertion order. *)
Definition dd_keys {V : Type} (d : list (string * V)) : list string := map fst d.

(** ** Counting by key *)

(** The number of elements of [l] whose key is [k]. *)
Definition occurrences {A K : Type} (eqb : K -> K -> bool) (f : A -> K) (k : K)
    (l : list A) : Z :=
  Z.of_nat (length (List.filter (fun a => eqb k (f a)) l)).

(** The counts in the weekly rows printed. *)
Definition weekly_counts (lines : list weekly_line) : list Z :=
  map (fun e => snd (fst (fst e))) (weekly_entries lines).

(** ** Reports *)

(** The float [1.0]. *)
Definition one : F64.float := S754_finite false 4503599627370496 (-52).

(** The periods and counts in the rows printed by
    [analyze_time_of_day_patterns]. *)
Definition time_entries (lines : list time_line) : list (string * Z) :=
  omap (fun l => match l with
                 | TimeRow period count _ => Some (period, count)
                 | _ => None
                 end) lines.

(** The activities that start at one of the hours given. *)
Definition at_hours (hours : list Z) (activities : list Activity) : list Activity :=
  List.filter (fun a => existsb (Z.eqb (hour a)) hours) activities.

(** From the greatest count to the smallest. *)
Definition by_count_descending {K : Type} (l : list (K * Z)) : Prop :=
  StronglySorted (fun x y => snd y <= snd x) l.

(** The activities recorded with the gear given, [No gear specified]
    standing for no gear. *)
Definition with_gear (gear : string) (activities : list Activity) : list Activity :=
  List.filter (fun a => String.eqb gear (gear_key a)) activities.

(** The five lines that [analyze_gear_usage] prints for a gear. *)
Definition gear_block (activities : list Activity) (gear : string) : list gear_line :=
  let count := Z.of_nat (length (with_gear gear activities)) in
  let distance := Statistics.sum (map distance_km (with_gear gear activities)) in
  [ GearRule; GearName gear; GearActivities count; GearTotal distance;
    GearAverage (F64.div distance (F64.of_Z count)) ].

(** A float that is [> 0]: a positive value of binary64, [+inf]
    included. *)
Definition positive64 (x : F64.float) : Prop :=
  binary64 x /\ F64.gtb x F64.zero = true.

(** [+0.0] or a positive float. *)
Definition zero_or_positive (x : F64.float) : Prop :=
  x = F64.zero \/ positive_float x.

(** A report that ends without an exception and prints only lines
    with the property [P]. *)
Definition prints_only {L A} (P : L -> Prop) (m : printing L A) : Prop :=
  raises m = None /\ Forall P (printed m).

(** A line other than the best pace. *)
Definition not_best_pace (l : record_line) : Prop :=
  match l with RecordBestPace _ => False | _ => True end.

(** The banner of [compare_running_vs_cycling]. *)
Definition compare_banner : list compare_line :=
  [CompareRule; CompareTitle; CompareRule].

(** An activity whose distance cell reads [0], as only a caller other
    than the loader can hand over. *)
Definition idle (label : string) : Activity :=
  activity_of (row_of [("Activity Type", CStr label); ("Distance_KM", CStr "0")])
              "FALSE" new_year_noon.

(** The greatest float below [1.0], and the float below it. *)
Definition below_one : F64.float := S754_finite false 9007199254740991 (-53).
Definition below_below_one : F64.float := S754_finite false 9007199254740990 (-53).

(** The greatest float below [60.0]. *)
Definition below_sixty : F64.float := S754_finite false 8444249301319679 (-47).

(** ** The bar chart *)

(** The label of a bar: the month and the year when the key reads as
    ['%Y-%m'], the key itself otherwise. *)
Definition chart_label (month : string) : string :=
  match strptime_month month with
  | Some month_date => strftime_b_Y month_date
  | None => month
  end.

(** The line of an item of the chart is a bar with the label and the count
    of the item, of a length from [0] to [max_bar_length], which is
    [max_bar_length] for the greatest count. *)
Definition bar_of (max_value max_bar_length : Z) (item : string * Z)
    (line : chart_line) : Prop :=
  exists bar,
    line = ChartBar (chart_label (fst item)) bar (snd item)
    /\ 0 <= bar <= max_bar_length
    /\ (snd item = max_value -> bar = max_bar_length).

(** The lines of a chart of the items given, which are not none: the
    title, the rule and one bar per item, in their order. *)
Definition chart_of (title : string) (max_bar_length : Z)
    (data_dict : list (string * Z)) (lines : list chart_line) : Prop :=
  exists max_value bars,
    Py.max_int (map snd data_dict) = Some max_value
    /\ lines = ChartTitle title :: ChartRule (Z.of_nat (String.length title)) :: bars
    /\ Forall2 (bar_of max_value max_bar_length) data_dict bars.

(** The first day of the month of a date. *)
Definition month_start (d : Datetime.datetime) : Datetime.datetime :=
  {| Datetime.year := Datetime.year d; Datetime.month := Datetime.month d;
     Datetime.day := 1; Datetime.hour := 0; Datetime.minute := 0;
     Datetime.second := 0 |}.

(** The key of a month reads back as the month. *)
Definition month_key_round_trip (y m : Z) : bool :=
  match strptime_month (strftime_Y_m (Datetime.mk_datetime y m 1 0 0 0)) with
  | Some d =>
      (Datetime.year d =? y) && (Datetime.month d =? m) && (Datetime.day d =? 1)
      && (Datetime.hour d =? 0) && (Datetime.minute d =? 0)
      && (Datetime.second d =? 0)
  | None => false
  end.

(** ** Monthly patterns *)

(** The activities of a month, given by its key. *)
Definition in_month (month : string) (activities : list Activity) : list Activity :=
  List.filter (fun a => String.eqb month (strftime_Y_m (date a))) activities.

(** The months given that have activities, each with their number. *)
Definition month_counts (months : list string) (activities : list Activity)
  : list (string * Z) :=
  List.filter (fun item => 0 <? snd item)
    (map (fun month => (month, Z.of_nat (length (in_month month activities))))
         months).

(** The lines of the chart of [analyze_monthly_patterns] for the
    activities given: none when no month has any. *)
Definition month_chart (title : string) (months : list string)
    (activities : list Activity) (lines : list chart_line) : Prop :=
  (month_counts months activities = [] -> lines = [])
  /\ (month_counts months activities <> [] ->
      chart_of title 40 (month_counts months activities) lines).

(** Texts in ascending order, without duplicates. *)
Definition ascending (l : list string) : Prop :=
  StronglySorted (fun x y => String.ltb x y = true) l.

(** ** The report of the aggregator *)

(** A report that ends without an exception and prints the line [l] when
    [b] holds, and only then. *)
Definition mentions {L A} (l : L) (b : bool) (m : printing L A) : Prop :=
  raises m = None /\ (In l (printed m) <-> b = true).

(** A report ended by the exception [e], whose last line is [l]. *)
Definition ends_with {L A} (l : L) (e : raised) (m : printing L A) : Prop :=
  raises m = Some e /\ last (printed m) = Some l.

(** The activity has a pace, that is, a positive one. *)
Definition has_pace (a : Activity) : Prop :=
  F64.gtb (pace_min_per_km a) F64.zero = true.

(** ** The program *)

(** The line typed is one of the two choices that end the loop. *)
Definition leaves (line : string) : bool :=
  chosen (PyStr.strip line) ["0"; "8"].

(** A line of [main] other than the last message. *)
Definition before_the_end (l : main_line) : Prop := l <> MainComplete.

(** ** Activities and files used as examples of the reports *)

(** The run of 10 km in 3000 s, as loaded. *)
Definition morning_run : Activity :=
  activity_of run_10km_3000s "FALSE" new_year_noon.

(** A ride of 20 km on the bike named. *)
Definition ride_on (bike : string) : Activity :=
  activity_of (row_of [ ("Activity Type", CStr "Ride"); ("Distance_KM", CStr "20");
                        ("Activity Gear", CStr bike) ])
              "FALSE" new_year_noon.

(** A run of so short a distance that its pace is [+inf]. *)
Definition warm_up : Activity :=
  activity_of (run_of_km "1e-320") "FALSE" new_year_noon.

(** The file with the run of 10 km alone. *)
Definition one_run_file : filesystem := fun _ => Rows [run_10km_3000s] None.

(** * Properties *)

(** ** Text *)

Section Strip.
Variable p : ascii -> bool.

Lemma drop_while_idem l :
  PyStr.drop_while p (PyStr.drop_while p l) = PyStr.drop_while p l.
Proof.
  induction l as [|c l IH]; simpl; [reflexivity|].
  destruct (p c) eqn:E; [exact IH|]. simpl. now rewrite E.
Qed.

(** Dropping at the end keeps a first character that is not dropped. *)
Lemma drop_while_snoc l c :
  p c = false ->
  exists l', PyStr.drop_while p (l ++ [c]) = l' ++ [c].
Proof.
  intros Hc. induction l as [|x l IH]; simpl.
  - rewrite Hc. now exists [].
  - destruct (p x); [exact IH|]. now exists (x :: l).
Qed.

Lemma drop_while_fixed l :
  PyStr.drop_while p l = l ->
  PyStr.drop_while p (rev (PyStr.drop_while p (rev l)))
  = rev (PyStr.drop_while p (rev l)).
Proof.
  destruct l as [|c l]; [reflexivity|]. simpl.
  destruct (p c) eqn:Hc.
  - intros H. exfalso.
    assert (Hlen : (length (PyStr.drop_while p l) <= length l)%nat).
    { clear. induction l as [|x l IH]; simpl; [lia|].
      destruct (p x); simpl; lia. }
    rewrite H in Hlen. simpl in Hlen. lia.
  - intros _. destruct (drop_while_snoc (rev l) c Hc) as [l' ->].
    rewrite rev_app_distr. simpl. now rewrite Hc.
Qed.

Lemma strip_with_idem s :
  PyStr.strip_with p (PyStr.strip_with p s) = PyStr.strip_with p s.
Proof.
  unfold PyStr.strip_with, PyStr.chars, PyStr.of_chars.
  rewrite list_ascii_of_string_of_list_ascii.
  set (m := PyStr.drop_while p (list_ascii_of_string s)).
  assert (Hm : PyStr.drop_while p m = m) by apply drop_while_idem.
  rewrite (drop_while_fixed m Hm), rev_involutive, drop_while_idem.
  reflexivity.
Qed.
End Strip.

Lemma strip_idem s : PyStr.strip (PyStr.strip s) = PyStr.strip s.
Proof. apply strip_with_idem. Qed.

(** ** Field coercion *)

Lemma string_eqb_empty_strip s :
  String.eqb s "" = true -> String.eqb (PyStr.strip s) "" = true.
Proof. intros H. apply String.eqb_eq in H. now subst. Qed.

Lemma convert_to_number_str s :
  convert_to_number (CStr s)
  = if String.eqb (PyStr.strip s) "" then F64.zero
    else default F64.zero (F64.of_string (PyStr.strip s)).
Proof.
  unfold convert_to_number.
  destruct (String.eqb s "") eqn:E.
  - now rewrite (string_eqb_empty_strip s E).
  - simpl. destruct (String.eqb (PyStr.strip s) ""); [reflexivity|].
    now destruct (F64.of_string (PyStr.strip s)).
Qed.

(** C7. [convert_to_number] is a total function (it never raises): a
    missing cell, blank text and text that [float] rejects give [0];
    text that [float] accepts after trimming gives that float; the result
    only depends on the trimmed text.  In particular [""] and ["abc"] give
    [0], ["  12.5 "] gives [12.5] (the exact quotient [25 / 2]) and ["-3"]
    gives [-3]. *)
Theorem convert_to_number_lenient :
  convert_to_number CNone = F64.zero
  /\ (forall s, PyStr.strip s = "" -> convert_to_number (CStr s) = F64.zero)
  /\ (forall s, F64.of_string (PyStr.strip s) = None ->
                convert_to_number (CStr s) = F64.zero)
  /\ (forall s x, PyStr.strip s <> "" -> F64.of_string (PyStr.strip s) = Some x ->
                  convert_to_number (CStr s) = x)
  /\ (forall s, convert_to_number (CStr s) = convert_to_number (CStr (PyStr.strip s)))
  /\ F64.eqb (convert_to_number (CStr "")) (F64.of_Z 0) = true
  /\ F64.eqb (convert_to_number (CStr "abc")) (F64.of_Z 0) = true
  /\ convert_to_number (CStr "  12.5 ") = F64.div (F64.of_Z 25) (F64.of_Z 2)
  /\ convert_to_number (CStr "-3") = F64.of_Z (-3).
Proof.
  split; [reflexivity|]. split; [|split; [|split; [|split]]].
  - intros s Hs. rewrite convert_to_number_str, Hs. reflexivity.
  - intros s Hs. rewrite convert_to_number_str, Hs.
    now destruct (String.eqb (PyStr.strip s) "").
  - intros s x Hne Hx. rewrite convert_to_number_str, Hx.
    destruct (String.eqb (PyStr.strip s) "") eqn:E; [|reflexivity].
    apply String.eqb_eq in E. contradiction.
  - intros s. now rewrite !convert_to_number_str, strip_idem.
  - repeat split; vm_compute; reflexivity.
Qed.

(** ** The normaliser *)

(** The four outcomes of the [try] body, by the tests it makes in turn. *)
Lemma process_single_row_try_cases r :
  match upper (get r "Commute" ""), strip (get r "Activity Date" "") with
  | Raise e, _ => process_single_row_try r = Raise e
  | Ok _, Raise e => process_single_row_try r = Raise e
  | Ok commute, Ok stripped =>
      if String.eqb (date_text_of stripped) "" then
        process_single_row_try r
        = Ok (None, [SkipNoDate (get r "Activity Name" "")])
      else
        match Datetime.strptime (date_text_of stripped) with
        | None => process_single_row_try r = Raise ValueError
        | Some d =>
            process_single_row_try r
            = if F64.leb (convert_to_number (get r "Distance_KM" "")) F64.zero
              then Ok (None, [SkipNoDistance (get r "Activity Name" "")])
              else Ok (Some (activity_of r commute d), [])
        end
  end.
Proof.
  unfold process_single_row_try, date_text_of.
  destruct (upper (get r "Commute" "")) as [commute|e]; [|reflexivity].
  destruct (strip (get r "Activity Date" "")) as [stripped|e]; [|reflexivity].
  cbn [mbind result_bind].
  destruct (String.eqb _ ""); [reflexivity|]. cbn [negb].
  destruct (Datetime.strptime _); reflexivity.
Qed.

(** A row is kept exactly when its commute and date cells are text, the
    date parses, and the distance is not [<= 0]. *)
Lemma process_single_row_kept r a :
  fst (process_single_row r) = Some a ->
  exists commute stripped d,
    upper (get r "Commute" "") = Ok commute
    /\ strip (get r "Activity Date" "") = Ok stripped
    /\ date_text_of stripped <> ""
    /\ Datetime.strptime (date_text_of stripped) = Some d
    /\ F64.leb (convert_to_number (get r "Distance_KM" "")) F64.zero = false
    /\ a = activity_of r commute d
    /\ process_single_row r = (Some a, []).
Proof.
  unfold process_single_row. pose proof (process_single_row_try_cases r) as H.
  destruct (upper (get r "Commute" "")) as [commute|e].
  2:{ rewrite H. discriminate. }
  destruct (strip (get r "Activity Date" "")) as [stripped|e].
  2:{ rewrite H. discriminate. }
  destruct (String.eqb (date_text_of stripped) "") eqn:Hd.
  { rewrite H. discriminate. }
  destruct (Datetime.strptime (date_text_of stripped)) as [d|] eqn:Hp.
  2:{ rewrite H. discriminate. }
  rewrite H.
  destruct (F64.leb (convert_to_number (get r "Distance_KM" "")) F64.zero) eqn:Hl.
  { discriminate. }
  simpl. intros [= <-]. exists commute, stripped, d.
  repeat split; try reflexivity; try assumption.
  intros E. rewrite E in Hd. discriminate.
Qed.



(** ** The aggregator: empty inputs *)

Lemma insert_length x l :
  length (Statistics.insert x l) = S (length l).
Proof.
  induction l as [|y l IH]; simpl; [reflexivity|].
  destruct (F64.ltb x y); simpl; [reflexivity|]. now rewrite IH.
Qed.

Lemma sorted_length xs : length (Statistics.sorted xs) = length xs.
Proof.
  unfold Statistics.sorted.
  enough (H : forall acc,
             length (fold_left (fun acc x => Statistics.insert x acc) xs acc)
             = (length xs + length acc)%nat).
  { rewrite H. simpl. lia. }
  induction xs as [|x xs IH]; intros acc; simpl; [reflexivity|].
  rewrite IH, insert_length. lia.
Qed.

(** On a non-empty list none of the four statistics raises. *)
Lemma statistics_defined xs :
  xs <> [] ->
  is_Some (Statistics.mean xs) /\ is_Some (Statistics.median xs)
  /\ is_Some (Statistics.max xs) /\ is_Some (Statistics.min xs).
Proof.
  intros Hne. destruct xs as [|x xs]; [contradiction|].
  split; [|split; [|split]]; try (simpl; eauto; fail).
  - unfold Statistics.mean. destruct (forallb _ _); eauto.
  - unfold Statistics.median. rewrite sorted_length.
    set (n := length (x :: xs)).
    assert (Hn : (0 < n)%nat) by (subst n; simpl; lia).
    destruct n as [|n'] eqn:En; [lia|]. rewrite <- En.
    assert (Hhalf : (n / 2 < n)%nat) by (apply Nat.div_lt; lia).
    assert (Hlen : length (Statistics.sorted (x :: xs)) = n)
      by (rewrite sorted_length; reflexivity).
    destruct (Nat.eqb (n mod 2) 1).
    + apply lookup_lt_is_Some. lia.
    + destruct (lookup_lt_is_Some_2 (Statistics.sorted (x :: xs)) (n / 2 - 1))
        as [u Hu]; [lia|].
      destruct (lookup_lt_is_Some_2 (Statistics.sorted (x :: xs)) (n / 2))
        as [v Hv]; [lia|].
      rewrite Hu, Hv. simpl. eauto.
Qed.



(** ** The loader *)

(** The loop keeps, in order, the activities of the rows that are kept,
    and prints the diagnostics of the rows in order. *)
Lemma read_rows_spec rows : forall activities,
  read_rows rows activities
  = (activities ++ omap (fun r => fst (process_single_row r)) rows,
     flat_map (fun r => snd (process_single_row r)) rows).
Proof.
  induction rows as [|r rows IH]; intros activities; simpl.
  - now rewrite app_nil_r.
  - destruct (process_single_row r) as [[a|] out]; simpl; rewrite IH.
    + now rewrite <- app_assoc.
    + reflexivity.
Qed.

(** C5 (as the code has it). When the file does not exist
    ([FileNotFoundError]) [read_csv_file] returns the empty list and prints
    its two diagnostic lines; any other failure of opening or reading the
    file is raised to the caller. *)
Theorem read_csv_file_failures fs filename :
  (fs filename = OpenRaises FileNotFoundError ->
   read_csv_file fs filename
   = (Ok [], [CouldNotFindFile filename; MakeSureFileIsInFolder]))
  /\ (forall e, e <> FileNotFoundError -> fs filename = OpenRaises e ->
        read_csv_file fs filename = (Raise e, []))
  /\ (forall rows e, e <> FileNotFoundError -> fs filename = Rows rows (Some e) ->
        fst (read_csv_file fs filename) = Raise e).
Proof.
  unfold read_csv_file. split; [|split].
  - intros ->. reflexivity.
  - intros e He ->. simpl. destruct e; try reflexivity. contradiction.
  - intros rows e He ->. simpl. rewrite read_rows_spec.
    destruct e; try reflexivity. contradiction.
Qed.

Lemma read_csv_file_missing_file :
  read_csv_file (fun _ => OpenRaises FileNotFoundError) "md_strava_acts.csv"
  = (Ok [], [CouldNotFindFile "md_strava_acts.csv"; MakeSureFileIsInFolder]).
Proof.
  apply (proj1 (read_csv_file_failures (fun _ => OpenRaises FileNotFoundError)
                                       "md_strava_acts.csv")).
  reflexivity.
Defined.

(** C5 (as stated) fails: a file that exists but may not be read makes
    [open] raise [PermissionError], which is not handled. *)
Lemma read_csv_file_permission_error_propagates :
  read_csv_file unreadable_file "md_strava_acts.csv" = (Raise PermissionError, []).
Proof. reflexivity. Qed.

(** C4. [process_single_row] returns, for every row, an activity with
    nothing printed, or [None] with one diagnostic: the missing date, the
    missing distance, or the exception its body raised, printed with the
    name of the row (["Unknown"] when the row has no name column).  No
    exception leaves it, so the loader visits every row: a rejected row
    changes nothing for the rows before and after it. *)
Theorem process_single_row_total :
  (forall r,
      (exists a, process_single_row r = (Some a, []))
      \/ process_single_row r = (None, [SkipNoDate (get r "Activity Name" "")])
      \/ process_single_row r = (None, [SkipNoDistance (get r "Activity Name" "")])
      \/ (exists e, process_single_row_try r = Raise e
                    /\ process_single_row r
                       = (None, [Problem (get r "Activity Name" "Unknown") e])))
  /\ (forall r, r !! "Activity Name" = None ->
                get r "Activity Name" "Unknown" = CStr "Unknown")
  /\ (forall rows,
        read_csv_file_try (Rows rows None)
        = (Ok (omap (fun r => fst (process_single_row r)) rows),
           flat_map (fun r => snd (process_single_row r)) rows))
  /\ (forall before r after,
        fst (process_single_row r) = None ->
        fst (read_rows (before ++ r :: after) [])
        = fst (read_rows (before ++ after) []))
  /\ process_single_row row_without_commute
     = (None, [Problem (CStr "Lunch Ride") AttributeError]).
Proof.
  split; [|split; [|split; [|split]]].
  - intros r. unfold process_single_row.
    pose proof (process_single_row_try_cases r) as H.
    destruct (upper (get r "Commute" "")) as [commute|e].
    2:{ right; right; right. exists e. now rewrite H. }
    destruct (strip (get r "Activity Date" "")) as [stripped|e].
    2:{ right; right; right. exists e. now rewrite H. }
    destruct (String.eqb (date_text_of stripped) "").
    { right; left. now rewrite H. }
    destruct (Datetime.strptime (date_text_of stripped)) as [d|].
    2:{ right; right; right. exists ValueError. now rewrite H. }
    rewrite H.
    destruct (F64.leb (convert_to_number (get r "Distance_KM" "")) F64.zero).
    + right; right; left. reflexivity.
    + left. eexists. reflexivity.
  - intros r H. unfold get. now rewrite H.
  - intros rows. simpl. now rewrite read_rows_spec.
  - intros before r after H. rewrite !read_rows_spec. simpl.
    rewrite !omap_app. simpl. now rewrite H.
  - vm_compute. reflexivity.
Qed.

(** ** Signs of binary64 results *)

(** [x > 0] holds for the positive finite floats and [+inf] only. *)
Lemma gtb_zero_inv x :
  F64.gtb x F64.zero = true ->
  x = S754_infinity false \/ exists m e, x = S754_finite false m e.
Proof.
  destruct x as [s|[|]| |[|] m e]; try discriminate; eauto.
Qed.

Lemma shr_1_nonneg r : shr_nonneg r -> shr_nonneg (shr_1 r).
Proof.
  destruct r as [m b s]. unfold shr_nonneg. simpl.
  destruct m as [|[p|p|]|p]; simpl; lia.
Qed.

Lemma iter_pos_shr_1_nonneg n : forall r,
  shr_nonneg r -> shr_nonneg (SpecFloat.iter_pos shr_1 n r).
Proof.
  induction n as [n IH|n IH|]; intros r H; simpl.
  - apply IH, IH, shr_1_nonneg, H.
  - apply IH, IH, H.
  - apply shr_1_nonneg, H.
Qed.

Lemma shr_fexp_nonneg m e l :
  0 <= m -> shr_nonneg (fst (shr_fexp F64.prec F64.emax m e l)).
Proof.
  intros H. unfold shr_fexp, shr.
  assert (H0 : shr_nonneg (shr_record_of_loc m l)).
  { unfold shr_nonneg. destruct l as [|[| |]]; exact H. }
  destruct (fexp F64.prec F64.emax (Zdigits2 m + e) - e); simpl;
    auto using iter_pos_shr_1_nonneg.
Qed.

Lemma round_nearest_even_nonneg m l : 0 <= m -> 0 <= round_nearest_even m l.
Proof.
  intros H. unfold round_nearest_even.
  destruct l as [|[| |]]; try lia. destruct (Z.even m); lia.
Qed.

(** Rounding a non-negative mantissa gives a zero, a finite float or an
    infinity of the sign asked for, never a NaN. *)
Lemma binary_round_aux_sign s m e l :
  0 <= m ->
  let r := binary_round_aux F64.prec F64.emax s m e l in
  r = S754_zero s \/ r = S754_infinity s \/ exists m' e', r = S754_finite s m' e'.
Proof.
  intros H. unfold binary_round_aux.
  pose proof (shr_fexp_nonneg m e l H) as H1.
  destruct (shr_fexp F64.prec F64.emax m e l) as [mrs' e'].
  simpl in H1.
  pose proof (shr_fexp_nonneg
                (round_nearest_even (shr_m mrs') (loc_of_shr_record mrs')) e'
                loc_Exact (round_nearest_even_nonneg _ _ H1)) as H2.
  destruct (shr_fexp _ _ (round_nearest_even _ _) e' loc_Exact) as [mrs'' e''].
  simpl in H2. unfold shr_nonneg in H2.
  destruct (shr_m mrs'') as [|p|p]; [now left| |lia].
  destruct (e'' <=? F64.emax - F64.prec); eauto.
Qed.

Lemma is_nonneg_not_negative x :
  is_nonneg x -> F64.is_nan x = false /\ F64.ltb x F64.zero = false.
Proof. intros [->|[->|(m & e & ->)]]; split; reflexivity. Qed.

(** A product of two positive floats is not negative and not a NaN. *)
Lemma mul_positive x m e :
  F64.gtb x F64.zero = true -> is_nonneg (F64.mul x (S754_finite false m e)).
Proof.
  intros H. destruct (gtb_zero_inv x H) as [->|(mx & ex & ->)].
  - right; left. reflexivity.
  - unfold F64.mul, SFmul. simpl xorb.
    apply (binary_round_aux_sign false (Zpos (mx * m)) (ex + e) loc_Exact). lia.
Qed.

Lemma div_core_nonneg m1 e1 m2 e2 :
  0 <= fst (fst (SFdiv_core_binary F64.prec F64.emax (Zpos m1) e1 (Zpos m2) e2)).
Proof.
  unfold SFdiv_core_binary.
  set (s := e1 - e2 - _).
  set (m' := match s with Z0 => _ | Zpos _ => _ | Zneg _ => _ end).
  assert (Hm : 0 <= m').
  { subst m'. destruct s; try lia. apply Z.shiftl_nonneg. lia. }
  pose proof (Z.div_eucl_eq m' (Zpos m2) ltac:(lia)) as Heq.
  pose proof (Z.mod_pos_bound m' (Zpos m2) ltac:(lia)) as Hb.
  unfold Z.modulo in Hb.
  destruct (Z.div_eucl m' (Zpos m2)) as [q r]. simpl. nia.
Qed.

(** A quotient by a positive finite float keeps "not negative"; a NaN
    stays a NaN. *)
Lemma div_by_positive x m e :
  is_nonneg x \/ x = S754_nan ->
  let y := F64.div x (S754_finite false m e) in is_nonneg y \/ y = S754_nan.
Proof.
  intros [[->|[->|(mx & ex & ->)]]| ->]; simpl.
  - left. now left.
  - left. right; left. reflexivity.
  - left. unfold F64.div, SFdiv. simpl xorb.
    pose proof (div_core_nonneg mx ex m e) as H.
    destruct (SFdiv_core_binary _ _ _ _ _ _) as [[mz ez] lz]. simpl in H.
    apply (binary_round_aux_sign false mz ez lz H).
  - now right.
Qed.

(** A quotient of two positive floats is not negative, or is the NaN of
    [inf / inf]. *)
Lemma div_positive x y :
  F64.gtb x F64.zero = true -> F64.gtb y F64.zero = true ->
  is_nonneg (F64.div x y) \/ F64.div x y = S754_nan.
Proof.
  intros Hx Hy.
  destruct (gtb_zero_inv y Hy) as [->|(my & ey & ->)].
  - destruct (gtb_zero_inv x Hx) as [->|(mx & ex & ->)].
    + now right.
    + left. now left.
  - apply div_by_positive. left.
    destruct (gtb_zero_inv x Hx) as [->|(mx & ex & ->)].
    + right; left. reflexivity.
    + right; right. eauto.
Qed.

(** ** The invariants of kept activities *)

Lemma f3_6_finite : f3_6 = S754_finite false 8106479329266893 (-51).
Proof. vm_compute. reflexivity. Qed.

Lemma f60_finite : f60 = S754_finite false 8444249301319680 (-47).
Proof. vm_compute. reflexivity. Qed.

(** The [m/s] to [km/h] conversion gives [0] or a product of positives. *)
Lemma speed_kmh_nonneg x :
  is_nonneg (if F64.gtb x F64.zero then F64.mul x f3_6 else F64.zero).
Proof.
  destruct (F64.gtb x F64.zero) eqn:H; [|now left].
  rewrite f3_6_finite. now apply mul_positive.
Qed.

Lemma pace_not_negative t d :
  F64.ltb (if F64.gtb d F64.zero && F64.gtb t F64.zero
           then F64.div (F64.div t d) f60 else F64.zero) F64.zero = false.
Proof.
  destruct (F64.gtb d F64.zero) eqn:Hd; [|reflexivity].
  destruct (F64.gtb t F64.zero) eqn:Ht; [|reflexivity]. simpl.
  rewrite f60_finite.
  destruct (div_by_positive (F64.div t d) 8444249301319680 (-47)
              (div_positive t d Ht Hd)) as [H| ->].
  - apply is_nonneg_not_negative, H.
  - reflexivity.
Qed.

(** A cell that is absent, [None], blank or not a numeral coerces to [0]. *)
Lemma convert_to_number_default (r : row) key :
  r !! key = None \/ r !! key = Some CNone
  \/ (exists s, r !! key = Some (CStr s) /\ F64.of_string (PyStr.strip s) = None) ->
  convert_to_number (get r key "") = F64.zero.
Proof.
  unfold get. intros [->|[->|(s & -> & Hs)]]; try reflexivity.
  rewrite convert_to_number_str, Hs.
  now destruct (String.eqb (PyStr.strip s) "").
Qed.

(** C2 (as the code has it). In every activity the normaliser keeps, each
    numeric field is a float, never null: the fields coerced directly are
    [convert_to_number] of their cell, which is [0] for a cell that is
    absent, [None], blank or unparsable, and otherwise the float parsed,
    of either sign; [avg_speed_kmh] and [max_speed_kmh] are never negative
    and never NaN; [pace_min_per_km] is never negative. *)
Theorem kept_activity_numeric_fields r a :
  fst (process_single_row r) = Some a ->
  (distance_km a = convert_to_number (get r "Distance_KM" "")
   /\ time_seconds a = convert_to_number (get r "Moving Time" "")
   /\ elapsed_time a = convert_to_number (get r "Elapsed Time" "")
   /\ elevation_low a = convert_to_number (get r "Elevation Low" "")
   /\ elevation_high a = convert_to_number (get r "Elevation High" "")
   /\ max_heart_rate a = convert_to_number (get r "Max Heart Rate" "")
   /\ max_speed a = convert_to_number (get r "Max Speed" "")
   /\ max_grade a = convert_to_number (get r "Max Grade" "")
   /\ avg_grade a = convert_to_number (get r "Average Grade" ""))
  /\ (forall key,
        r !! key = None \/ r !! key = Some CNone
        \/ (exists s, r !! key = Some (CStr s)
                      /\ F64.of_string (PyStr.strip s) = None) ->
        convert_to_number (get r key "") = F64.zero)
  /\ (F64.is_nan (avg_speed_kmh a) = false
      /\ F64.ltb (avg_speed_kmh a) F64.zero = false)
  /\ (F64.is_nan (max_speed_kmh a) = false
      /\ F64.ltb (max_speed_kmh a) F64.zero = false)
  /\ F64.ltb (pace_min_per_km a) F64.zero = false.
Proof.
  intros H.
  destruct (process_single_row_kept r a H) as (c & s & d & _ & _ & _ & _ & _ & -> & _).
  split; [repeat split|]. split; [apply convert_to_number_default|].
  split; [|split].
  - apply is_nonneg_not_negative, speed_kmh_nonneg.
  - apply is_nonneg_not_negative, speed_kmh_nonneg.
  - apply pace_not_negative.
Qed.

Lemma negative_elevation_row_fields :
  exists a, fst (process_single_row negative_elevation_row) = Some a
            /\ F64.ltb (pace_min_per_km a) F64.zero = false
            /\ F64.ltb (avg_speed_kmh a) F64.zero = false.
Proof.
  eexists. split; [vm_compute; reflexivity|].
  refine (let H := kept_activity_numeric_fields negative_elevation_row _ _ in _).
  split; [exact (proj2 (proj2 (proj2 (proj2 H))))
         | exact (proj2 (proj1 (proj2 (proj2 H))))].
  Unshelve. vm_compute. reflexivity.
Defined.

(** C2 (as stated) fails: a kept activity with a negative numeric field. *)
Lemma negative_elevation_is_kept :
  exists a, process_single_row negative_elevation_row = (Some a, [])
            /\ elevation_low a = F64.of_Z (-3)
            /\ F64.ltb (elevation_low a) F64.zero = true.
Proof. eexists. split; [vm_compute; reflexivity|]. split; reflexivity. Qed.

(** C3 at the failing input: the distance cell [nan] passes the test
    [distance_km <= 0], so the row is kept with a distance that is not
    [> 0]. *)
Lemma nan_distance_row_is_kept :
  exists a, process_single_row nan_distance_row = (Some a, [])
            /\ distance_km a = F64.nan
            /\ F64.gtb (distance_km a) F64.zero = false.
Proof. eexists. split; [vm_compute; reflexivity|]. split; reflexivity. Qed.

(** What the loader does guarantee of every activity in its output: the
    distance is not [<= 0], and the date was parsed from non-empty text,
    with the day of the week and the hour derived from it. *)
Lemma loader_output_invariant fs filename activities out a :
  read_csv_file fs filename = (Ok activities, out) ->
  In a activities ->
  F64.leb (distance_km a) F64.zero = false
  /\ (exists text, text <> "" /\ Datetime.strptime text = Some (date a))
  /\ day_of_week a = Datetime.strftime_A (date a)
  /\ hour a = Datetime.hour (date a).
Proof.
  unfold read_csv_file, read_csv_file_try. intros H Ha.
  assert (Hrow : exists r, fst (process_single_row r) = Some a).
  { destruct (fs filename) as [e|rows failure].
    - destruct (exn_eqb e FileNotFoundError); [|discriminate].
      injection H as <- _. destruct Ha.
    - rewrite read_rows_spec in H. simpl in H.
      destruct failure as [e|].
      + destruct (exn_eqb e FileNotFoundError); [|discriminate].
        injection H as <- _. destruct Ha.
      + injection H as <- _. apply list_elem_of_In in Ha.
        apply list_elem_of_omap in Ha as (r & _ & Hr). eauto. }
  destruct Hrow as [r Hr].
  destruct (process_single_row_kept r a Hr)
    as (c & s & d & _ & _ & Hne & Hp & Hl & -> & _).
  simpl. repeat split; eauto.
Qed.

Lemma loader_output_invariant_run :
  F64.leb (distance_km (activity_of run_10km_3000s "FALSE" new_year_noon)) F64.zero
  = false
  /\ (exists text, text <> ""
                   /\ Datetime.strptime text
                      = Some (date (activity_of run_10km_3000s "FALSE" new_year_noon)))
  /\ day_of_week (activity_of run_10km_3000s "FALSE" new_year_noon)
     = Datetime.strftime_A (date (activity_of run_10km_3000s "FALSE" new_year_noon))
  /\ hour (activity_of run_10km_3000s "FALSE" new_year_noon)
     = Datetime.hour (date (activity_of run_10km_3000s "FALSE" new_year_noon)).
Proof.
  apply (loader_output_invariant (fun _ => Rows [run_10km_3000s] None)
           "md_strava_acts.csv"
           [activity_of run_10km_3000s "FALSE" new_year_noon] []).
  - vm_compute. reflexivity.
  - left. reflexivity.
Defined.

(** The rows the normaliser rejects for their date or distance. *)
Lemma rejected_rows r commute stripped :
  upper (get r "Commute" "") = Ok commute ->
  strip (get r "Activity Date" "") = Ok stripped ->
  (date_text_of stripped = "" -> fst (process_single_row r) = None)
  /\ (Datetime.strptime (date_text_of stripped) = None ->
      fst (process_single_row r) = None)
  /\ (F64.leb (convert_to_number (get r "Distance_KM" "")) F64.zero = true ->
      fst (process_single_row r) = None).
Proof.
  intros Hc Hs. unfold process_single_row.
  pose proof (process_single_row_try_cases r) as H. rewrite Hc, Hs in H.
  destruct (String.eqb (date_text_of stripped) "") eqn:He.
  { rewrite H. repeat split; reflexivity. }
  apply String.eqb_neq in He.
  destruct (Datetime.strptime (date_text_of stripped)) as [d|].
  2:{ rewrite H. repeat split; reflexivity. }
  rewrite H. repeat split; try congruence.
  intros ->. reflexivity.
Qed.

(** ** Weekly patterns *)

Section DefaultDictFacts.
Context {V : Type} (default_value : V).

Lemma dd_find_set (d : list (string * V)) k v k' :
  dd_find (dd_set d k v) k'
  = if String.eqb k' k then Some v else dd_find d k'.
Proof.
  induction d as [|[k0 v0] d IH]; simpl.
  - reflexivity.
  - destruct (String.eqb k k0) eqn:E; simpl.
    + apply String.eqb_eq in E. subst k0.
      destruct (String.eqb k' k); reflexivity.
    + rewrite IH. destruct (String.eqb k' k0) eqn:E0; [|reflexivity].
      apply String.eqb_eq in E0. subst k0.
      now rewrite String.eqb_sym, E.
Qed.

Lemma dd_find_snoc (d : list (string * V)) k v k' :
  dd_find (d ++ [(k, v)]) k'
  = match dd_find d k' with
    | Some x => Some x
    | None => if String.eqb k' k then Some v else None
    end.
Proof.
  induction d as [|[k0 v0] d IH]; simpl; [reflexivity|].
  destruct (String.eqb k' k0); [reflexivity|exact IH].
Qed.

Lemma dd_getitem_value d k :
  fst (dd_getitem default_value d k) = dd_value default_value d k.
Proof. unfold dd_getitem, dd_value. now destruct (dd_find d k). Qed.

(** Reading a key changes no later reading. *)
Lemma dd_getitem_frame d k k' :
  dd_value default_value (snd (dd_getitem default_value d k)) k' = dd_value default_value d k'.
Proof.
  unfold dd_getitem, dd_value. destruct (dd_find d k) eqn:E; [reflexivity|].
  simpl. rewrite dd_find_snoc. destruct (dd_find d k') eqn:E'; [reflexivity|].
  now destruct (String.eqb k' k).
Qed.

Lemma dd_update_value f d k k' :
  dd_value default_value (dd_update default_value f d k) k'
  = if String.eqb k' k then f (dd_value default_value d k) else dd_value default_value d k'.
Proof.
  unfold dd_update.
  pose proof (dd_getitem_value d k) as Hv.
  pose proof (dd_getitem_frame d k k') as Hf.
  destruct (dd_getitem default_value d k) as [v d']. simpl in Hv, Hf.
  unfold dd_value at 1. rewrite dd_find_set.
  destruct (String.eqb k' k); simpl; [now rewrite Hv|exact Hf].
Qed.
End DefaultDictFacts.

Lemma tally_snoc activities a :
  tally (activities ++ [a])
  = (dd_update 0 (fun c => c + 1) (fst (tally activities)) (day_of_week a),
     dd_update F64.zero (fun t => F64.add t (distance_km a))
               (snd (tally activities)) (day_of_week a)).
Proof.
  unfold tally. rewrite fold_left_app. simpl.
  now destruct (fold_left _ activities ([], [])).
Qed.

Lemma on_day_snoc d activities a :
  on_day d (activities ++ [a])
  = on_day d activities ++ (if String.eqb d (day_of_week a) then [a] else []).
Proof. unfold on_day. rewrite List.filter_app. reflexivity. Qed.

Lemma tally_values activities d :
  dd_value 0 (fst (tally activities)) d = Z.of_nat (length (on_day d activities))
  /\ dd_value F64.zero (snd (tally activities)) d
     = Statistics.sum (map distance_km (on_day d activities)).
Proof.
  induction activities as [|a activities [IHc IHt]] using rev_ind.
  - split; reflexivity.
  - rewrite tally_snoc, on_day_snoc. simpl. rewrite !dd_update_value.
    destruct (String.eqb d (day_of_week a)) eqn:E.
    + apply String.eqb_eq in E. subst d. rewrite IHc, IHt.
      rewrite length_app, map_app. unfold Statistics.sum.
      rewrite fold_left_app. simpl. split; [lia|reflexivity].
    + rewrite app_nil_r. now split.
Qed.

Lemma weekly_rows_lines days : forall day_counts day_distances,
  fst (weekly_rows days day_counts day_distances)
  = map (fun day =>
           let count := dd_value 0 day_counts day in
           let total := dd_value F64.zero day_distances day in
           WeeklyRow day count total
             (if count >? 0 then F64.div total (F64.of_Z count) else F64.zero))
        days.
Proof.
  induction days as [|day days IH]; intros dc dt; simpl; [reflexivity|].
  pose proof (dd_getitem_value 0 dc day) as Hc.
  pose proof (dd_getitem_value F64.zero dt day) as Ht.
  pose proof (dd_getitem_frame 0 dc day) as Fc.
  pose proof (dd_getitem_frame F64.zero dt day) as Ft.
  destruct (dd_getitem 0 dc day) as [count dc'].
  destruct (dd_getitem F64.zero dt day) as [total dt'].
  simpl in Hc, Ht, Fc, Ft. specialize (IH dc' dt').
  destruct (weekly_rows days dc' dt') as [lines final]. simpl in IH |- *.
  rewrite IH, Hc, Ht. f_equal. apply map_ext. intros d.
  now rewrite Fc, Ft.
Qed.

(** C9. Whatever the collection, [analyze_weekly_patterns] prints one
    entry per day of the week, seven in all, from Monday to Sunday: the
    number of activities of that day, the sum of their distances, and
    their quotient, which is [0] for a day without activities. *)
Theorem analyze_weekly_patterns_entries activities activity_type :
  let entries := weekly_entries (analyze_weekly_patterns activities activity_type) in
  entries = map (weekly_entry activities) days_order
  /\ length entries = 7%nat
  /\ map (fun e => fst (fst (fst e))) entries
     = ["Monday"; "Tuesday"; "Wednesday"; "Thursday"; "Friday"; "Saturday"; "Sunday"]
  /\ Forall (fun e => snd (fst (fst e)) = 0 ->
                      snd e = F64.zero /\ snd (fst e) = F64.zero) entries.
Proof.
  assert (E : weekly_entries (analyze_weekly_patterns activities activity_type)
              = map (weekly_entry activities) days_order).
  { unfold analyze_weekly_patterns.
    destruct (tally activities) as [dc dt] eqn:Et.
    pose proof (weekly_rows_lines days_order dc dt) as Hl.
    destruct (weekly_rows days_order dc dt) as [lines dc']. simpl in Hl.
    subst lines. unfold weekly_entries. cbn [app omap list_omap].
    unfold days_order, weekly_entry. cbn [map].
    pose proof (fun d => proj1 (tally_values activities d)) as Hc.
    pose proof (fun d => proj2 (tally_values activities d)) as Ht.
    rewrite Et in Hc, Ht. simpl in Hc, Ht.
    now rewrite !Hc, !Ht. }
  cbv zeta. rewrite E. split; [reflexivity|]. split; [reflexivity|].
  split; [reflexivity|].
  apply Forall_forall. intros e He. apply list_elem_of_In in He.
  apply in_map_iff in He as (d & <- & _).
  unfold weekly_entry. simpl. intros H0. rewrite H0. simpl. split; [reflexivity|].
  assert (Hnil : on_day d activities = []).
  { destruct (on_day d activities); [reflexivity|]. simpl in H0. lia. }
  now rewrite Hnil.
Qed.

(** ** The categoriser *)









(** ** Rounding to binary64 *)

Lemma fexp_eq e : fexp F64.prec F64.emax e = Z.max (e - 53) emin.
Proof. reflexivity. Qed.

Lemma pow2_pos k : 0 <= k -> 0 < 2 ^ k.
Proof. intros. apply Z.pow_pos_nonneg; lia. Qed.

Lemma pow2_succ k : 0 <= k -> 2 ^ (k + 1) = 2 * 2 ^ k.
Proof. intros. rewrite Z.pow_add_r by lia. lia. Qed.

Lemma pow2_le j k : 0 <= j <= k -> 2 ^ j <= 2 ^ k.
Proof. intros. apply Z.pow_le_mono_r; lia. Qed.

Lemma pow2_lt j k : 0 <= j < k -> 2 * 2 ^ j <= 2 ^ k.
Proof.
  intros. rewrite <- pow2_succ by lia. apply pow2_le. lia.
Qed.

Lemma scaled_succ m e : emin <= e -> scaled m (e + 1) = 2 * scaled m e.
Proof.
  intros. unfold scaled. replace (e + 1 - emin) with (e - emin + 1) by lia.
  rewrite pow2_succ by lia. lia.
Qed.

Lemma scaled_add m e k :
  emin <= e -> 0 <= k -> scaled m (e + k) = scaled (m * 2 ^ k) e.
Proof.
  intros. unfold scaled. replace (e + k - emin) with (k + (e - emin)) by lia.
  rewrite Z.pow_add_r by lia. lia.
Qed.

Lemma scaled_le m1 m2 e : emin <= e -> (scaled m1 e <= scaled m2 e <-> m1 <= m2).
Proof.
  intros. unfold scaled. pose proof (pow2_pos (e - emin) ltac:(lia)). nia.
Qed.

Lemma scaled_lt m1 m2 e : emin <= e -> (scaled m1 e < scaled m2 e <-> m1 < m2).
Proof.
  intros. unfold scaled. pose proof (pow2_pos (e - emin) ltac:(lia)). nia.
Qed.

(** The number of binary digits of a positive integer. *)
Lemma digits2_pos_size p : digits2_pos p = Pos.size p.
Proof. induction p; simpl; congruence. Qed.

Lemma digits2_bounds p :
  let d := Zpos (digits2_pos p) in 2 ^ (d - 1) <= Zpos p < 2 ^ d.
Proof.
  cbv zeta. rewrite digits2_pos_size.
  pose proof (Pos.size_gt p) as Hgt. pose proof (Pos.size_le p) as Hle.
  apply Pos2Z.pos_lt_pos in Hgt. apply Pos2Z.pos_le_pos in Hle.
  rewrite Pos2Z.inj_pow in Hgt, Hle.
  change (Zpos p~0) with (2 * Zpos p) in Hle.
  replace (Zpos (Pos.size p)) with (Zpos (Pos.size p) - 1 + 1) in Hle at 1 by lia.
  rewrite pow2_succ in Hle by lia. change (Z.pos 2) with 2 in *. lia.
Qed.

(** The digits are determined by the two bounds. *)
Lemma digits2_unique p d :
  2 ^ (d - 1) <= Zpos p < 2 ^ d -> Zpos (digits2_pos p) = d.
Proof.
  intros [Hlo Hhi]. pose proof (digits2_bounds p) as [Blo Bhi]. cbv zeta in *.
  set (d' := Zpos (digits2_pos p)) in *.
  assert (0 <= d).
  { destruct (Z_lt_le_dec d 0) as [Hn|]; [|assumption].
    rewrite Z.pow_neg_r in Hhi by assumption. lia. }
  destruct (Z_lt_le_dec d' d) as [H1|H1].
  - assert (2 ^ d' <= 2 ^ (d - 1)) by (apply pow2_le; lia). lia.
  - destruct (Z_lt_le_dec d d') as [H2|H2]; [|lia].
    assert (2 ^ d <= 2 ^ (d' - 1)) by (apply pow2_le; lia). lia.
Qed.

Lemma canon_digits p e :
  canon (Zpos p) e -> fexp F64.prec F64.emax (Zpos (digits2_pos p) + e) = e.
Proof.
  intros (He & [_ Hhi] & Hn). rewrite fexp_eq.
  pose proof (digits2_bounds p) as [Blo Bhi]. cbv zeta in *.
  set (d := Zpos (digits2_pos p)) in *.
  assert (Hd : d <= 53).
  { destruct (Z_lt_le_dec 53 d) as [H|]; [|assumption].
    assert (2 ^ 53 <= 2 ^ (d - 1)) by (apply pow2_le; lia). lia. }
  destruct Hn as [->|Hn]; [lia|].
  assert (53 <= d).
  { destruct (Z_lt_le_dec d 53) as [H|]; [|assumption].
    assert (2 ^ d <= 2 ^ 52) by (apply pow2_le; subst d; lia). lia. }
  lia.
Qed.

Lemma canonical_mantissa_canon p e :
  emin <= e -> canonical_mantissa F64.prec F64.emax p e = true -> canon (Zpos p) e.
Proof.
  unfold canonical_mantissa. intros He H. apply Z.eqb_eq in H.
  rewrite fexp_eq in H. pose proof (digits2_bounds p) as [Blo Bhi]. cbv zeta in *.
  set (d := Zpos (digits2_pos p)) in *.
  assert (0 < d) by (subst d; lia).
  split; [assumption|]. split.
  - split; [lia|]. assert (2 ^ d <= 2 ^ 53) by (apply pow2_le; lia). lia.
  - destruct (Z.eq_dec e emin) as [|Hne]; [now left|right].
    assert (d = 53) by lia. replace (d - 1) with 52 in Blo by lia. assumption.
Qed.
(** *** Shifting right *)

Lemma shr_1_spec r :
  0 <= shr_m r ->
  shr_m (shr_1 r) = shr_m r / 2
  /\ flags (shr_1 r) = Z.odd (shr_m r) || flags r.
Proof.
  destruct r as [m b s]. unfold flags. simpl. intros Hm.
  destruct m as [|[p|p|]|p]; try lia; simpl.
  - split; [reflexivity|]. reflexivity.
  - split; [|reflexivity]. rewrite Pos2Z.inj_xI.
    apply (Z.div_unique_pos _ _ _ 1); lia.
  - split; [|reflexivity]. rewrite Pos2Z.inj_xO.
    apply (Z.div_unique_pos _ _ _ 0); lia.
  - split; reflexivity.
Qed.

Section Shift.
Variables A B m0 e0 : Z.
Hypothesis B_pos : 0 < B.

Lemma shifted_shr_1 e r : shifted A B m0 e0 e r -> shifted A B m0 e0 (e + 1) (shr_1 r).
Proof.
  intros (He0 & He & Hm & [[Hlo Hhi] Hstrict] & Hb).
  destruct (shr_1_spec r Hm) as [Em Ef].
  pose proof (Z.div_mod (shr_m r) 2 ltac:(lia)) as Hdiv.
  pose proof (Z.mod_pos_bound (shr_m r) 2 ltac:(lia)) as Hmod.
  set (m := shr_m r) in *. set (m' := shr_m (shr_1 r)) in *.
  assert (Hodd : Z.odd m = true -> m = 2 * m' + 1).
  { intros Ho. rewrite Zmod_odd, Ho in Hdiv. lia. }
  assert (H2 : 2 * m' <= m <= 2 * m' + 1) by lia.
  unfold shifted, located. rewrite !scaled_succ by lia.
  unfold scaled in *.
  pose proof (pow2_pos (e - emin) ltac:(lia)) as Hp.
  set (P := 2 ^ (e - emin)) in *.
  replace (e + 1 - e0) with (e - e0 + 1) by lia. rewrite pow2_succ by lia.
  pose proof (pow2_pos (e - e0) ltac:(lia)) as Hq.
  set (Q := 2 ^ (e - e0)) in *.
  assert (0 <= m') by lia.
  repeat split; try lia; try nia.
  intros Hf. fold m in Ef. rewrite Ef in Hf. apply orb_true_iff in Hf as [Ho|Hf].
  - specialize (Hodd Ho). nia.
  - specialize (Hstrict Hf). nia.
Qed.

Lemma shifted_iter n : forall e r,
  shifted A B m0 e0 e r -> shifted A B m0 e0 (e + Zpos n) (SpecFloat.iter_pos shr_1 n r).
Proof.
  induction n as [n IH|n IH|]; intros e r H; simpl.
  - replace (e + Zpos n~1) with (e + 1 + Zpos n + Zpos n) by lia.
    apply IH, IH, shifted_shr_1, H.
  - replace (e + Zpos n~0) with (e + Zpos n + Zpos n) by lia.
    apply IH, IH, H.
  - apply shifted_shr_1, H.
Qed.
End Shift.

Lemma flags_of_loc m l : flags (shr_record_of_loc m l) = inexact l.
Proof. destruct l as [|[| |]]; reflexivity. Qed.

Lemma shr_m_of_loc m l : shr_m (shr_record_of_loc m l) = m.
Proof. destruct l as [|[| |]]; reflexivity. Qed.

(** The first shift of [binary_round_aux] gives a float of the format
    that starts an interval around [A / B]. *)
Lemma shr_fexp_canon A B p ex lx :
  0 < B -> emin <= ex ->
  ex <= fexp F64.prec F64.emax (Zpos (digits2_pos p) + ex) ->
  located A B (Zpos p) ex (inexact lx) ->
  let r := fst (shr_fexp F64.prec F64.emax (Zpos p) ex lx) in
  let e := snd (shr_fexp F64.prec F64.emax (Zpos p) ex lx) in
  canon (shr_m r) e /\ located A B (shr_m r) e (flags r).
Proof.
  intros HB He Hk Hloc. unfold shr_fexp. cbn [Zdigits2].
  pose proof (digits2_bounds p) as [Blo Bhi]. cbv zeta in Blo, Bhi.
  set (d := Zpos (digits2_pos p)) in *.
  assert (Hd : 0 < d) by (subst d; lia).
  rewrite fexp_eq in *.
  destruct (Z.max (d + ex - 53) emin - ex) as [|k|k] eqn:Ek; [| |lia].
  - (* no shift: the input is in the format *)
    simpl. rewrite shr_m_of_loc, flags_of_loc. split; [|assumption].
    split; [assumption|]. split.
    + split; [lia|]. assert (2 ^ d <= 2 ^ 53) by (apply pow2_le; lia). lia.
    + destruct (Z.eq_dec ex emin) as [|Hne]; [now left|right].
      assert (d = 53) by lia. replace (d - 1) with 52 in Blo by lia. assumption.
  - (* a shift by [k = d - 53] *)
    unfold shr. cbn [fst snd].
    assert (Hs : shifted A B (Zpos p) ex ex (shr_record_of_loc (Zpos p) lx)).
    { unfold shifted. rewrite shr_m_of_loc, flags_of_loc, Z.sub_diag.
      simpl. repeat split; try lia; apply Hloc. }
    apply (shifted_iter A B (Zpos p) ex HB k) in Hs.
    destruct Hs as (_ & He' & Hm & Hloc' & Hlo & Hhi).
    set (r := SpecFloat.iter_pos shr_1 k (shr_record_of_loc (Zpos p) lx)) in *.
    replace (ex + Zpos k - ex) with (Zpos k) in Hlo, Hhi by lia.
    assert (Hkd : Zpos k = d - 53) by lia.
    pose proof (pow2_pos (Zpos k) ltac:(lia)) as Hp.
    assert (E53 : 2 ^ d = 2 ^ 53 * 2 ^ Zpos k).
    { rewrite <- Z.pow_add_r by lia. f_equal. lia. }
    assert (E52 : 2 ^ (d - 1) = 2 ^ 52 * 2 ^ Zpos k).
    { rewrite <- Z.pow_add_r by lia. f_equal. lia. }
    split; [|assumption].
    split; [lia|]. set (K := 2 ^ Zpos k) in *.
    assert (shr_m r < 2 ^ 53) by nia.
    assert (2 ^ 52 <= shr_m r) by nia.
    split; [lia|]. now right.
Qed.

(** *** The floats around a value *)

(** Two floats of the format at different exponents. *)
Lemma canon_lt_exponent m1 e1 m2 e2 :
  canon m1 e1 -> canon m2 e2 -> e1 < e2 ->
  scaled (m1 + 1) e1 <= scaled m2 e2.
Proof.
  intros (He1 & [Hm1 Hh1] & _) (He2 & _ & [->|Hn2]) Hlt; [lia|].
  unfold scaled.
  pose proof (pow2_pos (e1 - emin) ltac:(lia)) as Hp.
  pose proof (pow2_lt (e1 - emin) (e2 - emin) ltac:(lia)) as Hq.
  change (2 ^ 53) with (2 * 2 ^ 52) in Hh1.
  set (P1 := 2 ^ (e1 - emin)) in *. set (P2 := 2 ^ (e2 - emin)) in *.
  set (T := 2 ^ 52) in *. nia.
Qed.

(** No float of the format lies strictly between [m] and [m + 1] at the
    exponent [e] of a float [m]. *)
Lemma canon_below m e my ey :
  canon m e -> canon my ey ->
  scaled my ey < scaled (m + 1) e -> scaled my ey <= scaled m e.
Proof.
  intros Hc Hy Hlt.
  destruct (Z.lt_trichotomy ey e) as [H|[->|H]].
  - pose proof (canon_lt_exponent my ey m e Hy Hc H) as Hle.
    destruct Hy as (Hey & _ & _).
    assert (scaled my ey <= scaled (my + 1) ey) by (apply scaled_le; lia). lia.
  - destruct Hc as (He & _ & _).
    apply scaled_lt in Hlt; [|assumption]. apply scaled_le; [assumption|lia].
  - pose proof (canon_lt_exponent m e my ey Hc Hy H). lia.
Qed.

Lemma canon_above m e my ey :
  canon m e -> canon my ey ->
  scaled m e < scaled my ey -> scaled (m + 1) e <= scaled my ey.
Proof.
  intros Hc Hy Hlt.
  destruct (Z.lt_trichotomy ey e) as [H|[->|H]].
  - pose proof (canon_lt_exponent my ey m e Hy Hc H) as Hle.
    destruct Hy as (Hey & _ & _).
    assert (scaled my ey <= scaled (my + 1) ey) by (apply scaled_le; lia). lia.
  - destruct Hc as (He & _ & _).
    apply scaled_lt in Hlt; [|assumption]. apply scaled_le; [assumption|lia].
  - apply (canon_lt_exponent m e my ey Hc Hy H).
Qed.

(** *** Rounding *)

Lemma loc_of_shr_record_inexact r : inexact (loc_of_shr_record r) = flags r.
Proof. destruct r as [m [|] [|]]; reflexivity. Qed.

Lemma round_nearest_even_cases m l :
  round_nearest_even m l = m
  \/ (round_nearest_even m l = m + 1 /\ inexact l = true).
Proof.
  unfold round_nearest_even. destruct l as [|[| |]]; simpl; auto.
  destruct (Z.even m); auto.
Qed.

(** The second shift of [binary_round_aux]: the rounded mantissa is in
    the format, or is [2 ^ 53] and is halved. *)
Lemma shr_fexp_rounded m e :
  emin <= e -> 0 < m <= 2 ^ 53 -> (e = emin \/ 2 ^ 52 <= m) ->
  exists m' e',
    shr_fexp F64.prec F64.emax m e loc_Exact
    = ({| shr_m := m'; shr_r := false; shr_s := false |}, e')
    /\ canon m' e' /\ scaled m' e' = scaled m e.
Proof.
  intros He [Hm Hh] Hn.
  destruct m as [|p|p]; try lia.
  destruct (Z.eq_dec (Zpos p) (2 ^ 53)) as [E|Hne].
  - exists (2 ^ 52), (e + 1).
    assert (Hd : Zpos (digits2_pos p) = 54).
    { apply digits2_unique. rewrite E. simpl. lia. }
    unfold shr_fexp. cbn [Zdigits2]. rewrite Hd, fexp_eq.
    replace (Z.max (54 + e - 53) emin - e) with 1 by lia.
    rewrite E. split; [reflexivity|]. split.
    + split; [lia|]. split; [simpl; lia|]. right. lia.
    + rewrite scaled_succ by lia. unfold scaled.
      change (2 ^ 53) with (2 * 2 ^ 52). lia.
  - exists (Zpos p), e.
    assert (Hc : canon (Zpos p) e) by (repeat split; try lia; assumption).
    unfold shr_fexp. cbn [Zdigits2]. rewrite (canon_digits p e Hc), Z.sub_diag.
    split; [reflexivity|]. split; [assumption|reflexivity].
Qed.

(** [binary_round_aux] returns a float of the format next to [A / B]:
    every float below [A / B] is below it, every float above is above. *)
Lemma binary_round_aux_spec A B p ex lx :
  0 < B -> emin <= ex ->
  ex <= fexp F64.prec F64.emax (Zpos (digits2_pos p) + ex) ->
  located A B (Zpos p) ex (inexact lx) ->
  exists m e,
    canon m e
    /\ binary_round_aux F64.prec F64.emax false (Zpos p) ex lx = of_canon m e
    /\ (forall my ey, canon my ey -> scaled my ey * B <= A ->
                      scaled my ey <= scaled m e)
    /\ (forall my ey, canon my ey -> A <= scaled my ey * B ->
                      scaled m e <= scaled my ey).
Proof.
  intros HB He Hk Hloc.
  destruct (shr_fexp_canon A B p ex lx HB He Hk Hloc) as [Hc [[Hlo Hhi] Hstrict]].
  unfold binary_round_aux.
  destruct (shr_fexp F64.prec F64.emax (Zpos p) ex lx) as [r1 e1].
  cbn [fst snd] in *.
  set (m1 := shr_m r1) in *.
  set (m2 := round_nearest_even m1 (loc_of_shr_record r1)).
  assert (H2 : m2 = m1 \/ (m2 = m1 + 1 /\ flags r1 = true)).
  { subst m2. rewrite <- loc_of_shr_record_inexact.
    apply round_nearest_even_cases. }
  pose proof Hc as (He1 & [Hm1 Hh1] & Hn1).
  destruct (shr_fexp_rounded m2 e1 He1) as (m & e & -> & Hcm & Hval).
  { destruct H2 as [->|[-> _]]; lia. }
  { destruct H2 as [->|[-> _]]; [assumption|]. destruct Hn1; [now left|right; lia]. }
  exists m, e. split; [assumption|]. cbn [shr_m].
  split.
  { unfold of_canon. destruct Hcm as (_ & [Hm _] & _).
    destruct m as [|q|q]; try lia. reflexivity. }
  rewrite Hval. split.
  - intros my ey Hy Hle.
    assert (Hlt : scaled my ey < scaled (m1 + 1) e1) by nia.
    pose proof (canon_below m1 e1 my ey Hc Hy Hlt) as Hbelow.
    destruct H2 as [->|[-> _]]; [assumption|].
    pose proof (proj2 (scaled_le m1 (m1 + 1) e1 He1) ltac:(lia)). lia.
  - intros my ey Hy Hle.
    destruct H2 as [->|[-> Hf]].
    + nia.
    + specialize (Hstrict Hf).
      apply (canon_above m1 e1 my ey Hc Hy). nia.
Qed.

(** *** Positive floats and their order *)

Lemma canon_huge : canon (2 ^ 52) 972.
Proof. unfold canon, emin. simpl. lia. Qed.

Lemma positive_float_of_canon m e : canon m e -> positive_float (of_canon m e).
Proof.
  intros Hc. unfold of_canon. change (F64.emax - F64.prec) with 971.
  destruct (Z.leb_spec e 971); simpl; [|exact I].
  destruct Hc as (He & [Hm Hh] & Hn). destruct m as [|p|p]; try lia.
  simpl. repeat split; try lia; assumption.
Qed.

Lemma val_finite_lt_huge m e : canon m e -> e <= 971 -> scaled m e < huge.
Proof.
  intros Hc He. pose proof (canon_lt_exponent m e _ _ Hc canon_huge ltac:(lia)).
  destruct Hc as (He' & _ & _).
  pose proof (proj2 (scaled_lt m (m + 1) e He') ltac:(lia)). unfold huge. lia.
Qed.

Lemma val_of_canon m e : canon m e -> val (of_canon m e) = Z.min (scaled m e) huge.
Proof.
  intros Hc. unfold of_canon. change (F64.emax - F64.prec) with 971.
  destruct (Z.leb_spec e 971) as [He|He]; cbn [val].
  - pose proof (val_finite_lt_huge m e Hc He).
    destruct Hc as (_ & [Hm _] & _). destruct m as [|p|p]; try lia.
    change (Z.to_pos (Zpos p)) with p. lia.
  - destruct (Z.eq_dec e 972) as [->|Hne].
    + destruct Hc as (He' & [Hm Hh] & [Hn|Hn]); [unfold emin in Hn; lia|].
      pose proof (proj2 (scaled_le (2 ^ 52) m 972 He') Hn). unfold huge. lia.
    + pose proof (canon_lt_exponent _ _ m e canon_huge Hc ltac:(lia)).
      assert (scaled (2 ^ 52) 972 <= scaled (2 ^ 52 + 1) 972).
      { apply scaled_le; unfold emin; lia. }
      unfold huge. lia.
Qed.

Lemma positive_float_inv x :
  positive_float x -> exists m e, canon m e /\ x = of_canon m e /\ val x <= huge.
Proof.
  destruct x as [s|[|]| |[|] m e]; cbn [positive_float val]; try contradiction.
  - intros _. exists (2 ^ 52), 972. split; [apply canon_huge|]. split; [reflexivity|lia].
  - intros [Hc He]. exists (Zpos m), e. split; [assumption|].
    unfold of_canon. change (F64.emax - F64.prec) with 971.
    destruct (Z.leb_spec e 971); [|lia]. split; [reflexivity|].
    pose proof (val_finite_lt_huge _ _ Hc He). lia.
Qed.

(** On positive floats the comparison of binary64 is the comparison of
    the values. *)
Lemma compare_val x y :
  positive_float x -> positive_float y ->
  SFcompare x y = Some (val x ?= val y).
Proof.
  destruct x as [s|[|]| |[|] mx ex]; cbn [positive_float]; try contradiction;
    destruct y as [s'|[|]| |[|] my ey]; cbn [positive_float val SFcompare];
    try contradiction.
  - intros _ _. now rewrite Z.compare_refl.
  - intros _ [Hc He]. pose proof (val_finite_lt_huge _ _ Hc He) as H.
    apply Z.compare_gt_iff in H. now rewrite H.
  - intros [Hc He] _. pose proof (val_finite_lt_huge _ _ Hc He) as H.
    apply Z.compare_lt_iff in H. now rewrite H.
  - intros [Hx Hex] [Hy Hey]. f_equal.
    destruct (Z.compare_spec ex ey) as [->|Hlt|Hgt].
    + destruct Hx as (He & _ & _). rewrite Pos.compare_cont_spec.
      cbn [Pos.switch_Eq].
      unfold scaled. pose proof (pow2_pos (ey - emin) ltac:(lia)).
      rewrite Pos2Z.inj_compare.
      destruct (Z.compare_spec (Zpos mx) (Zpos my)) as [E|E|E]; symmetry.
      * apply Z.compare_eq_iff. now rewrite E.
      * apply Z.compare_lt_iff. nia.
      * apply Z.compare_gt_iff. nia.
    + pose proof (canon_lt_exponent _ _ _ _ Hx Hy Hlt).
      destruct Hx as (He & _ & _).
      pose proof (proj2 (scaled_lt (Zpos mx) (Zpos mx + 1) ex He) ltac:(lia)).
      symmetry. apply Z.compare_lt_iff. lia.
    + pose proof (canon_lt_exponent _ _ _ _ Hy Hx Hgt).
      destruct Hy as (He & _ & _).
      pose proof (proj2 (scaled_lt (Zpos my) (Zpos my + 1) ey He) ltac:(lia)).
      symmetry. apply Z.compare_gt_iff. lia.
Qed.

Lemma ltb_val x y :
  positive_float x -> positive_float y -> SFltb x y = (val x <? val y).
Proof.
  intros Hx Hy. unfold SFltb. rewrite (compare_val x y Hx Hy).
  unfold Z.ltb. now destruct (val x ?= val y).
Qed.

Lemma leb_val x y :
  positive_float x -> positive_float y -> SFleb x y = (val x <=? val y).
Proof.
  intros Hx Hy. unfold SFleb. rewrite (compare_val x y Hx Hy).
  unfold Z.leb. now destruct (val x ?= val y).
Qed.

(** A float that is [> 0] and valid is a positive float. *)
Lemma positive_float_intro x :
  valid_binary F64.prec F64.emax x = true -> SFltb (S754_zero false) x = true ->
  positive_float x.
Proof.
  destruct x as [s|[|]| |[|] m e]; simpl; try discriminate; try (intros; exact I).
  unfold bounded. intros H _. apply andb_true_iff in H as [Hc He].
  apply Z.leb_le in He. change (F64.emax - F64.prec) with 971 in He.
  split; [|assumption]. apply canonical_mantissa_canon; [|assumption].
  unfold canonical_mantissa in Hc. apply Z.eqb_eq in Hc. rewrite fexp_eq in Hc. lia.
Qed.

Lemma of_canon_rounds_to A B m e :
  0 < B -> canon m e ->
  (forall my ey, canon my ey -> scaled my ey * B <= A -> scaled my ey <= scaled m e) ->
  (forall my ey, canon my ey -> A <= scaled my ey * B -> scaled m e <= scaled my ey) ->
  rounds_to A B (of_canon m e).
Proof.
  intros HB Hc Hlo Hhi. split; [now apply positive_float_of_canon|].
  intros y Hy. rewrite (val_of_canon m e Hc).
  destruct (positive_float_inv y Hy) as (my & ey & Hcy & -> & Hle).
  rewrite (val_of_canon my ey Hcy) in *.
  split; intros H.
  - destruct (Z.min_spec (scaled my ey) huge) as [[_ E]|[_ E]]; rewrite E in *.
    + specialize (Hlo my ey Hcy H). lia.
    + specialize (Hlo _ _ canon_huge H). fold huge in Hlo. lia.
  - destruct (Z.min_spec (scaled my ey) huge) as [[_ E]|[_ E]]; rewrite E in *.
    + specialize (Hhi my ey Hcy H). lia.
    + lia.
Qed.

(** *** Division *)

Lemma new_location_inexact n r :
  inexact (new_location n r) = negb (r =? 0).
Proof.
  unfold new_location, new_location_even, new_location_odd.
  destruct (Z.even n), (r =? 0); reflexivity.
Qed.

(** The quotient and the location that [SFdiv_core_binary] hands to the
    rounding, for a quotient of at least [2 ^ emin]. *)
Lemma div_core_located m1 e1 m2 e2 :
  emin <= e1 - e2 ->
  Zpos m2 <= scaled (Zpos m1) (e1 - e2) ->
  exists q e l,
    SFdiv_core_binary F64.prec F64.emax (Zpos m1) e1 (Zpos m2) e2 = (Zpos q, e, l)
    /\ emin <= e
    /\ e <= fexp F64.prec F64.emax (Zpos (digits2_pos q) + e)
    /\ located (scaled (Zpos m1) (e1 - e2)) (Zpos m2) (Zpos q) e (inexact l).
Proof.
  intros He HBA. unfold SFdiv_core_binary. cbn [Zdigits2].
  pose proof (digits2_bounds m1) as [L1 H1]. pose proof (digits2_bounds m2) as [L2 H2].
  cbv zeta in L1, H1, L2, H2.
  set (d1 := Zpos (digits2_pos m1)) in *. set (d2 := Zpos (digits2_pos m2)) in *.
  assert (Hd1 : 0 < d1) by (subst d1; lia). assert (Hd2 : 0 < d2) by (subst d2; lia).
  rewrite fexp_eq.
  set (t := d1 + e1 - (d2 + e2)).
  set (e' := Z.min (Z.max (t - 53) emin) (e1 - e2)).
  assert (He' : emin <= e' <= e1 - e2) by (subst e'; lia).
  set (s := e1 - e2 - e').
  assert (Hs : 0 <= s) by (subst s; lia).
  set (m' := match s with Z0 => Zpos m1 | Zpos _ => Z.shiftl (Zpos m1) s | Zneg _ => 0 end).
  assert (Hm' : m' = Zpos m1 * 2 ^ s).
  { subst m'. destruct s as [|k|k] eqn:Es; [simpl; lia| |lia].
    rewrite Z.shiftl_mul_pow2 by lia. reflexivity. }
  pose proof (Z.div_eucl_eq m' (Zpos m2) ltac:(lia)) as Hdiv.
  pose proof (Z.mod_pos_bound m' (Zpos m2) ltac:(lia)) as Hmod.
  unfold Z.modulo in Hmod.
  destruct (Z.div_eucl m' (Zpos m2)) as [q r].
  pose proof (pow2_pos s Hs) as Hps.
  pose proof (pow2_pos (e' - emin) ltac:(lia)) as Hpe.
  assert (HA : scaled (Zpos m1) (e1 - e2) = m' * 2 ^ (e' - emin)).
  { unfold scaled. rewrite Hm'.
    replace (e1 - e2 - emin) with (s + (e' - emin)) by (subst s; lia).
    rewrite Z.pow_add_r by lia. lia. }
  (* in the normal range the quotient has 53 digits or more *)
  assert (Hnormal : emin < e' -> 2 ^ 52 <= q).
  { intros Hn. assert (Ht : e' <= t - 53) by (subst e'; lia).
    assert (Hds : d2 + 52 <= d1 - 1 + s) by (subst s t; lia).
    assert (Hpow : 2 ^ 52 * 2 ^ d2 <= 2 ^ (d1 - 1) * 2 ^ s).
    { rewrite <- !Z.pow_add_r by lia. apply pow2_le. lia. }
    assert (Hq : 2 ^ 52 * Zpos m2 <= m') by nia.
    assert (0 <= q) by nia.
    destruct (Z_lt_le_dec q (2 ^ 52)) as [Hlt|]; [|assumption]. nia. }
  assert (Hq : 0 < q).
  { destruct (Z.eq_dec e' emin) as [E|Hne].
    - rewrite HA, E, Z.sub_diag in HBA. simpl in HBA. nia.
    - assert (2 ^ 52 <= q) by (apply Hnormal; lia). lia. }
  destruct q as [|q|q]; try lia.
  exists q, e', (new_location (Zpos m2) r).
  split; [reflexivity|]. split; [lia|]. split.
  - rewrite fexp_eq. destruct (Z.eq_dec e' emin) as [E|Hne]; [lia|].
    assert (H52 : 2 ^ 52 <= Zpos q) by (apply Hnormal; lia).
    pose proof (digits2_bounds q) as [_ Hqh]. cbv zeta in Hqh.
    set (dq := Zpos (digits2_pos q)) in *.
    destruct (Z_lt_le_dec dq 53) as [Hlt|]; [|lia].
    assert (2 ^ dq <= 2 ^ 52) by (apply pow2_le; subst dq; lia). lia.
  - unfold located. rewrite HA, new_location_inexact. unfold scaled.
    set (P := 2 ^ (e' - emin)) in *. split; [nia|].
    intros Hr. apply negb_true_iff, Z.eqb_neq in Hr. nia.
Qed.

(** *** The operations on positive floats *)

Lemma rounding_rounds_to A B p ex lx :
  0 < B -> emin <= ex ->
  ex <= fexp F64.prec F64.emax (Zpos (digits2_pos p) + ex) ->
  located A B (Zpos p) ex (inexact lx) ->
  rounds_to A B (binary_round_aux F64.prec F64.emax false (Zpos p) ex lx).
Proof.
  intros HB He Hk Hloc.
  destruct (binary_round_aux_spec A B p ex lx HB He Hk Hloc)
    as (m & e & Hc & -> & Hlo & Hhi).
  now apply of_canon_rounds_to.
Qed.

Lemma round_ratio_rounds a b :
  Zpos b <= scaled (Zpos a) 0 ->
  rounds_to (scaled (Zpos a) 0) (Zpos b) (F64.round_ratio false a b).
Proof.
  intros H. unfold F64.round_ratio.
  destruct (div_core_located a 0 b 0 ltac:(unfold emin; lia) H)
    as (q & e & l & -> & He & Hk & Hloc).
  apply rounding_rounds_to; try assumption. lia.
Qed.

Lemma div_finite_rounds mx ex my ey :
  emin <= ex - ey ->
  Zpos my <= scaled (Zpos mx) (ex - ey) ->
  rounds_to (scaled (Zpos mx) (ex - ey)) (Zpos my)
            (F64.div (S754_finite false mx ex) (S754_finite false my ey)).
Proof.
  intros He H. unfold F64.div, SFdiv. cbn [xorb].
  destruct (div_core_located mx ex my ey He H) as (q & e & l & -> & He' & Hk & Hloc).
  apply rounding_rounds_to; try assumption. lia.
Qed.

Lemma pos_iter_xO m k : Zpos (Pos.iter xO m k) = Zpos m * 2 ^ Zpos k.
Proof.
  induction k as [|k IH] using Pos.peano_ind.
  - simpl. lia.
  - rewrite Pos.iter_succ, Pos2Z.inj_xO, IH, Pos2Z.inj_succ.
    rewrite Z.pow_succ_r by lia. lia.
Qed.

(** Aligning a mantissa to a smaller exponent keeps the value. *)
Lemma shl_align_value m e e' :
  emin <= e' ->
  let r := shl_align m e e' in
  scaled (Zpos (fst r)) (snd r) = scaled (Zpos m) e
  /\ (e' < e -> snd r = e' /\ Zpos (fst r) = Zpos m * 2 ^ (e - e'))
  /\ (e <= e' -> r = (m, e)).
Proof.
  intros He. unfold shl_align. destruct (e' - e) as [|k|k] eqn:Ek; cbn [fst snd].
  - split; [reflexivity|]. split; [lia|reflexivity].
  - split; [reflexivity|]. split; [lia|reflexivity].
  - rewrite pos_iter_xO. replace (Zpos k) with (e - e') by lia.
    split; [|split; [intros _; split; reflexivity|lia]].
    rewrite <- scaled_add by lia. f_equal. lia.
Qed.

Lemma binary_round_rounds M ez :
  emin <= ez ->
  rounds_to (scaled (Zpos M) ez) 1 (binary_round F64.prec F64.emax false M ez).
Proof.
  intros He. unfold binary_round.
  pose proof (digits2_bounds M) as [Lo Hi]. cbv zeta in Lo, Hi.
  set (d := Zpos (digits2_pos M)) in *.
  assert (Hd : 0 < d) by (subst d; lia).
  set (et := fexp F64.prec F64.emax (d + ez)).
  assert (Het : emin <= et) by (subst et; rewrite fexp_eq; lia).
  destruct (shl_align_value M ez et Het) as (Hv & Hshift & Hsame).
  destruct (Z_lt_le_dec et ez) as [Hlt|Hge].
  - destruct (Hshift Hlt) as [Es Em].
    destruct (shl_align M ez et) as [mz ez']. cbn [fst snd] in *. subst ez'.
    apply rounding_rounds_to; try lia.
    + assert (Hdz : Zpos (digits2_pos mz) = d + (ez - et)).
      { apply digits2_unique. rewrite Em.
        pose proof (pow2_pos (ez - et) ltac:(lia)).
        replace (d + (ez - et) - 1) with (d - 1 + (ez - et)) by lia.
        rewrite !Z.pow_add_r by lia. nia. }
      rewrite Hdz. replace (d + (ez - et) + et) with (d + ez) by lia.
      subst et. lia.
    + unfold located. rewrite Hv. simpl inexact.
      assert (scaled (Zpos mz) et < scaled (Zpos mz + 1) et) by (apply scaled_lt; lia).
      split; [lia|discriminate].
  - rewrite (Hsame Hge).
    apply rounding_rounds_to; try lia; [exact Hge|].
    unfold located. simpl inexact.
    assert (scaled (Zpos M) ez < scaled (Zpos M + 1) ez) by (apply scaled_lt; lia).
    split; [lia|discriminate].
Qed.

Lemma val_positive x : positive_float x -> 0 < val x <= huge.
Proof.
  intros H. destruct (positive_float_inv x H) as (m & e & Hc & -> & Hle).
  split; [|assumption]. rewrite (val_of_canon m e Hc).
  destruct Hc as (He & [Hm _] & _). unfold huge, scaled.
  pose proof (pow2_pos (e - emin) ltac:(lia)).
  pose proof (pow2_pos (972 - emin) ltac:(unfold emin; lia)).
  assert (0 < 2 ^ 52) by (apply pow2_pos; lia).
  apply Z.min_glb_lt; nia.
Qed.

Lemma positive_float_finite x :
  positive_float x -> val x < huge -> exists m e, x = S754_finite false m e.
Proof.
  destruct x as [s|[|]| |[|] m e]; cbn [positive_float val]; try contradiction.
  - lia.
  - eauto.
Qed.

(** [float(n)] for a length of list. *)
Lemma of_Z_finite n :
  0 < n < 2 ^ 63 -> exists m e, F64.of_Z n = S754_finite false m e.
Proof.
  intros [Hn Hh]. destruct n as [|p|p]; try lia.
  unfold F64.of_Z, binary_normalize.
  destruct (binary_round_rounds p 0 ltac:(unfold emin; lia)) as [Hpos Hs].
  apply positive_float_finite; [assumption|].
  assert (Hc : canon (2 ^ 52) 12) by (unfold canon, emin; simpl; lia).
  destruct (Hs (S754_finite false (Z.to_pos (2 ^ 52)) 12)) as [_ Hup].
  { simpl. split; [exact Hc|lia]. }
  pose proof (val_finite_lt_huge _ _ Hc ltac:(lia)) as Hlt.
  cbn [val] in Hup. change (Zpos (Z.to_pos (2 ^ 52))) with (2 ^ 52) in Hup.
  assert (scaled (Zpos p) 0 <= scaled (2 ^ 52) 12 * 1); [|lia].
  replace 12 with (0 + 12) by lia. rewrite scaled_add by (unfold emin; lia).
  rewrite Z.mul_1_r. apply scaled_le; [unfold emin; lia|].
  change (2 ^ 52 * 2 ^ 12) with (2 ^ 64). change (2 ^ 63) with 9223372036854775808 in Hh.
  change (2 ^ 64) with 18446744073709551616. lia.
Qed.

(** The sum of two positive floats. *)
Lemma add_rounds x y :
  positive_float x -> positive_float y ->
  rounds_to (val x + val y) 1 (F64.add x y).
Proof.
  intros Hx Hy.
  pose proof (val_positive x Hx) as Vx. pose proof (val_positive y Hy) as Vy.
  assert (Hinf : forall A, huge <= A -> rounds_to A 1 (S754_infinity false)).
  { intros A HA. split; [exact I|]. intros z Hz.
    pose proof (val_positive z Hz). cbn [val]. split; lia. }
  destruct x as [s|[|]| |[|] mx ex]; cbn [positive_float] in Hx; try contradiction;
    destruct y as [s'|[|]| |[|] my ey]; cbn [positive_float] in Hy; try contradiction;
    try (apply Hinf; cbn [val] in *; lia).
  destruct Hx as [Hcx Hex], Hy as [Hcy Hey]. cbn [val].
  unfold F64.add, SFadd. cbn [cond_Zopp].
  set (ez := Z.min ex ey).
  assert (Hez : emin <= ez) by (destruct Hcx, Hcy; subst ez; lia).
  destruct (shl_align_value mx ex ez Hez) as (Vmx & Sx & Kx).
  destruct (shl_align_value my ey ez Hez) as (Vmy & Sy & Ky).
  assert (Ex : snd (shl_align mx ex ez) = ez).
  { destruct (Z_lt_le_dec ez ex) as [H|H]; [apply Sx, H|].
    rewrite Kx by assumption. subst ez. simpl. lia. }
  assert (Ey : snd (shl_align my ey ez) = ez).
  { destruct (Z_lt_le_dec ez ey) as [H|H]; [apply Sy, H|].
    rewrite Ky by assumption. subst ez. simpl. lia. }
  rewrite Ex in Vmx. rewrite Ey in Vmy.
  set (ax := fst (shl_align mx ex ez)) in *.
  set (ay := fst (shl_align my ey ez)) in *.
  change (Zpos ax + Zpos ay) with (Zpos (ax + ay)).
  cbn [binary_normalize].
  replace (scaled (Zpos mx) ex + scaled (Zpos my) ey)
    with (scaled (Zpos (ax + ay)) ez).
  - apply binary_round_rounds, Hez.
  - rewrite <- Vmx, <- Vmy. unfold scaled. lia.
Qed.

Lemma rounds_to_scale A B c r :
  0 < c -> rounds_to (A * c) (B * c) r -> rounds_to A B r.
Proof.
  intros Hc [Hp H]. split; [assumption|]. intros y Hy.
  destruct (H y Hy) as [Hlo Hhi]. split; intros Hle; [apply Hlo|apply Hhi]; nia.
Qed.

Lemma of_Z_2 : F64.of_Z 2 = S754_finite false 4503599627370496 (-51).
Proof. vm_compute. reflexivity. Qed.

(** Half a finite positive float that is at least twice the least one. *)
Lemma half_rounds m e :
  emin <= e -> 2 <= scaled (Zpos m) e ->
  rounds_to (scaled (Zpos m) e) 2 (F64.div (S754_finite false m e) (F64.of_Z 2)).
Proof.
  intros He H2. rewrite of_Z_2.
  apply (rounds_to_scale _ _ (2 ^ 51)); [apply pow2_pos; lia|].
  assert (E : scaled (Zpos m) (e - -51) = scaled (Zpos m) e * 2 ^ 51).
  { replace (e - -51) with (e + 51) by lia. rewrite scaled_add by lia.
    unfold scaled. lia. }
  rewrite <- E. change (2 * 2 ^ 51) with (Zpos 4503599627370496).
  apply div_finite_rounds; [lia|].
  rewrite E. change (Zpos 4503599627370496) with (2 * 2 ^ 51).
  assert (0 < 2 ^ 51) by (apply pow2_pos; lia). nia.
Qed.

(** *** Minimum, maximum and order of a list of positive floats *)

Lemma min_fold rest : forall m0,
  positive_float m0 -> Forall positive_float rest ->
  let r := fold_left (fun m y => if F64.ltb y m then y else m) rest m0 in
  (r = m0 \/ In r rest) /\ val r <= val m0
  /\ (forall x, In x rest -> val r <= val x).
Proof.
  induction rest as [|y rest IH]; intros m0 H0 Hr; cbn [fold_left].
  - repeat split; [now left|lia|intros x []].
  - inversion Hr as [|? ? Hy Hrest]; subst.
    rewrite (ltb_val y m0 Hy H0 : F64.ltb y m0 = _).
    destruct (Z.ltb_spec (val y) (val m0)) as [Hlt|Hge].
    + destruct (IH y Hy Hrest) as (Hin & Hle & Hall). cbv zeta in *.
      split; [destruct Hin as [->|Hin]; right; [now left|now right]|].
      split; [lia|]. intros x [<-|Hx]; [assumption|now apply Hall].
    + destruct (IH m0 H0 Hrest) as (Hin & Hle & Hall). cbv zeta in *.
      split; [destruct Hin as [->|Hin]; [now left|right; now right]|].
      split; [assumption|]. intros x [<-|Hx]; [lia|now apply Hall].
Qed.

Lemma max_fold rest : forall m0,
  positive_float m0 -> Forall positive_float rest ->
  let r := fold_left (fun m y => if F64.gtb y m then y else m) rest m0 in
  (r = m0 \/ In r rest) /\ val m0 <= val r
  /\ (forall x, In x rest -> val x <= val r).
Proof.
  induction rest as [|y rest IH]; intros m0 H0 Hr; cbn [fold_left].
  - repeat split; [now left|lia|intros x []].
  - inversion Hr as [|? ? Hy Hrest]; subst.
    rewrite (ltb_val m0 y H0 Hy : F64.gtb y m0 = _).
    destruct (Z.ltb_spec (val m0) (val y)) as [Hlt|Hge].
    + destruct (IH y Hy Hrest) as (Hin & Hle & Hall). cbv zeta in *.
      split; [destruct Hin as [->|Hin]; right; [now left|now right]|].
      split; [lia|]. intros x [<-|Hx]; [assumption|now apply Hall].
    + destruct (IH m0 H0 Hrest) as (Hin & Hle & Hall). cbv zeta in *.
      split; [destruct Hin as [->|Hin]; [now left|right; now right]|].
      split; [assumption|]. intros x [<-|Hx]; [lia|now apply Hall].
Qed.

(** The smallest and the greatest element bound the list. *)
Lemma min_max_bounds xs :
  xs <> [] -> Forall positive_float xs ->
  exists lo hi,
    Statistics.min xs = Some lo /\ Statistics.max xs = Some hi
    /\ positive_float lo /\ positive_float hi
    /\ (forall x, In x xs -> val lo <= val x <= val hi).
Proof.
  intros Hne Hall. destruct xs as [|x0 rest]; [contradiction|].
  inversion Hall as [|? ? H0 Hrest]; subst.
  destruct (min_fold rest x0 H0 Hrest) as (Hin & Hle & Hmin).
  destruct (max_fold rest x0 H0 Hrest) as (Hin' & Hle' & Hmax).
  cbv zeta in *. eexists. eexists.
  split; [reflexivity|]. split; [reflexivity|].
  assert (Hmem : forall r, r = x0 \/ In r rest -> positive_float r).
  { intros r [->|Hr]; [assumption|].
    rewrite Forall_forall in Hrest. apply Hrest. now apply list_elem_of_In. }
  split; [now apply Hmem|]. split; [now apply Hmem|].
  intros x [<-|Hx]; [lia|]. specialize (Hmin x Hx). specialize (Hmax x Hx). lia.
Qed.

Lemma insert_Forall (P : F64.float -> Prop) x l :
  P x -> Forall P l -> Forall P (Statistics.insert x l).
Proof.
  intros Hx. induction 1 as [|y l Hy Hl IH]; simpl.
  - now constructor.
  - destruct (F64.ltb x y); repeat constructor; assumption.
Qed.

Lemma sorted_Forall (P : F64.float -> Prop) xs :
  Forall P xs -> Forall P (Statistics.sorted xs).
Proof.
  unfold Statistics.sorted.
  enough (H : forall acc, Forall P acc -> Forall P xs ->
              Forall P (fold_left (fun acc x => Statistics.insert x acc) xs acc)).
  { intros Hxs. apply H; [constructor|assumption]. }
  induction xs as [|x xs IH]; intros acc Ha Hxs; simpl; [assumption|].
  inversion Hxs; subst. apply IH; [|assumption]. now apply insert_Forall.
Qed.

(** *** The exact sum *)

Lemma exact_ratio_value x :
  finite_positive x ->
  exists n d, Statistics.exact_ratio x = Some (n, d)
              /\ n * unit_value = Zpos d * val x.
Proof.
  intros [Hp Hf].
  destruct x as [s|[|]| |[|] m e]; cbn [positive_float] in Hp; try contradiction;
    try discriminate.
  destruct Hp as [(He & _ & _) _]. cbn [Statistics.exact_ratio val].
  unfold unit_value, scaled. unfold emin in *.
  destruct e as [|k|k].
  - eexists. eexists. split; [reflexivity|]. simpl Z.pow at 1. lia.
  - eexists. eexists. split; [reflexivity|].
    replace (Zpos k - -1074) with (Zpos k + 1074) by lia.
    rewrite Z.pow_add_r by lia. replace (0 - -1074) with 1074 by lia. lia.
  - eexists. eexists. split; [reflexivity|].
    rewrite Pos2Z.inj_pow. change (Z.pos 2) with 2.
    replace (0 - -1074) with (Zpos k + (Zneg k - -1074)) by lia.
    rewrite Z.pow_add_r by lia. lia.
Qed.

Lemma exact_sum_value xs : forall acc,
  Forall finite_positive xs ->
  let total :=
    fold_left (fun acc x => match Statistics.exact_ratio x with
                            | Some q => Statistics.fraction_add acc q
                            | None => acc
                            end) xs acc in
  forall s0, fst acc * unit_value = Zpos (snd acc) * s0 ->
  fst total * unit_value = Zpos (snd total) * (s0 + sum_val xs).
Proof.
  induction xs as [|x xs IH]; intros acc Hall; cbn [fold_left sum_val fold_right].
  - intros s0 H. rewrite Z.add_0_r. exact H.
  - inversion Hall as [|? ? Hx Hxs]; subst. intros s0 H0.
    destruct (exact_ratio_value x Hx) as (n & d & -> & Hn).
    fold (sum_val xs).
    replace (s0 + (val x + sum_val xs)) with (s0 + val x + sum_val xs) by lia.
    apply (IH _ Hxs). unfold Statistics.fraction_add. cbn [fst snd].
    rewrite Pos2Z.inj_mul. nia.
Qed.

Lemma sum_val_bounds xs lo hi :
  (forall x, In x xs -> lo <= val x <= hi) ->
  Z.of_nat (length xs) * lo <= sum_val xs <= Z.of_nat (length xs) * hi.
Proof.
  induction xs as [|x xs IH]; intros H; cbn [sum_val fold_right length].
  - lia.
  - fold (sum_val xs). specialize (H x (or_introl eq_refl)) as Hx.
    assert (Hrest : forall y, In y xs -> lo <= val y <= hi)
      by (intros y Hy; apply H; now right).
    specialize (IH Hrest). lia.
Qed.

(** *** Mean and median of positive floats *)

Lemma positive_float_infinite x :
  positive_float x -> F64.is_finite x = false -> x = S754_infinity false.
Proof.
  destruct x as [s|[|]| |[|] m e]; cbn [positive_float]; try contradiction;
    try discriminate; reflexivity.
Qed.

Lemma finite_val_lt_huge x :
  positive_float x -> F64.is_finite x = true -> val x < huge.
Proof.
  destruct x as [s|[|]| |[|] m e]; cbn [positive_float]; try contradiction;
    try discriminate.
  intros [Hc He] _. now apply val_finite_lt_huge.
Qed.

Lemma special_sum_infinity xs : forall acc,
  Forall positive_float xs ->
  acc = S754_infinity false \/ (acc = F64.zero /\ forallb F64.is_finite xs = false) ->
  fold_left (fun acc x => if F64.is_finite x then acc else F64.add acc x) xs acc
  = S754_infinity false.
Proof.
  induction xs as [|x xs IH]; intros acc Hall Hacc; cbn [fold_left].
  - destruct Hacc as [->|[_ H]]; [reflexivity|discriminate].
  - inversion Hall as [|? ? Hx Hxs]; subst.
    destruct (F64.is_finite x) eqn:Hf.
    + apply IH; [assumption|]. destruct Hacc as [->|[-> H]]; [now left|right].
      cbn [forallb] in H. rewrite Hf in H. now split.
    + rewrite (positive_float_infinite x Hx Hf).
      apply IH; [assumption|left]. destruct Hacc as [->|[-> _]]; reflexivity.
Qed.

(** The mean of a list of positive floats lies between any two floats that
    bound the list. *)
Lemma mean_between xs lo hi :
  xs <> [] -> Z.of_nat (length xs) < 2 ^ 63 ->
  Forall positive_float xs -> positive_float lo -> positive_float hi ->
  (forall x, In x xs -> val lo <= val x <= val hi) ->
  exists r, Statistics.mean xs = Some r /\ positive_float r
            /\ val lo <= val r <= val hi.
Proof.
  intros Hne Hlen Hall Hlo Hhi Hb.
  pose proof (val_positive lo Hlo) as Vlo. pose proof (val_positive hi Hhi) as Vhi.
  assert (Hn : 0 < Z.of_nat (length xs)).
  { destruct xs; [contradiction|]. simpl length. lia. }
  unfold Statistics.mean. destruct xs as [|x0 rest] eqn:Exs; [contradiction|].
  rewrite <- Exs in *. clear Exs x0 rest.
  set (n := Z.of_nat (length xs)) in *.
  destruct (forallb F64.is_finite xs) eqn:Hfin.
  - (* all finite: the exact mean, rounded *)
    assert (Hfp : Forall finite_positive xs).
    { rewrite Forall_forall in *. intros x Hx. split; [now apply Hall|].
      rewrite forallb_forall in Hfin. apply Hfin. now apply list_elem_of_In. }
    pose proof (exact_sum_value xs (0, 1%positive) Hfp 0 eq_refl) as Hsum.
    cbv zeta in Hsum. fold (Statistics.exact_sum xs) in Hsum.
    destruct (Statistics.exact_sum xs) as [N D]. cbn [fst snd] in *.
    rewrite Z.add_0_l in Hsum.
    pose proof (sum_val_bounds xs (val lo) (val hi) Hb) as [Slo Shi]. fold n in Slo, Shi.
    assert (HU : 0 < unit_value) by (unfold unit_value, scaled, emin; simpl; lia).
    assert (HN : 0 < N) by nia.
    destruct N as [|N|N]; try lia.
    eexists. split; [reflexivity|]. unfold Statistics.fraction_to_float. cbn [fst snd].
    assert (Escaled : scaled (Zpos N) 0 = Zpos N * unit_value)
      by (unfold unit_value, scaled; lia).
    assert (EB : Zpos (D * Z.to_pos n) = Zpos D * n).
    { rewrite Pos2Z.inj_mul, Z2Pos.id by lia. reflexivity. }
    destruct (round_ratio_rounds N (D * Z.to_pos n)) as [Hp Hs].
    { rewrite Escaled, EB. nia. }
    split; [assumption|].
    destruct (Hs lo Hlo) as [Hl _]. destruct (Hs hi Hhi) as [_ Hh].
    rewrite Escaled, EB in Hl, Hh. split; [apply Hl|apply Hh]; nia.
  - (* an infinity: the mean is [inf / n] *)
    unfold Statistics.special_sum.
    rewrite (special_sum_infinity xs F64.zero Hall) by (right; now split).
    destruct (of_Z_finite n ltac:(lia)) as (m & e & Em).
    change (F64.of_Z (Z.of_nat (length xs))) with (F64.of_Z n). rewrite Em.
    exists (S754_infinity false). split; [reflexivity|]. split; [exact I|].
    cbn [val]. split; [lia|].
    assert (Hex : exists x, In x xs /\ F64.is_finite x = false).
    { clear -Hfin. induction xs as [|x xs IH]; [discriminate|].
      cbn [forallb] in Hfin. apply andb_false_iff in Hfin as [H|H].
      - exists x. split; [now left|assumption].
      - destruct (IH H) as (y & Hy & Hf). exists y. split; [now right|assumption]. }
    destruct Hex as (x & Hx & Hf).
    assert (Hpx : positive_float x).
    { rewrite Forall_forall in Hall. apply Hall. now apply list_elem_of_In. }
    rewrite (positive_float_infinite x Hpx Hf) in Hx.
    specialize (Hb _ Hx). cbn [val] in Hb. lia.
Qed.

(** Twice a positive float, or [+inf]. *)
Lemma double_float x :
  positive_float x ->
  exists y, positive_float y /\ val y = Z.min (2 * val x) huge.
Proof.
  intros Hx. pose proof (val_positive x Hx) as Vx.
  destruct x as [s|[|]| |[|] m e]; cbn [positive_float] in Hx; try contradiction.
  - exists (S754_infinity false). split; [exact I|]. cbn [val]. lia.
  - destruct Hx as [Hc He]. cbn [val] in *.
    pose proof Hc as (Hemin & [Hm Hh] & Hn).
    destruct (Z_lt_le_dec (Zpos m) (2 ^ 52)) as [Hsub|Hnorm].
    + assert (e = emin) by (destruct Hn; [assumption|lia]). subst e.
      assert (Hc2 : canon (2 * Zpos m) emin).
      { split; [lia|]. split; [|now left]. change (2 ^ 53) with (2 * 2 ^ 52). lia. }
      exists (of_canon (2 * Zpos m) emin).
      split; [now apply positive_float_of_canon|].
      rewrite (val_of_canon _ _ Hc2). f_equal; try (unfold scaled; lia).
    + assert (Hc2 : canon (Zpos m) (e + 1)).
      { split; [lia|]. split; [lia|now right]. }
      exists (of_canon (Zpos m) (e + 1)).
      split; [now apply positive_float_of_canon|].
      rewrite (val_of_canon _ _ Hc2). f_equal; try now apply scaled_succ.
Qed.

(** The midpoint [(a + b) / 2] of two positive floats between [lo] and
    [hi] is not below [lo], and not above [hi] unless it is [+inf]. *)
Lemma midpoint_between a b lo hi :
  positive_float a -> positive_float b -> positive_float lo -> positive_float hi ->
  val lo <= val a <= val hi -> val lo <= val b <= val hi ->
  let r := F64.div (F64.add a b) (F64.of_Z 2) in
  positive_float r /\ val lo <= val r /\ (val r < huge -> val r <= val hi).
Proof.
  intros Ha Hb Hlo Hhi Ba Bb.
  pose proof (val_positive lo Hlo) as Vlo. pose proof (val_positive hi Hhi) as Vhi.
  destruct (add_rounds a b Ha Hb) as [Hs Hsand].
  pose proof (val_positive _ Hs) as Vs.
  destruct (Z_lt_le_dec (val (F64.add a b)) huge) as [Hfin|Hinf].
  - destruct (double_float lo Hlo) as (l2 & Hl2 & Vl2).
    destruct (double_float hi Hhi) as (h2 & Hh2 & Vh2).
    destruct (Hsand l2 Hl2) as [Hlow _]. destruct (Hsand h2 Hh2) as [_ Hupp].
    destruct (Hsand (S754_infinity false) I) as [Hcap _]. cbn [val] in Hcap.
    assert (Hsum : val a + val b < huge) by lia.
    assert (L : 2 * val lo <= val (F64.add a b)) by lia.
    assert (U : val (F64.add a b) <= 2 * val hi) by lia.
    destruct (positive_float_finite _ Hs Hfin) as (m & e & Es).
    rewrite Es in *. cbn [positive_float val] in *.
    destruct Hs as [(He & _) _].
    destruct (half_rounds m e He ltac:(lia)) as [Hr Hsr].
    cbv zeta. split; [assumption|].
    destruct (Hsr lo Hlo) as [Hl _]. destruct (Hsr hi Hhi) as [_ Hh].
    split; [apply Hl; lia|]. intros _. apply Hh. lia.
  - assert (Es : F64.add a b = S754_infinity false).
    { destruct (F64.add a b) as [s|[|]| |[|] m e]; cbn [positive_float] in Hs;
        try contradiction; [reflexivity|].
      destruct Hs as [Hc He]. pose proof (val_finite_lt_huge _ _ Hc He).
      cbn [val] in Hinf. lia. }
    rewrite Es, of_Z_2. cbv zeta. cbn. split; [exact I|]. split; [lia|lia].
Qed.

Lemma median_between xs lo hi :
  xs <> [] -> positive_float lo -> positive_float hi ->
  Forall (between lo hi) xs ->
  exists r, Statistics.median xs = Some r /\ positive_float r
            /\ val lo <= val r /\ (val r < huge -> val r <= val hi).
Proof.
  intros Hne Hlo Hhi Hall.
  destruct (statistics_defined xs Hne) as (_ & [r Hr] & _).
  exists r. split; [assumption|].
  pose proof (sorted_Forall _ xs Hall) as Hsorted.
  unfold Statistics.median in Hr.
  set (data := Statistics.sorted xs) in *.
  destruct (length data) as [|n'] eqn:En; [discriminate|].
  destruct (Nat.eqb (S n' mod 2) 1).
  - destruct (Forall_lookup_1 _ _ _ _ Hsorted Hr) as [Hp Hb].
    split; [assumption|]. split; [lia|]. intros _. lia.
  - destruct (data !! (S n' / 2 - 1)%nat) as [a|] eqn:Ea; [|discriminate].
    destruct (data !! (S n' / 2)%nat) as [b|] eqn:Eb; [|discriminate].
    cbn in Hr. injection Hr as <-.
    destruct (Forall_lookup_1 _ _ _ _ Hsorted Ea) as [Ha Ba].
    destruct (Forall_lookup_1 _ _ _ _ Hsorted Eb) as [Hb Bb].
    apply (midpoint_between a b lo hi); assumption.
Qed.

(** *** The summary statistics *)

Lemma positive_values_positive f activities :
  Forall (fun a => binary64 (f a)) activities ->
  Forall positive_float (positive_values f activities).
Proof.
  intros H. apply Forall_forall. intros x Hx. apply list_elem_of_In in Hx.
  unfold positive_values in Hx. apply filter_In in Hx as [Hin Hgt].
  apply in_map_iff in Hin as (a & <- & Ha).
  rewrite Forall_forall in H. apply positive_float_intro; [|exact Hgt].
  apply H. now apply list_elem_of_In.
Qed.

Lemma positive_values_length f activities :
  (length (positive_values f activities) <= length activities)%nat.
Proof.
  unfold positive_values.
  etransitivity; [apply List.filter_length_le|]. now rewrite length_map.
Qed.

(** Minimum, mean, median and maximum of the positive values of a field. *)
Lemma summary_of_positive_values xs :
  Forall positive_float xs -> Z.of_nat (length xs) < 2 ^ 63 ->
  F64.leb (if_any Statistics.min xs) (if_any Statistics.mean xs) = true
  /\ F64.leb (if_any Statistics.mean xs) (if_any Statistics.max xs) = true
  /\ F64.leb (if_any Statistics.min xs) (if_any Statistics.median xs) = true
  /\ (F64.is_finite (if_any Statistics.median xs) = true ->
      F64.leb (if_any Statistics.median xs) (if_any Statistics.max xs) = true).
Proof.
  intros Hall Hlen.
  destruct xs as [|x0 rest] eqn:Exs; [repeat split; reflexivity|].
  assert (Hne : xs <> []) by (rewrite Exs; discriminate).
  unfold if_any. rewrite <- Exs in *. clear Exs x0 rest.
  destruct (min_max_bounds xs Hne Hall) as (lo & hi & -> & -> & Hlo & Hhi & Hb).
  destruct (mean_between xs lo hi Hne Hlen Hall Hlo Hhi Hb)
    as (av & -> & Hav & Bav).
  assert (Hbetween : Forall (between lo hi) xs).
  { apply Forall_forall. intros x Hx. split.
    - rewrite Forall_forall in Hall. now apply Hall.
    - apply Hb. now apply list_elem_of_In. }
  destruct (median_between xs lo hi Hne Hlo Hhi Hbetween)
    as (md & -> & Hmd & Blo & Bhi).
  cbn [default from_option id]. unfold F64.leb.
  rewrite (leb_val lo av), (leb_val av hi), (leb_val lo md), (leb_val md hi)
    by assumption.
  repeat split; try (apply Z.leb_le; lia).
  intros Hf. apply Z.leb_le, Bhi. now apply finite_val_lt_huge.
Qed.

(** C10 (as the code has it). For every non-empty collection, of a length
    a Python list can have, whose distances and paces are binary64 values,
    the statistics returned satisfy [min_distance <= avg_distance <=
    max_distance], [best_pace <= avg_pace] and [min_distance <=
    median_distance]; and [median_distance <= max_distance] whenever the
    median is finite.  (The median of an even number of distances is
    [(a + b) / 2], and the sum overflows to [+inf] for two distances near
    the largest float.) *)
Theorem summary_statistics_consistent a rest activity_type_name :
  let activities := a :: rest in
  Z.of_nat (length activities) < 2 ^ 63 ->
  Forall (fun x => binary64 (distance_km x)) activities ->
  Forall (fun x => binary64 (pace_min_per_km x)) activities ->
  exists s,
    calculate_advanced_stats activities activity_type_name = Stats.Full s
    /\ F64.leb (Stats.min_distance s) (Stats.avg_distance s) = true
    /\ F64.leb (Stats.avg_distance s) (Stats.max_distance s) = true
    /\ F64.leb (Stats.min_distance s) (Stats.median_distance s) = true
    /\ (F64.is_finite (Stats.median_distance s) = true ->
        F64.leb (Stats.median_distance s) (Stats.max_distance s) = true)
    /\ F64.leb (Stats.best_pace s) (Stats.avg_pace s) = true.
Proof.
  intros activities Hlen Hd Hp. eexists. split; [reflexivity|].
  cbn [Stats.min_distance Stats.avg_distance Stats.max_distance
       Stats.median_distance Stats.best_pace Stats.avg_pace].
  assert (Hbound : forall f,
             Z.of_nat (length (positive_values f activities)) < 2 ^ 63).
  { intros f. pose proof (positive_values_length f activities). lia. }
  destruct (summary_of_positive_values (positive_values distance_km activities)
              (positive_values_positive _ _ Hd) (Hbound _))
    as (H1 & H2 & H3 & H4).
  destruct (summary_of_positive_values (positive_values pace_min_per_km activities)
              (positive_values_positive _ _ Hp) (Hbound _))
    as (H5 & _).
  repeat split; assumption.
Qed.

Lemma summary_of_two_runs :
  exists s,
    calculate_advanced_stats
      [activity_of (run_of_km "10") "FALSE" new_year_noon;
       activity_of (run_of_km "5.2") "FALSE" new_year_noon] "Running"
    = Stats.Full s
    /\ F64.leb (Stats.min_distance s) (Stats.avg_distance s) = true
    /\ F64.leb (Stats.avg_distance s) (Stats.max_distance s) = true
    /\ F64.leb (Stats.min_distance s) (Stats.median_distance s) = true
    /\ (F64.is_finite (Stats.median_distance s) = true ->
        F64.leb (Stats.median_distance s) (Stats.max_distance s) = true)
    /\ F64.leb (Stats.best_pace s) (Stats.avg_pace s) = true.
Proof.
  apply (summary_statistics_consistent
           (activity_of (run_of_km "10") "FALSE" new_year_noon)
           [activity_of (run_of_km "5.2") "FALSE" new_year_noon] "Running").
  - reflexivity.
  - repeat constructor; vm_compute; reflexivity.
  - repeat constructor; vm_compute; reflexivity.
Defined.

(** C10 (as stated) fails on a collection the loader produces: two
    distances of [1e308] km have the median [(1e308 + 1e308) / 2 = +inf],
    above the maximum [1e308]. *)
Lemma median_overflows_above_max :
  exists activities s,
    read_csv_file (fun _ => Rows [run_of_km "1e308"; run_of_km "1e308"] None)
                  "md_strava_acts.csv" = (Ok activities, [])
    /\ calculate_advanced_stats activities "Running" = Stats.Full s
    /\ Stats.median_distance s = S754_infinity false
    /\ Stats.max_distance s = default F64.zero (F64.of_string "1e308")
    /\ F64.leb (Stats.median_distance s) (Stats.max_distance s) = false.
Proof.
  eexists. eexists. split; [vm_compute; reflexivity|].
  split; [vm_compute; reflexivity|]. repeat split; vm_compute; reflexivity.
Qed.

(** ** The loader: every row is accounted for *)

Lemma process_single_row_diagnostics r :
  match fst (process_single_row r) with
  | Some _ => snd (process_single_row r) = []
  | None => length (snd (process_single_row r)) = 1%nat
  end.
Proof.
  unfold process_single_row. pose proof (process_single_row_try_cases r) as H.
  destruct (upper (get r "Commute" "")) as [commute|e].
  2:{ rewrite H. reflexivity. }
  destruct (strip (get r "Activity Date" "")) as [stripped|e].
  2:{ rewrite H. reflexivity. }
  destruct (String.eqb (date_text_of stripped) "").
  { rewrite H. reflexivity. }
  destruct (Datetime.strptime (date_text_of stripped)) as [d|].
  2:{ rewrite H. reflexivity. }
  rewrite H. destruct (F64.leb _ _); reflexivity.
Qed.

Lemma loaded_activity_of_row fs filename activities out a :
  read_csv_file fs filename = (Ok activities, out) ->
  In a activities ->
  exists r, fst (process_single_row r) = Some a.
Proof.
  unfold read_csv_file, read_csv_file_try. intros H Ha.
  destruct (fs filename) as [e|rows failure].
  - destruct (exn_eqb e FileNotFoundError); [|discriminate].
    injection H as <- _. destruct Ha.
  - rewrite read_rows_spec in H. simpl in H.
    destruct failure as [e|].
    + destruct (exn_eqb e FileNotFoundError); [|discriminate].
      injection H as <- _. destruct Ha.
    + injection H as <- _.
      apply list_elem_of_In, list_elem_of_omap in Ha as (r & _ & Hr).
      now exists r.
Qed.

(** X2. When the file opens and the reader reaches its end,
    [read_csv_file] returns, in the order of the file, the activities of
    the rows that [process_single_row] keeps, and every row is accounted
    for: the activities returned and the diagnostics printed are together
    as many as the rows. *)
Theorem loader_accounts_for_every_row fs filename rows :
  fs filename = Rows rows None ->
  exists activities out,
    read_csv_file fs filename = (Ok activities, out)
    /\ activities = omap (fun r => fst (process_single_row r)) rows
    /\ (length activities + length out = length rows)%nat.
Proof.
  intros Hfs. unfold read_csv_file, read_csv_file_try. rewrite Hfs.
  rewrite read_rows_spec. simpl. eexists _, _. split; [reflexivity|].
  assert (H : (length (omap (fun r => fst (process_single_row r)) rows)
               + length (flat_map (fun r => snd (process_single_row r)) rows)
               = length rows)%nat).
  { clear Hfs. induction rows as [|r rows IH]; [reflexivity|].
    cbn [omap list_omap flat_map]. rewrite length_app.
    pose proof (process_single_row_diagnostics r) as Hd.
    destruct (fst (process_single_row r)); simpl in *.
    - rewrite Hd. simpl. lia.
    - rewrite Hd. lia. }
  split; [reflexivity|exact H].
Qed.

Lemma loader_accounts_for_three_rows :
  exists activities out,
    read_csv_file (fun _ => Rows [run_10km_3000s; row_without_date; row_without_commute] None)
                  "md_strava_acts.csv" = (Ok activities, out)
    /\ activities
       = omap (fun r => fst (process_single_row r))
              [run_10km_3000s; row_without_date; row_without_commute]
    /\ (length activities + length out = 3)%nat.
Proof.
  apply (loader_accounts_for_every_row
           (fun _ => Rows [run_10km_3000s; row_without_date; row_without_commute] None)
           "md_strava_acts.csv"
           [run_10km_3000s; row_without_date; row_without_commute]).
  reflexivity.
Defined.

(** ** Weekly patterns: the favourite day *)

Section DefaultDictKeys.
Context {V : Type} (default_value : V).

Lemma dd_find_None (d : list (string * V)) k :
  dd_find d k = None <-> k ∉ dd_keys d.
Proof.
  induction d as [|[k0 v0] d IH]; simpl.
  - split; [intros _; apply not_elem_of_nil|reflexivity].
  - rewrite not_elem_of_cons. destruct (String.eqb k k0) eqn:E.
    + apply String.eqb_eq in E. subst. split; [discriminate|tauto].
    + apply String.eqb_neq in E. rewrite IH. tauto.
Qed.

Lemma dd_find_In (d : list (string * V)) k v :
  NoDup (dd_keys d) -> In (k, v) d -> dd_find d k = Some v.
Proof.
  induction d as [|[k0 v0] d IH]; simpl; [tauto|].
  intros Hnd [Hin|Hin].
  - injection Hin as -> ->. now rewrite String.eqb_refl.
  - apply NoDup_cons in Hnd as [Hnin Hnd'].
    destruct (String.eqb k k0) eqn:E.
    + apply String.eqb_eq in E. subst k0. exfalso. apply Hnin.
      apply list_elem_of_In. unfold dd_keys. apply in_map_iff. now exists (k, v).
    + now apply IH.
Qed.

Lemma dd_find_Some (d : list (string * V)) k v :
  dd_find d k = Some v -> In (k, v) d.
Proof.
  induction d as [|[k0 v0] d IH]; simpl; [discriminate|].
  destruct (String.eqb k k0) eqn:E.
  - apply String.eqb_eq in E. subst. intros [= ->]. now left.
  - intros H. right. now apply IH.
Qed.

Lemma dd_keys_set (d : list (string * V)) k v :
  dd_keys (dd_set d k v)
  = if bool_decide (k ∈ dd_keys d) then dd_keys d else dd_keys d ++ [k].
Proof.
  induction d as [|[k0 v0] d IH]; cbn [dd_set dd_keys map fst].
  - rewrite bool_decide_eq_false_2 by apply not_elem_of_nil. reflexivity.
  - fold (dd_keys d). destruct (String.eqb k k0) eqn:E.
    + apply String.eqb_eq in E. subst k0. cbn [map fst].
      rewrite bool_decide_eq_true_2 by apply list_elem_of_here. reflexivity.
    + apply String.eqb_neq in E. cbn [map fst]. fold (dd_keys (dd_set d k v)).
      rewrite IH.
      destruct (bool_decide (k ∈ dd_keys d)) eqn:B.
      * apply bool_decide_eq_true_1 in B.
        rewrite bool_decide_eq_true_2 by now apply list_elem_of_further.
        reflexivity.
      * apply bool_decide_eq_false_1 in B.
        rewrite bool_decide_eq_false_2; [reflexivity|].
        rewrite not_elem_of_cons. tauto.
Qed.

Lemma dd_keys_getitem (d : list (string * V)) k :
  dd_keys (snd (dd_getitem default_value d k))
  = if bool_decide (k ∈ dd_keys d) then dd_keys d else dd_keys d ++ [k].
Proof.
  unfold dd_getitem. destruct (dd_find d k) eqn:E; simpl.
  - rewrite bool_decide_eq_true_2; [reflexivity|].
    destruct (decide (k ∈ dd_keys d)) as [H|H]; [exact H|].
    apply dd_find_None in H. congruence.
  - apply dd_find_None in E. rewrite bool_decide_eq_false_2 by exact E.
    unfold dd_keys. rewrite map_app. reflexivity.
Qed.

Lemma dd_keys_update f (d : list (string * V)) k :
  dd_keys (dd_update default_value f d k)
  = if bool_decide (k ∈ dd_keys d) then dd_keys d else dd_keys d ++ [k].
Proof.
  unfold dd_update. pose proof (dd_keys_getitem d k) as H.
  destruct (dd_getitem default_value d k) as [v d']. simpl in H.
  rewrite dd_keys_set, H.
  destruct (bool_decide (k ∈ dd_keys d)) eqn:B.
  - now rewrite B.
  - rewrite bool_decide_eq_true_2; [reflexivity|].
    apply elem_of_app. right. apply list_elem_of_here.
Qed.
End DefaultDictKeys.

Lemma NoDup_snoc_key (l : list string) k :
  NoDup l -> NoDup (if bool_decide (k ∈ l) then l else l ++ [k]).
Proof.
  intros H. destruct (bool_decide (k ∈ l)) eqn:B; [exact H|].
  apply bool_decide_eq_false_1 in B. apply NoDup_app. split; [exact H|].
  split; [|apply NoDup_singleton].
  intros x Hx Hk. apply list_elem_of_singleton in Hk. now subst.
Qed.

Lemma elem_of_snoc_key (l : list string) k k' :
  k' ∈ (if bool_decide (k ∈ l) then l else l ++ [k]) <-> k' ∈ l \/ k' = k.
Proof.
  destruct (bool_decide (k ∈ l)) eqn:B.
  - apply bool_decide_eq_true_1 in B. split; [tauto|]. intros [H| ->]; assumption.
  - rewrite elem_of_app, list_elem_of_singleton. tauto.
Qed.

Lemma max_key_fold (d : list (string * Z)) : forall (bk : string) (bv : Z),
  let r := fold_left (fun '(bk, bv) '(k', v') =>
                        if v' >? bv then (k', v') else (bk, bv) : string * Z)
                     d (bk, bv) in
  In r ((bk, bv) :: d) /\ bv <= snd r
  /\ (forall k v, In (k, v) d -> v <= snd r).
Proof.
  induction d as [|[k1 v1] d IH]; intros bk bv; simpl.
  - split; [now left|]. split; [lia|]. intros k v [].
  - destruct (v1 >? bv) eqn:E.
    + destruct (IH k1 v1) as (Hin & Hle & Hall). split.
      { destruct Hin as [<-|Hin]; [right; now left|right; now right]. }
      split; [lia|]. intros k v [Hkv|Hkv]; [injection Hkv as -> ->; exact Hle|].
      now apply Hall with k.
    + destruct (IH bk bv) as (Hin & Hle & Hall). split.
      { destruct Hin as [<-|Hin]; [now left|right; now right]. }
      split; [exact Hle|]. intros k v [Hkv|Hkv]; [injection Hkv as -> ->; lia|].
      now apply Hall with k.
Qed.

Lemma max_key_spec (d : list (string * Z)) :
  d <> [] ->
  exists k v, max_key d = Some k /\ In (k, v) d
              /\ (forall k' v', In (k', v') d -> v' <= v).
Proof.
  destruct d as [|[k0 v0] d]; [congruence|]. intros _. simpl.
  pose proof (max_key_fold d k0 v0) as H. cbv zeta in H.
  destruct (fold_left _ d (k0, v0)) as [k v]. simpl in H.
  destruct H as (Hin & Hle & Hall).
  exists k, v. split; [reflexivity|]. split; [exact Hin|].
  intros k' v' [Hkv|Hkv]; [injection Hkv as -> ->; exact Hle|].
  now apply Hall with k'.
Qed.

Lemma max_key_first (d : list (string * Z)) k0 v0 :
  (forall k v, In (k, v) d -> v <= v0) -> max_key ((k0, v0) :: d) = Some k0.
Proof.
  intros H. simpl. f_equal.
  assert (E : fold_left (fun '(bk, bv) '(k', v') =>
                           if v' >? bv then (k', v') else (bk, bv) : string * Z)
                        d (k0, v0)
              = (k0, v0)).
  { induction d as [|[k1 v1] d IH]; [reflexivity|]. simpl.
    assert (v1 <= v0) by (apply (H k1); now left).
    destruct (v1 >? v0) eqn:E; [lia|]. apply IH. intros k v Hkv.
    apply (H k). now right. }
  now rewrite E.
Qed.

Lemma tally_keys activities :
  NoDup (dd_keys (fst (tally activities)))
  /\ (forall k, k ∈ dd_keys (fst (tally activities)) ->
                exists a, In a activities /\ day_of_week a = k).
Proof.
  induction activities as [|a activities [IHn IHk]] using rev_ind.
  - split; [apply NoDup_nil_2|]. intros k Hk. now apply not_elem_of_nil in Hk.
  - rewrite tally_snoc. simpl. rewrite dd_keys_update. split.
    + now apply NoDup_snoc_key.
    + intros k Hk. apply elem_of_snoc_key in Hk as [H| ->].
      * destruct (IHk k H) as (a' & Ha' & E). exists a'. split; [|exact E].
        apply in_or_app. now left.
      * exists a. split; [|reflexivity]. apply in_or_app. right. now left.
Qed.

Lemma weekly_rows_final days : forall day_counts day_distances,
  let final := snd (weekly_rows days day_counts day_distances) in
  (NoDup (dd_keys day_counts) -> NoDup (dd_keys final))
  /\ (forall k, dd_value 0 final k = dd_value 0 day_counts k)
  /\ (forall k, k ∈ dd_keys final <-> k ∈ dd_keys day_counts \/ In k days).
Proof.
  induction days as [|day days IH]; intros dc dt; simpl.
  - split; [tauto|]. split; [reflexivity|]. tauto.
  - pose proof (dd_keys_getitem 0 dc day) as Hk.
    pose proof (dd_getitem_frame 0 dc day) as Hf.
    destruct (dd_getitem 0 dc day) as [count dc'].
    destruct (dd_getitem F64.zero dt day) as [total dt'].
    simpl in Hk, Hf. specialize (IH dc' dt'). cbv zeta in IH.
    destruct (weekly_rows days dc' dt') as [lines final]. simpl in IH |- *.
    destruct IH as (IHn & IHv & IHk). split.
    { intros Hnd. apply IHn. rewrite Hk. now apply NoDup_snoc_key. }
    split.
    { intros k. now rewrite IHv, Hf. }
    intros k. rewrite IHk, Hk, elem_of_snoc_key.
    split; [intros [[H|H]|H]|intros [H|[H|H]]]; auto.
Qed.

(** X3. The last line of [analyze_weekly_patterns] names the favourite
    day with the number of activities of that day.  The favourite day is
    one of the seven weekdays or the day of an activity, no day has more
    activities, and without any activity it is ["Monday"]. *)
Theorem favorite_day_has_most_activities activities activity_type :
  exists favorite_day,
    last (analyze_weekly_patterns activities activity_type)
    = Some (WeeklyFavorite activity_type favorite_day
              (Z.of_nat (length (on_day favorite_day activities))))
    /\ (In favorite_day days_order
        \/ exists a, In a activities /\ day_of_week a = favorite_day)
    /\ (forall day,
          (length (on_day day activities)
           <= length (on_day favorite_day activities))%nat)
    /\ (activities = [] -> favorite_day = "Monday").
Proof.
  unfold analyze_weekly_patterns.
  pose proof (tally_keys activities) as [Hnd Hkeys].
  pose proof (fun d => proj1 (tally_values activities d)) as Hval.
  assert (Hnil : activities = [] -> tally activities = ([], []))
    by (intros ->; reflexivity).
  destruct (tally activities) as [dc dt]. simpl in Hnd, Hkeys, Hval.
  pose proof (weekly_rows_final days_order dc dt) as Hfinal. cbv zeta in Hfinal.
  assert (Hfirst : dc = [] -> dt = [] ->
                   exists rest, snd (weekly_rows days_order dc dt) = ("Monday", 0) :: rest
                                /\ forall k v, In (k, v) rest -> v = 0).
  { intros -> ->. eexists. split; [reflexivity|]. simpl. intros k v H.
    repeat (destruct H as [H|H]; [now injection H as _ <-|]). destruct H. }
  destruct (weekly_rows days_order dc dt) as [lines final]. simpl in Hfinal, Hfirst.
  destruct Hfinal as (Hn & Hv & Hk). specialize (Hn Hnd).
  assert (Hne : final <> []).
  { intros ->. assert (H : "Monday" ∈ dd_keys (@nil (string * Z))).
    { apply Hk. right. now left. }
    now apply not_elem_of_nil in H. }
  destruct (max_key_spec final Hne) as (k & v & Hmax & Hin & Hall).
  rewrite Hmax. cbn [default from_option id]. exists k.
  assert (Hkv : dd_value 0 final k = v).
  { unfold dd_value. now rewrite (dd_find_In final k v Hn Hin). }
  assert (Hcount : forall d, dd_value 0 final d = Z.of_nat (length (on_day d activities))).
  { intros d. now rewrite Hv, Hval. }
  split.
  { rewrite app_assoc, last_snoc. rewrite dd_getitem_value, <- Hcount. reflexivity. }
  split.
  { assert (k ∈ dd_keys final) as Hkk.
    { apply list_elem_of_In. unfold dd_keys. apply in_map_iff. now exists (k, v). }
    apply Hk in Hkk as [Hkk|Hkk]; [right; now apply Hkeys|now left]. }
  split.
  { intros d. apply Nat2Z.inj_le. rewrite <- !Hcount, Hkv.
    unfold dd_value. destruct (dd_find final d) as [vd|] eqn:Ed.
    - simpl. apply (Hall d). now apply dd_find_Some.
    - simpl. rewrite <- Hkv, Hcount. lia. }
  intros Ha. specialize (Hnil Ha). injection Hnil as -> ->.
  destruct (Hfirst eq_refl eq_refl) as (rest & -> & Hrest).
  rewrite max_key_first in Hmax; [congruence|].
  intros k' v' H. rewrite (Hrest k' v' H). lia.
Qed.

(** ** Counting by key *)

Lemma sum_int_from l : forall acc, fold_left Z.add l acc = acc + Py.sum_int l.
Proof.
  unfold Py.sum_int. induction l as [|x l IH]; intros acc; simpl; [lia|].
  rewrite (IH (acc + x)), (IH (0 + x)). lia.
Qed.

Lemma sum_int_cons x l : Py.sum_int (x :: l) = x + Py.sum_int l.
Proof. unfold Py.sum_int at 1. simpl. apply sum_int_from. Qed.

Lemma sum_int_app l1 l2 : Py.sum_int (l1 ++ l2) = Py.sum_int l1 + Py.sum_int l2.
Proof.
  induction l1 as [|x l1 IH]; [reflexivity|]. simpl.
  rewrite !sum_int_cons, IH. lia.
Qed.

Lemma sum_int_map_add {K} (g h : K -> Z) keys :
  Py.sum_int (map (fun k => g k + h k) keys)
  = Py.sum_int (map g keys) + Py.sum_int (map h keys).
Proof.
  induction keys as [|k keys IH]; [reflexivity|]. simpl.
  rewrite !sum_int_cons, IH. lia.
Qed.

Section CountByKey.
Context {A K : Type} (eqb : K -> K -> bool).
Hypothesis eqb_spec : forall x y, eqb x y = true <-> x = y.
Variable f : A -> K.

Lemma one_key keys x :
  NoDup keys -> In x keys ->
  Py.sum_int (map (fun k => if eqb k x then 1 else 0) keys) = 1.
Proof.
  induction 1 as [|k keys Hk Hnd IH]; [intros []|].
  simpl. rewrite sum_int_cons. intros [->|Hin].
  - rewrite (proj2 (eqb_spec x x) eq_refl).
    assert (E : Py.sum_int (map (fun k => if eqb k x then 1 else 0) keys) = 0).
    { clear IH Hnd. induction keys as [|k keys IH]; [reflexivity|].
      simpl. rewrite sum_int_cons. apply not_elem_of_cons in Hk as [Hne Hk].
      destruct (eqb k x) eqn:E; [apply eqb_spec in E; congruence|].
      now rewrite IH. }
    lia.
  - destruct (eqb k x) eqn:E.
    + apply eqb_spec in E. subst k. apply list_elem_of_In in Hin. contradiction.
    + now rewrite IH.
Qed.

Lemma occurrences_cons k a l :
  occurrences eqb f k (a :: l)
  = (if eqb k (f a) then 1 else 0) + occurrences eqb f k l.
Proof.
  unfold occurrences. simpl. destruct (eqb k (f a)); simpl length; lia.
Qed.

Lemma occurrences_nonneg k l : 0 <= occurrences eqb f k l.
Proof. unfold occurrences. lia. Qed.

Lemma occurrences_app k l1 l2 :
  occurrences eqb f k (l1 ++ l2) = occurrences eqb f k l1 + occurrences eqb f k l2.
Proof. unfold occurrences. rewrite List.filter_app, length_app. lia. Qed.

(** Every element is counted under exactly one key. *)
Lemma count_by_key keys l :
  NoDup keys -> Forall (fun a => In (f a) keys) l ->
  Py.sum_int (map (fun k => occurrences eqb f k l) keys) = Z.of_nat (length l).
Proof.
  intros Hnd. induction 1 as [|a l Ha Hall IH].
  - simpl. clear Hnd. induction keys as [|k keys IHk]; [reflexivity|].
    simpl. now rewrite sum_int_cons, IHk.
  - rewrite (map_ext _ (fun k => (if eqb k (f a) then 1 else 0)
                                 + occurrences eqb f k l))
      by (intros k; apply occurrences_cons).
    rewrite sum_int_map_add, IH, one_key by assumption.
    simpl length. lia.
Qed.

Lemma occurrences_le_length k l : occurrences eqb f k l <= Z.of_nat (length l).
Proof.
  unfold occurrences. apply Nat2Z.inj_le. apply List.filter_length_le.
Qed.
End CountByKey.

(** ** The calendar of loaded activities *)

Lemma strptime_valid text d :
  Datetime.strptime text = Some d -> Datetime.valid d = true.
Proof.
  unfold Datetime.strptime.
  destruct (Datetime.match_re _ _ _ _) as [[c rest]|];
    cbn -[Datetime.index_of Datetime.valid Nat.eqb]; [|discriminate].
  destruct (negb _); [discriminate|].
  match goal with
  | |- context [Datetime.index_of ?a ?b ?c] =>
      destruct (Datetime.index_of a b c) as [m|];
      cbn -[Datetime.valid]; [|discriminate]
  end.
  match goal with
  | |- context [Datetime.valid ?x] => destruct (Datetime.valid x) eqn:E; [|discriminate]
  end.
  intros [= <-]. exact E.
Qed.

Lemma strftime_A_day d : In (Datetime.strftime_A d) days_order.
Proof.
  unfold Datetime.strftime_A.
  pose proof (Z.mod_pos_bound (Datetime.toordinal d + 6) 7 ltac:(lia)) as H.
  unfold Datetime.weekday. set (w := (Datetime.toordinal d + 6) mod 7) in *.
  assert (Hw : w = 0 \/ w = 1 \/ w = 2 \/ w = 3 \/ w = 4 \/ w = 5 \/ w = 6) by lia.
  unfold days_order.
  destruct Hw as [->|[->|[->|[->|[->|[->| ->]]]]]]; simpl; tauto.
Qed.

Lemma valid_bounds d :
  Datetime.valid d = true ->
  1 <= Datetime.year d <= 9999 /\ 1 <= Datetime.month d <= 12
  /\ 1 <= Datetime.day d <= Datetime.days_in_month (Datetime.year d) (Datetime.month d)
  /\ 0 <= Datetime.hour d <= 23 /\ 0 <= Datetime.minute d <= 59
  /\ 0 <= Datetime.second d <= 59.
Proof.
  unfold Datetime.valid. rewrite !andb_true_iff, !Z.leb_le. tauto.
Qed.

(** X4. Every activity that [read_csv_file] returns has a date of the
    calendar and an hour from 0 to 23, and its [day_of_week] is the
    English name of the weekday of its date: the entry of [days_order] at
    the position [weekday()]. *)
Theorem loaded_activity_calendar fs filename activities out a :
  read_csv_file fs filename = (Ok activities, out) ->
  In a activities ->
  Datetime.valid (date a) = true
  /\ 0 <= hour a <= 23
  /\ In (day_of_week a) days_order
  /\ nth_error days_order (Z.to_nat (Datetime.weekday (date a))) = Some (day_of_week a).
Proof.
  intros H Ha. destruct (loaded_activity_of_row _ _ _ _ _ H Ha) as [r Hr].
  destruct (process_single_row_kept r a Hr)
    as (commute & stripped & d & _ & _ & _ & Hd & _ & -> & _).
  simpl. pose proof (strptime_valid _ _ Hd) as Hv. split; [exact Hv|].
  split; [apply valid_bounds in Hv; tauto|].
  split; [apply strftime_A_day|].
  unfold Datetime.strftime_A.
  pose proof (Z.mod_pos_bound (Datetime.toordinal d + 6) 7 ltac:(lia)) as Hw.
  unfold Datetime.weekday. set (w := (Datetime.toordinal d + 6) mod 7) in *.
  assert (Hw' : w = 0 \/ w = 1 \/ w = 2 \/ w = 3 \/ w = 4 \/ w = 5 \/ w = 6) by lia.
  destruct Hw' as [->|[->|[->|[->|[->|[->| ->]]]]]]; reflexivity.
Qed.

Lemma loaded_run_calendar :
  let a := activity_of run_10km_3000s "FALSE" new_year_noon in
  Datetime.valid (date a) = true
  /\ 0 <= hour a <= 23
  /\ In (day_of_week a) days_order
  /\ nth_error days_order (Z.to_nat (Datetime.weekday (date a))) = Some (day_of_week a).
Proof.
  apply (loaded_activity_calendar (fun _ => Rows [run_10km_3000s] None)
           "md_strava_acts.csv"
           [activity_of run_10km_3000s "FALSE" new_year_noon] []).
  - vm_compute. reflexivity.
  - simpl. left. reflexivity.
Defined.

(** ** Weekly patterns: the rows count every activity *)

Lemma weekly_entries_spec activities activity_type :
  weekly_entries (analyze_weekly_patterns activities activity_type)
  = map (weekly_entry activities) days_order.
Proof.
  unfold analyze_weekly_patterns.
  destruct (tally activities) as [dc dt] eqn:Et.
  pose proof (weekly_rows_lines days_order dc dt) as Hl.
  destruct (weekly_rows days_order dc dt) as [lines dc']. simpl in Hl.
  subst lines. unfold weekly_entries. cbn [app omap list_omap].
  unfold days_order, weekly_entry. cbn [map].
  pose proof (fun d => proj1 (tally_values activities d)) as Hc.
  pose proof (fun d => proj2 (tally_values activities d)) as Ht.
  rewrite Et in Hc, Ht. simpl in Hc, Ht.
  now rewrite !Hc, !Ht.
Qed.

Lemma days_order_NoDup : NoDup days_order.
Proof.
  apply (bool_decide_unpack (NoDup days_order)). vm_compute. exact I.
Qed.

(** X5. When the day of every activity is one of the seven names of
    [days_order], as it is for loaded activities, the counts of the rows
    that [analyze_weekly_patterns] prints add up to the number of
    activities: every activity is counted once. *)
Theorem weekly_rows_count_every_activity activities activity_type :
  Forall (fun a => In (day_of_week a) days_order) activities ->
  Py.sum_int (weekly_counts (analyze_weekly_patterns activities activity_type))
  = Z.of_nat (length activities).
Proof.
  intros Hall. unfold weekly_counts. rewrite weekly_entries_spec, map_map.
  rewrite <- (count_by_key String.eqb String.eqb_eq day_of_week days_order activities
                days_order_NoDup Hall).
  reflexivity.
Qed.

Lemma weekly_rows_count_one_run :
  Py.sum_int (weekly_counts (analyze_weekly_patterns [morning_run] "Running")) = 1.
Proof.
  apply (weekly_rows_count_every_activity [morning_run] "Running").
  apply List.Forall_cons; [|apply List.Forall_nil]. left. reflexivity.
Defined.

(** ** Quotients of counts *)

Lemma one_positive : positive_float one /\ val one = unit_value.
Proof.
  split; [|reflexivity]. unfold one, positive_float, canon, emin. simpl. lia.
Qed.

Lemma unit_value_lt_huge : unit_value < huge.
Proof. reflexivity. Qed.

Lemma scaled_0 a : scaled a 0 = a * unit_value.
Proof. reflexivity. Qed.

Lemma unit_value_pos : 0 < unit_value.
Proof. reflexivity. Qed.

(** The quotient of a count by a greater count is a float from [0]
    (excluded) to [1]. *)
Lemma int_truediv_fraction a b :
  0 < a <= b -> b < 2 ^ 63 ->
  exists r, Py.int_truediv a b = Return r
            /\ rounds_to (a * unit_value) b r /\ val r <= unit_value
            /\ F64.is_finite r = true.
Proof.
  intros Hab Hb. destruct b as [|d|d]; try lia. destruct a as [|p|p]; try lia.
  unfold Py.int_truediv, Statistics.fraction_to_float. cbn [fst snd].
  assert (Hle : Zpos d <= scaled (Zpos p) 0).
  { rewrite scaled_0. pose proof unit_value_pos.
    assert (2 ^ 63 <= unit_value) by (vm_compute; discriminate). nia. }
  pose proof (round_ratio_rounds p d Hle) as Hr. rewrite scaled_0 in Hr.
  set (r := F64.round_ratio false p d) in *.
  destruct Hr as [Hpos Hsand].
  assert (Hv : val r <= unit_value).
  { destruct one_positive as [H1 V1]. rewrite <- V1.
    apply (Hsand one H1). rewrite V1. pose proof unit_value_pos. nia. }
  assert (Hfin : F64.is_finite r = true).
  { destruct (positive_float_finite r Hpos) as (m & e & ->); [|reflexivity].
    pose proof unit_value_lt_huge. lia. }
  rewrite Hfin. exists r. split; [reflexivity|].
  split; [split; assumption|]. split; assumption.
Qed.

Lemma float_of_int_count n :
  0 < n < 2 ^ 63 ->
  exists m e, Py.float_of_int n = Return (S754_finite false m e)
              /\ F64.of_Z n = S754_finite false m e.
Proof.
  intros Hn. destruct (of_Z_finite n Hn) as (m & e & E).
  exists m, e. unfold Py.float_of_int. rewrite E. split; reflexivity.
Qed.

Lemma float_div_int_count x n :
  0 < n < 2 ^ 63 ->
  Py.float_div_int x n = Return (F64.div x (F64.of_Z n)).
Proof.
  intros Hn. destruct (float_of_int_count n Hn) as (m & e & E & E').
  unfold Py.float_div_int. rewrite E, E'. reflexivity.
Qed.

(** ** Sorting by count *)

Section SortedByCount.
Context {K : Type}.

Lemma insert_by_count_perm (x : K * Z) l : Py.insert_by_count x l ≡ₚ x :: l.
Proof.
  induction l as [|y l IH]; simpl; [reflexivity|].
  destruct (snd y <? snd x); [reflexivity|].
  rewrite IH. apply perm_swap.
Qed.

Lemma sorted_by_count_fold (items : list (K * Z)) : forall acc,
  fold_left (fun acc x => Py.insert_by_count x acc) items acc ≡ₚ items ++ acc.
Proof.
  induction items as [|x items IH]; intros acc; simpl; [reflexivity|].
  rewrite IH, insert_by_count_perm. now rewrite Permutation_middle.
Qed.

Lemma sorted_by_count_perm (items : list (K * Z)) :
  Py.sorted_by_count items ≡ₚ items.
Proof.
  unfold Py.sorted_by_count. rewrite sorted_by_count_fold. now rewrite app_nil_r.
Qed.

Lemma insert_by_count_sorted (x : K * Z) l :
  by_count_descending l -> by_count_descending (Py.insert_by_count x l).
Proof.
  unfold by_count_descending.
  induction 1 as [|y l Hs IH Hy]; simpl.
  - constructor; [constructor|constructor].
  - destruct (snd y <? snd x) eqn:E.
    + apply Z.ltb_lt in E. constructor; [now constructor|].
      constructor; [lia|]. eapply List.Forall_impl; [|exact Hy].
      simpl. intros z Hz. lia.
    + apply Z.ltb_ge in E. constructor; [exact IH|].
      rewrite (insert_by_count_perm x l). constructor; [exact E|exact Hy].
Qed.

Lemma sorted_by_count_sorted (items : list (K * Z)) :
  by_count_descending (Py.sorted_by_count items).
Proof.
  unfold Py.sorted_by_count.
  assert (H : forall acc, by_count_descending acc ->
                by_count_descending
                  (fold_left (fun acc x => Py.insert_by_count x acc) items acc)).
  { induction items as [|x items IH]; intros acc Hacc; simpl; [exact Hacc|].
    apply IH. now apply insert_by_count_sorted. }
  apply H. constructor.
Qed.

Lemma by_count_descending_filter (p : K * Z -> bool) l :
  by_count_descending l -> by_count_descending (List.filter p l).
Proof.
  unfold by_count_descending. induction 1 as [|y l Hs IH Hy]; simpl; [constructor|].
  destruct (p y); [|exact IH]. constructor; [exact IH|].
  apply Forall_forall. intros z Hz. apply list_elem_of_In, List.filter_In in Hz as [Hz _].
  rewrite Forall_forall in Hy. apply Hy. now apply list_elem_of_In.
Qed.
End SortedByCount.

Lemma sum_int_perm l1 l2 : l1 ≡ₚ l2 -> Py.sum_int l1 = Py.sum_int l2.
Proof.
  induction 1 as [|x l1 l2 _ IH|x y l|l1 l2 l3 _ IH1 _ IH2].
  - reflexivity.
  - now rewrite !sum_int_cons, IH.
  - rewrite !sum_int_cons. lia.
  - congruence.
Qed.

Lemma sum_int_filter_positive {K} (l : list (K * Z)) :
  Forall (fun x => 0 <= snd x) l ->
  Py.sum_int (map snd (List.filter (fun x => snd x >? 0) l)) = Py.sum_int (map snd l).
Proof.
  induction 1 as [|x l Hx _ IH]; [reflexivity|]. simpl.
  destruct (snd x >? 0) eqn:E; simpl; rewrite !sum_int_cons, ?IH; lia.
Qed.

(** ** Time of day *)

Lemma count_hours_lookup activities h :
  default 0 (count_hours activities !! h) = occurrences Z.eqb hour h activities.
Proof.
  unfold count_hours.
  induction activities as [|a activities IH] using rev_ind; [reflexivity|].
  rewrite fold_left_app, occurrences_app. simpl.
  set (m := fold_left _ activities ∅) in *.
  rewrite occurrences_cons. unfold occurrences at 2. simpl.
  destruct (Z.eqb h (hour a)) eqn:E.
  - apply Z.eqb_eq in E. subst h. rewrite lookup_insert_eq. simpl. rewrite IH. lia.
  - apply Z.eqb_neq in E. rewrite lookup_insert_ne by congruence. rewrite IH. lia.
Qed.

Lemma occurrences_at_hours hours activities h :
  In h hours ->
  occurrences Z.eqb hour h (at_hours hours activities)
  = occurrences Z.eqb hour h activities.
Proof.
  intros Hh. unfold occurrences, at_hours. f_equal. f_equal.
  induction activities as [|a l IH]; [reflexivity|]. simpl.
  destruct (existsb (Z.eqb (hour a)) hours) eqn:E; simpl.
  - destruct (h =? hour a); simpl; now rewrite IH.
  - destruct (h =? hour a) eqn:E'; [|exact IH].
    apply Z.eqb_eq in E'. subst h. exfalso.
    assert (existsb (Z.eqb (hour a)) hours = true); [|congruence].
    apply existsb_exists. exists (hour a). split; [exact Hh|apply Z.eqb_refl].
Qed.

Lemma period_count_at_hours hours activities :
  NoDup hours ->
  Py.sum_int (map (fun h => default 0 (count_hours activities !! h)) hours)
  = Z.of_nat (length (at_hours hours activities)).
Proof.
  intros Hnd.
  rewrite <- (count_by_key Z.eqb Z.eqb_eq hour hours (at_hours hours activities) Hnd).
  - f_equal. apply map_ext_in. intros h Hh.
    now rewrite count_hours_lookup, occurrences_at_hours.
  - apply List.Forall_forall. intros a Ha. apply List.filter_In in Ha as [_ Ha].
    apply existsb_exists in Ha as (h & Hh & E). apply Z.eqb_eq in E. now subst.
Qed.

Lemma periods_NoDup : Forall (fun p => NoDup (snd p)) periods.
Proof.
  unfold periods.
  repeat (apply List.Forall_cons;
          [apply (bool_decide_unpack (NoDup _)); vm_compute; exact I|]).
  apply List.Forall_nil.
Qed.

Lemma period_counts_spec activities :
  period_counts (count_hours activities)
  = map (fun p => (fst p, Z.of_nat (length (at_hours (snd p) activities)))) periods.
Proof.
  unfold period_counts. apply map_ext_Forall.
  eapply List.Forall_impl; [|apply periods_NoDup].
  intros [period hours] Hnd. simpl in *. f_equal. now apply period_count_at_hours.
Qed.

Lemma day_hours_NoDup : NoDup (flat_map snd periods).
Proof. apply (bool_decide_unpack (NoDup _)). vm_compute. exact I. Qed.

Lemma hour_of_the_day h : 0 <= h <= 23 -> In h (flat_map snd periods).
Proof.
  intros H.
  assert (E : exists n, (n < 24)%nat /\ h = Z.of_nat n)
    by (exists (Z.to_nat h); lia).
  destruct E as (n & Hn & ->).
  do 24 (destruct n as [|n]; [vm_compute; tauto|]). lia.
Qed.

Lemma sum_int_flat_map {K} (g : K -> Z) (f : string * list K -> list K) l :
  Py.sum_int (map g (flat_map f l))
  = Py.sum_int (map (fun p => Py.sum_int (map g (f p))) l).
Proof.
  induction l as [|p l IH]; [reflexivity|]. simpl.
  rewrite map_app, sum_int_app, sum_int_cons, IH. reflexivity.
Qed.

Lemma period_counts_total activities :
  Forall (fun a => 0 <= hour a <= 23) activities ->
  Py.sum_int (map snd (period_counts (count_hours activities)))
  = Z.of_nat (length activities).
Proof.
  intros Hall.
  rewrite <- (count_by_key Z.eqb Z.eqb_eq hour (flat_map snd periods) activities
                day_hours_NoDup).
  2:{ eapply List.Forall_impl; [|exact Hall]. intros a. apply hour_of_the_day. }
  rewrite sum_int_flat_map. unfold period_counts. rewrite map_map. f_equal.
  apply map_ext. intros [period hours]. simpl. f_equal. apply map_ext.
  intros h. apply count_hours_lookup.
Qed.

Lemma time_rows_spec activities items :
  Z.of_nat (length activities) < 2 ^ 63 ->
  Forall (fun x => snd x <= Z.of_nat (length activities)) items ->
  snd (time_rows items activities) = Return tt
  /\ time_entries (fst (time_rows items activities))
     = List.filter (fun x => snd x >? 0) items.
Proof.
  intros Hn. induction 1 as [|[period count] items Hc _ [IHr IHe]].
  - split; reflexivity.
  - cbn [time_rows List.filter snd]. simpl in Hc.
    destruct (time_rows items activities) as [out r]. simpl in IHr, IHe. subst r.
    destruct (count >? 0) eqn:E.
    + apply Z.gtb_lt in E.
      destruct (int_truediv_fraction count (Z.of_nat (length activities)))
        as (q & Hq & _); [lia|lia|].
      rewrite Hq. simpl. split; [reflexivity|]. now rewrite IHe.
    + simpl. split; [reflexivity|exact IHe].
Qed.

(** X6. For a list of a length a Python list can have,
    [analyze_time_of_day_patterns] raises nothing; its rows are in
    descending order of count; every row has a positive count, which is
    the number of activities whose hour is one of the hours of its
    period; when every hour is from 0 to 23 the counts add up to the
    number of activities; and without activities only the banner and the
    heading are printed. *)
Theorem analyze_time_of_day_patterns_report activities activity_type :
  Z.of_nat (length activities) < 2 ^ 63 ->
  let report := analyze_time_of_day_patterns activities activity_type in
  let entries := time_entries (printed report) in
  raises report = None
  /\ by_count_descending entries
  /\ Forall (fun e =>
               0 < snd e
               /\ exists hours,
                    In (fst e, hours) periods
                    /\ snd e = Z.of_nat (length (at_hours hours activities)))
            entries
  /\ (Forall (fun a => 0 <= hour a <= 23) activities ->
      Py.sum_int (map snd entries) = Z.of_nat (length activities))
  /\ (activities = [] ->
      printed report = [TimeBanner (PyStr.upper activity_type); TimeHeading]).
Proof.
  intros Hn report entries.
  set (counts := period_counts (count_hours activities)).
  assert (Hle : Forall (fun x => snd x <= Z.of_nat (length activities))
                       (Py.sorted_by_count counts)).
  { rewrite (sorted_by_count_perm counts). subst counts.
    rewrite period_counts_spec. apply List.Forall_forall. intros x Hx.
    apply in_map_iff in Hx as (p & <- & _). simpl. apply Nat2Z.inj_le.
    apply List.filter_length_le. }
  destruct (time_rows_spec activities _ Hn Hle) as [Hr He].
  assert (Hent : entries = List.filter (fun x => snd x >? 0) (Py.sorted_by_count counts)).
  { subst entries report. unfold analyze_time_of_day_patterns, printed.
    fold counts. destruct (time_rows _ activities) as [out r]. simpl in *.
    exact He. }
  assert (Hraise : raises report = None).
  { subst report. unfold analyze_time_of_day_patterns, raises.
    fold counts. destruct (time_rows _ activities) as [out r]. simpl in *.
    now subst r. }
  split; [exact Hraise|]. rewrite Hent. split.
  { apply by_count_descending_filter, sorted_by_count_sorted. }
  split.
  { apply List.Forall_forall. intros e He'. apply List.filter_In in He' as [Hin Hpos].
    split; [lia|].
    apply list_elem_of_In in Hin. rewrite (sorted_by_count_perm counts) in Hin.
    apply list_elem_of_In in Hin. subst counts. rewrite period_counts_spec in Hin.
    apply in_map_iff in Hin as ([period hours] & <- & Hp). simpl.
    exists hours. split; [exact Hp|reflexivity]. }
  split.
  { intros Hall. rewrite sum_int_filter_positive.
    - rewrite (sum_int_perm _ (map snd counts)).
      + now apply period_counts_total.
      + now rewrite (sorted_by_count_perm counts).
    - rewrite (sorted_by_count_perm counts). subst counts.
      rewrite period_counts_spec. apply List.Forall_forall. intros x Hx.
      apply in_map_iff in Hx as (p & <- & _). simpl. lia. }
  intros ->. reflexivity.
Qed.

Lemma time_of_day_of_one_run :
  let report := analyze_time_of_day_patterns [morning_run] "Running" in
  let entries := time_entries (printed report) in
  raises report = None
  /\ by_count_descending entries
  /\ Forall (fun e =>
               0 < snd e
               /\ exists hours,
                    In (fst e, hours) periods
                    /\ snd e = Z.of_nat (length (at_hours hours [morning_run])))
            entries
  /\ (Forall (fun a => 0 <= hour a <= 23) [morning_run] ->
      Py.sum_int (map snd entries) = 1)
  /\ ([morning_run] = [] ->
      printed report = [TimeBanner (PyStr.upper "Running"); TimeHeading]).
Proof.
  apply (analyze_time_of_day_patterns_report [morning_run] "Running").
  reflexivity.
Defined.

(** ** Gear *)

Lemma tally_gear_snoc activities a :
  tally_gear (activities ++ [a])
  = (dd_update 0 (fun c => c + 1) (fst (tally_gear activities)) (gear_key a),
     dd_update F64.zero (fun t => F64.add t (distance_km a))
               (snd (tally_gear activities)) (gear_key a)).
Proof.
  unfold tally_gear. rewrite fold_left_app. simpl.
  now destruct (fold_left _ activities ([], [])).
Qed.

Lemma with_gear_snoc g activities a :
  with_gear g (activities ++ [a])
  = with_gear g activities ++ (if String.eqb g (gear_key a) then [a] else []).
Proof. unfold with_gear. rewrite List.filter_app. reflexivity. Qed.

Lemma tally_gear_values activities g :
  dd_value 0 (fst (tally_gear activities)) g
  = Z.of_nat (length (with_gear g activities))
  /\ dd_value F64.zero (snd (tally_gear activities)) g
     = Statistics.sum (map distance_km (with_gear g activities)).
Proof.
  induction activities as [|a activities [IHc IHt]] using rev_ind.
  - split; reflexivity.
  - rewrite tally_gear_snoc, with_gear_snoc. simpl. rewrite !dd_update_value.
    destruct (String.eqb g (gear_key a)) eqn:E.
    + apply String.eqb_eq in E. subst g. rewrite IHc, IHt.
      rewrite length_app, map_app. unfold Statistics.sum.
      rewrite fold_left_app. simpl. split; [lia|reflexivity].
    + rewrite app_nil_r. now split.
Qed.

Lemma tally_gear_keys activities :
  NoDup (dd_keys (fst (tally_gear activities)))
  /\ (forall k, k ∈ dd_keys (fst (tally_gear activities))
                <-> exists a, In a activities /\ gear_key a = k).
Proof.
  induction activities as [|a activities [IHn IHk]] using rev_ind.
  - split; [apply NoDup_nil_2|]. intros k. split.
    + intros Hk. now apply not_elem_of_nil in Hk.
    + intros (a & [] & _).
  - rewrite tally_gear_snoc. simpl. rewrite dd_keys_update. split.
    + now apply NoDup_snoc_key.
    + intros k. rewrite elem_of_snoc_key, IHk. split.
      * intros [(a' & Ha' & E)| ->].
        -- exists a'. split; [apply in_or_app; now left|exact E].
        -- exists a. split; [apply in_or_app; right; now left|reflexivity].
      * intros (a' & Ha' & E). apply in_app_or in Ha' as [Ha'|[<-|[]]].
        -- left. now exists a'.
        -- right. now symmetry.
Qed.

Lemma gear_rows_spec activities keys : forall gear_counts gear_distances,
  (forall g, dd_value 0 gear_counts g = Z.of_nat (length (with_gear g activities))) ->
  (forall g, dd_value F64.zero gear_distances g
             = Statistics.sum (map distance_km (with_gear g activities))) ->
  Forall (fun g => 0 < Z.of_nat (length (with_gear g activities)) < 2 ^ 63) keys ->
  gear_rows keys gear_counts gear_distances
  = (flat_map (gear_block activities) keys, Return tt).
Proof.
  induction keys as [|g keys IH]; intros gc gd Hc Hd Hall; [reflexivity|].
  apply List.Forall_cons_iff in Hall as [Hg Hall].
  cbn [gear_rows flat_map].
  pose proof (dd_getitem_value 0 gc g) as Vc.
  pose proof (dd_getitem_value F64.zero gd g) as Vd.
  pose proof (dd_getitem_frame 0 gc g) as Fc.
  pose proof (dd_getitem_frame F64.zero gd g) as Fd.
  destruct (dd_getitem 0 gc g) as [count gc'].
  destruct (dd_getitem F64.zero gd g) as [distance gd'].
  simpl in Vc, Vd, Fc, Fd. rewrite Hc in Vc. rewrite Hd in Vd. subst count distance.
  rewrite float_div_int_count by exact Hg.
  rewrite (IH gc' gd'); [reflexivity| | |exact Hall].
  - intros g'. now rewrite Fc.
  - intros g'. now rewrite Fd.
Qed.

Lemma pairs_of_keys {K V} (f : K -> V) (l : list (K * V)) :
  (forall k v, In (k, v) l -> v = f k) ->
  l = map (fun k => (k, f k)) (map fst l).
Proof.
  induction l as [|[k v] l IH]; intros H; [reflexivity|]. simpl.
  rewrite <- IH by (intros k' v' Hin; apply H; now right).
  now rewrite (H k v) by now left.
Qed.

Lemma with_gear_occurrences g activities :
  Z.of_nat (length (with_gear g activities))
  = occurrences String.eqb gear_key g activities.
Proof. reflexivity. Qed.

Lemma no_gear_no_truthy activities :
  Forall (fun a => Py.truthy (gear a) = false) activities ->
  existsb (fun a => Py.truthy (gear a)) activities = false.
Proof.
  induction 1 as [|a l Ha _ IH]; [reflexivity|]. simpl. now rewrite Ha, IH.
Qed.

(** X7. [analyze_gear_usage] prints nothing when no activity names its
    gear.  Otherwise it prints the banner, the heading and one block of
    five lines per gear, where an activity without gear counts under
    ["No gear specified"]: the gears are distinct, they are those of the
    activities, the blocks are in descending order of the number of
    activities, each block gives the number and the total distance of the
    activities of its gear, and the numbers add up to the number of
    activities. *)
Theorem analyze_gear_usage_report activities activity_type :
  Z.of_nat (length activities) < 2 ^ 63 ->
  let report := analyze_gear_usage activities activity_type in
  (Forall (fun a => Py.truthy (gear a) = false) activities ->
   report = ([], Return tt))
  /\ (Exists (fun a => Py.truthy (gear a) = true) activities ->
      exists gears,
        report
        = (GearBanner (PyStr.upper activity_type) :: GearHeading
             :: flat_map (gear_block activities) gears,
           Return tt)
        /\ NoDup gears
        /\ (forall g, In g gears <-> exists a, In a activities /\ gear_key a = g)
        /\ by_count_descending
             (map (fun g => (g, Z.of_nat (length (with_gear g activities)))) gears)
        /\ Py.sum_int (map (fun g => Z.of_nat (length (with_gear g activities))) gears)
           = Z.of_nat (length activities)).
Proof.
  intros Hn report. subst report. unfold analyze_gear_usage. split.
  { intros Hall. now rewrite no_gear_no_truthy. }
  intros Hex.
  assert (Hb : existsb (fun a => Py.truthy (gear a)) activities = true).
  { apply List.Exists_exists in Hex as (a & Ha & Ht).
    apply existsb_exists. now exists a. }
  rewrite Hb. cbn [negb].
  pose proof (tally_gear_keys activities) as [Hnd Hkeys].
  pose proof (fun g => proj1 (tally_gear_values activities g)) as Hc.
  pose proof (fun g => proj2 (tally_gear_values activities g)) as Hd.
  destruct (tally_gear activities) as [gc gd]. simpl in Hnd, Hkeys, Hc, Hd.
  set (gears := map fst (Py.sorted_by_count gc)).
  assert (Hperm : gears ≡ₚ dd_keys gc).
  { subst gears. unfold dd_keys. now rewrite (sorted_by_count_perm gc). }
  assert (Hin : forall g, In g gears <-> exists a, In a activities /\ gear_key a = g).
  { intros g. rewrite <- Hkeys, <- Hperm. symmetry. apply list_elem_of_In. }
  assert (Hpairs : Py.sorted_by_count gc
                   = map (fun g => (g, Z.of_nat (length (with_gear g activities)))) gears).
  { subst gears. apply pairs_of_keys. intros k v Hkv.
    apply list_elem_of_In in Hkv. rewrite (sorted_by_count_perm gc) in Hkv.
    apply list_elem_of_In in Hkv.
    rewrite <- Hc. unfold dd_value. now rewrite (dd_find_In gc k v Hnd Hkv). }
  assert (Hpos : Forall (fun g => 0 < Z.of_nat (length (with_gear g activities)) < 2 ^ 63)
                        gears).
  { apply List.Forall_forall. intros g Hg. apply Hin in Hg as (a & Ha & E). split.
    - assert (In a (with_gear g activities)).
      { apply List.filter_In. split; [exact Ha|]. subst g. apply String.eqb_refl. }
      destruct (with_gear g activities); [contradiction|]. simpl length. lia.
    - pose proof (List.filter_length_le (fun a => String.eqb g (gear_key a)) activities).
      unfold with_gear. lia. }
  exists gears. split.
  { rewrite (gear_rows_spec activities gears gc gd Hc Hd Hpos). reflexivity. }
  split; [now rewrite Hperm|]. split; [exact Hin|]. split.
  { rewrite <- Hpairs. apply sorted_by_count_sorted. }
  rewrite (sum_int_perm _ (map (fun g => Z.of_nat (length (with_gear g activities)))
                               (dd_keys gc))) by now rewrite Hperm.
  apply (count_by_key String.eqb String.eqb_eq gear_key (dd_keys gc) activities Hnd).
  apply List.Forall_forall. intros a Ha. apply list_elem_of_In, Hkeys. now exists a.
Qed.

Lemma gear_usage_of_one_ride :
  let activities := [ride_on "Gravel Bike"] in
  let report := analyze_gear_usage activities "Cycling" in
  (Forall (fun a => Py.truthy (gear a) = false) activities ->
   report = ([], Return tt))
  /\ (Exists (fun a => Py.truthy (gear a) = true) activities ->
      exists gears,
        report
        = (GearBanner (PyStr.upper "Cycling") :: GearHeading
             :: flat_map (gear_block activities) gears,
           Return tt)
        /\ NoDup gears
        /\ (forall g, In g gears <-> exists a, In a activities /\ gear_key a = g)
        /\ by_count_descending
             (map (fun g => (g, Z.of_nat (length (with_gear g activities)))) gears)
        /\ Py.sum_int (map (fun g => Z.of_nat (length (with_gear g activities))) gears)
           = Z.of_nat (length activities)).
Proof.
  apply (analyze_gear_usage_report [ride_on "Gravel Bike"] "Cycling").
  reflexivity.
Defined.

(** ** Reports as computations *)

Lemma print_bind {L A} (l : L) (m : printing L A) :
  (print l;; m) = (l :: fst m, snd m).
Proof. destruct m as [out r]. reflexivity. Qed.

Lemma printed_bind_prefix {L A B} (m : printing L A) (f : A -> printing L B) :
  exists rest, printed (m ≫= f) = printed m ++ rest.
Proof.
  destruct m as [out [a|e]]; unfold printed; simpl.
  - destruct (f a) as [out' r]. now exists out'.
  - exists []. now rewrite app_nil_r.
Qed.

Lemma prints_only_ret {L A} (P : L -> Prop) (a : A) :
  prints_only P (mret a : printing L A).
Proof. split; [reflexivity|constructor]. Qed.

Lemma prints_only_print {L} (P : L -> Prop) (l : L) :
  P l -> prints_only P (print l).
Proof. intros H. split; [reflexivity|]. repeat constructor. exact H. Qed.

Lemma prints_only_bind {L A B} (P : L -> Prop) (m : printing L A)
    (f : A -> printing L B) :
  prints_only P m -> (forall a, prints_only P (f a)) -> prints_only P (m ≫= f).
Proof.
  destruct m as [out [a|e]]; unfold prints_only, raises, printed; simpl.
  - intros [_ Hout] Hf. specialize (Hf a). destruct (f a) as [out' r].
    simpl in *. destruct Hf as [Hr Hout']. split; [exact Hr|].
    apply Forall_app. now split.
  - intros [H _]. discriminate.
Qed.

(** ** Personal records *)

Lemma positive64_positive_float x : positive64 x -> positive_float x.
Proof. intros [Hv Hg]. now apply positive_float_intro. Qed.

Lemma max_by_fold (key : Activity -> F64.float) rest : forall m0,
  positive_float (key m0) -> Forall (fun a => positive_float (key a)) rest ->
  let r := fold_left (fun m x => if F64.gtb (key x) (key m) then x else m) rest m0 in
  (r = m0 \/ In r rest) /\ val (key m0) <= val (key r)
  /\ (forall x, In x rest -> val (key x) <= val (key r)).
Proof.
  induction rest as [|y rest IH]; intros m0 H0 Hr; cbn [fold_left].
  - repeat split; [now left|lia|intros x []].
  - inversion Hr as [|? ? Hy Hrest]; subst.
    rewrite (ltb_val (key m0) (key y) H0 Hy : F64.gtb (key y) (key m0) = _).
    destruct (Z.ltb_spec (val (key m0)) (val (key y))) as [Hlt|Hge].
    + destruct (IH y Hy Hrest) as (Hin & Hle & Hall). cbv zeta in *.
      split; [destruct Hin as [->|Hin]; right; [now left|now right]|].
      split; [lia|]. intros x [<-|Hx]; [assumption|now apply Hall].
    + destruct (IH m0 H0 Hrest) as (Hin & Hle & Hall). cbv zeta in *.
      split; [destruct Hin as [->|Hin]; [now left|right; now right]|].
      split; [assumption|]. intros x [<-|Hx]; [lia|now apply Hall].
Qed.

(** X8. For activities of positive distances, [analyze_personal_records]
    prints nothing for an empty list; otherwise its first lines are the
    banner and the longest activity with its date and name, and no
    activity of the list has a greater distance. *)
Theorem longest_record activities activity_type :
  Forall (fun a => positive64 (distance_km a)) activities ->
  let report := analyze_personal_records activities activity_type in
  (activities = [] -> report = ([], Return tt))
  /\ (activities <> [] ->
      exists longest rest,
        In longest activities
        /\ (forall a, In a activities ->
                      F64.leb (distance_km a) (distance_km longest) = true)
        /\ printed report
           = RecordsBanner (PyStr.upper activity_type)
               :: RecordLongest (PyStr.lower activity_type) (distance_km longest)
               :: RecordDate (date longest) :: RecordName (name longest) :: rest).
Proof.
  intros Hall report. subst report. split; [intros ->; reflexivity|].
  intros Hne. destruct activities as [|a0 rest0]; [congruence|].
  assert (Hpos : Forall (fun a => positive_float (distance_km a)) (a0 :: rest0)).
  { eapply List.Forall_impl; [|exact Hall]. intros a. apply positive64_positive_float. }
  inversion Hpos as [|? ? H0 Hrest]; subst.
  destruct (max_by_fold distance_km rest0 a0 H0 Hrest) as (Hin & Hle & Hmax).
  cbv zeta in *. unfold analyze_personal_records. cbn [Py.max_by].
  set (longest := fold_left _ rest0 a0) in *.
  rewrite !print_bind. cbn [fst snd printed].
  eexists longest, _. split; [|split; [|reflexivity]].
  - destruct Hin as [->|Hin]; [now left|now right].
  - assert (Hl : positive_float (distance_km longest)).
    { rewrite List.Forall_forall in Hpos. apply Hpos.
      destruct Hin as [->|Hin]; [now left|now right]. }
    intros a Ha. assert (Hp : positive_float (distance_km a)).
    { rewrite List.Forall_forall in Hpos. now apply Hpos. }
    rewrite (leb_val _ _ Hp Hl : F64.leb _ _ = _). apply Z.leb_le.
    destruct Ha as [<-|Ha]; [exact Hle|now apply Hmax].
Qed.

Lemma longest_of_one_run :
  let report := analyze_personal_records [morning_run] "Running" in
  ([morning_run] = [] -> report = ([], Return tt))
  /\ ([morning_run] <> [] ->
      exists longest rest,
        In longest [morning_run]
        /\ (forall a, In a [morning_run] ->
                      F64.leb (distance_km a) (distance_km longest) = true)
        /\ printed report
           = RecordsBanner (PyStr.upper "Running")
               :: RecordLongest (PyStr.lower "Running") (distance_km longest)
               :: RecordDate (date longest) :: RecordName (name longest) :: rest).
Proof.
  apply (longest_record [morning_run] "Running").
  apply List.Forall_cons; [|apply List.Forall_nil].
  split; vm_compute; reflexivity.
Defined.

Lemma zero_or_positive_val x : zero_or_positive x -> 0 <= val x.
Proof.
  intros [->|H]; [reflexivity|]. pose proof (val_positive x H). lia.
Qed.

Lemma ltb_val_zero_or_positive x y :
  zero_or_positive x -> zero_or_positive y -> F64.ltb x y = (val x <? val y).
Proof.
  intros [->|Hx] [->|Hy].
  - reflexivity.
  - pose proof (val_positive y Hy) as V.
    destruct y as [s|[|]| |[|] m e]; cbn [positive_float] in Hy; try contradiction;
      unfold F64.ltb, SFltb; cbn [SFcompare F64.zero];
      symmetry; apply Z.ltb_lt; cbn [val F64.zero] in *; lia.
  - pose proof (val_positive x Hx) as V.
    destruct x as [s|[|]| |[|] m e]; cbn [positive_float] in Hx; try contradiction;
      unfold F64.ltb, SFltb; cbn [SFcompare F64.zero];
      symmetry; apply Z.ltb_ge; cbn [val F64.zero] in *; lia.
  - now apply ltb_val.
Qed.

Lemma zero_or_positive_zero x : zero_or_positive x -> val x = 0 -> x = F64.zero.
Proof.
  intros [->|H] Hv; [reflexivity|]. pose proof (val_positive x H). lia.
Qed.

Lemma min_by_fold (key : Activity -> F64.float) rest : forall m0,
  zero_or_positive (key m0) -> Forall (fun a => zero_or_positive (key a)) rest ->
  let r := fold_left (fun m x => if F64.ltb (key x) (key m) then x else m) rest m0 in
  (r = m0 \/ In r rest) /\ val (key r) <= val (key m0)
  /\ (forall x, In x rest -> val (key r) <= val (key x)).
Proof.
  induction rest as [|y rest IH]; intros m0 H0 Hr; cbn [fold_left].
  - repeat split; [now left|lia|intros x []].
  - inversion Hr as [|? ? Hy Hrest]; subst.
    rewrite (ltb_val_zero_or_positive (key y) (key m0) Hy H0).
    destruct (Z.ltb_spec (val (key y)) (val (key m0))) as [Hlt|Hge].
    + destruct (IH y Hy Hrest) as (Hin & Hle & Hall). cbv zeta in *.
      split; [destruct Hin as [->|Hin]; right; [now left|now right]|].
      split; [lia|]. intros x [<-|Hx]; [assumption|now apply Hall].
    + destruct (IH m0 H0 Hrest) as (Hin & Hle & Hall). cbv zeta in *.
      split; [destruct Hin as [->|Hin]; [now left|right; now right]|].
      split; [assumption|]. intros x [<-|Hx]; [lia|now apply Hall].
Qed.

Lemma min_by_zero (key : Activity -> F64.float) activities a0 m :
  Forall (fun a => zero_or_positive (key a)) activities ->
  In a0 activities -> key a0 = F64.zero ->
  Py.min_by key activities = Some m -> key m = F64.zero.
Proof.
  intros Hall Ha0 Hk Hm. destruct activities as [|a rest]; [destruct Ha0|].
  inversion Hall as [|? ? H0 Hrest]; subst.
  destruct (min_by_fold key rest a H0 Hrest) as (Hin & Hle & Hmin). cbv zeta in *.
  cbn [Py.min_by] in Hm. injection Hm as <-.
  set (r := fold_left _ rest a) in *.
  assert (Hr : zero_or_positive (key r)).
  { rewrite List.Forall_forall in Hall. apply Hall.
    destruct Hin as [->|Hin]; [now left|now right]. }
  apply zero_or_positive_zero; [exact Hr|].
  pose proof (zero_or_positive_val _ Hr).
  assert (val (key r) <= val (key a0)).
  { destruct Ha0 as [<-|Ha0]; [exact Hle|now apply Hmin]. }
  rewrite Hk in *. cbn [val F64.zero] in *. lia.
Qed.

(** X9. The best pace is printed only when no activity is without a
    pace: when the paces are zero or positive and one activity has a pace
    of zero, [analyze_personal_records] raises nothing and prints no line
    of the best pace, whatever the paces of the others. *)
Theorem best_pace_needs_every_pace activities activity_type a0 :
  Forall (fun a => pace_min_per_km a = F64.zero \/ positive64 (pace_min_per_km a))
         activities ->
  In a0 activities -> pace_min_per_km a0 = F64.zero ->
  let report := analyze_personal_records activities activity_type in
  raises report = None /\ Forall not_best_pace (printed report).
Proof.
  intros Hall Ha0 Hp0 report. subst report.
  assert (Hzp : Forall (fun a => zero_or_positive (pace_min_per_km a)) activities).
  { eapply List.Forall_impl; [|exact Hall]. intros a [H|H]; [now left|right].
    now apply positive64_positive_float. }
  change (prints_only not_best_pace (analyze_personal_records activities activity_type)).
  unfold analyze_personal_records.
  destruct (Py.max_by distance_km activities) as [longest|];
    [|apply prints_only_ret].
  repeat (apply prints_only_bind; [|intros []]);
    try (apply prints_only_print; exact I).
  - destruct (best_if_any Py.max_by avg_speed_kmh activities) as [fastest|];
      [|apply prints_only_ret].
    destruct (F64.gtb _ _); [|apply prints_only_ret].
    repeat (apply prints_only_bind; [|intros []]);
      apply prints_only_print; exact I.
  - destruct (best_if_any Py.max_by max_grade activities) as [steepest|];
      [|apply prints_only_ret].
    destruct (F64.gtb _ _); [|apply prints_only_ret].
    repeat (apply prints_only_bind; [|intros []]);
      apply prints_only_print; exact I.
  - destruct (String.eqb _ _); [|apply prints_only_ret].
    unfold best_if_any. destruct (existsb _ activities); [|apply prints_only_ret].
    destruct (Py.min_by pace_min_per_km activities) as [best|] eqn:Eb;
      [|apply prints_only_ret].
    rewrite (min_by_zero pace_min_per_km activities a0 best Hzp Ha0 Hp0 Eb).
    apply prints_only_ret.
Qed.

Lemma no_best_pace_with_an_untimed_ride :
  let report := analyze_personal_records [morning_run; ride_on "Gravel Bike"] "Running" in
  raises report = None /\ Forall not_best_pace (printed report).
Proof.
  apply (best_pace_needs_every_pace [morning_run; ride_on "Gravel Bike"] "Running"
           (ride_on "Gravel Bike")).
  - apply List.Forall_cons; [|apply List.Forall_cons; [|apply List.Forall_nil]].
    + right. split; vm_compute; reflexivity.
    + left. reflexivity.
  - right. left. reflexivity.
  - reflexivity.
Defined.

(** ** More on the values of binary64 *)

(** A value has one float of the format. *)
Lemma canon_unique m1 e1 m2 e2 :
  canon m1 e1 -> canon m2 e2 -> scaled m1 e1 = scaled m2 e2 ->
  m1 = m2 /\ e1 = e2.
Proof.
  intros H1 H2 E.
  assert (L1 : scaled m1 e1 < scaled (m1 + 1) e1)
    by (destruct H1; apply scaled_lt; [assumption|lia]).
  assert (L2 : scaled m2 e2 < scaled (m2 + 1) e2)
    by (destruct H2; apply scaled_lt; [assumption|lia]).
  destruct (Z.lt_trichotomy e1 e2) as [H|[->|H]].
  - pose proof (canon_lt_exponent _ _ _ _ H1 H2 H). lia.
  - split; [|reflexivity]. destruct H1 as (He & _ & _).
    assert (m1 <= m2) by (apply (scaled_le m1 m2 e2 He); lia).
    assert (m2 <= m1) by (apply (scaled_le m2 m1 e2 He); lia). lia.
  - pose proof (canon_lt_exponent _ _ _ _ H2 H1 H). lia.
Qed.

Lemma val_inj x y :
  positive_float x -> positive_float y -> val x = val y -> x = y.
Proof.
  intros Hx Hy E.
  destruct x as [s|[|]| |[|] mx ex]; cbn [positive_float] in Hx; try contradiction;
    destruct y as [s'|[|]| |[|] my ey]; cbn [positive_float] in Hy; try contradiction;
    cbn [val] in E.
  - reflexivity.
  - destruct Hy as [Hc He]. pose proof (val_finite_lt_huge _ _ Hc He). lia.
  - destruct Hx as [Hc He]. pose proof (val_finite_lt_huge _ _ Hc He). lia.
  - destruct Hx as [Hx _], Hy as [Hy _].
    destruct (canon_unique _ _ _ _ Hx Hy E) as [Em ->]. now injection Em as ->.
Qed.

(** A mantissa of at most 53 bits at an exponent of the format is the
    value of a float of the format. *)
Lemma representable k e :
  0 < k < 2 ^ 53 -> emin <= e ->
  exists m' e', canon m' e' /\ scaled m' e' = scaled k e /\ e' <= e.
Proof.
  intros Hk He.
  assert (H : forall n : nat, forall k e, 0 < k < 2 ^ 53 -> e = emin + Z.of_nat n ->
              exists m' e', canon m' e' /\ scaled m' e' = scaled k e /\ e' <= e).
  { clear. induction n as [|n IH]; intros k e Hk He.
    - exists k, e. split; [|split; [reflexivity|lia]].
      split; [lia|]. split; [assumption|left; lia].
    - destruct (Z_lt_le_dec k (2 ^ 52)) as [Hlt|Hge].
      + destruct (IH (2 * k) (e - 1)) as (m' & e' & Hc & Hv & Hle).
        { change (2 ^ 53) with (2 * 2 ^ 52). lia. }
        { lia. }
        exists m', e'. split; [assumption|]. split; [|lia]. rewrite Hv.
        replace e with (e - 1 + 1) at 2 by lia.
        rewrite scaled_succ by lia. unfold scaled. lia.
      + exists k, e. split; [|split; [reflexivity|lia]].
        split; [lia|]. split; [assumption|now right]. }
  apply (H (Z.to_nat (e - emin))); [assumption|lia].
Qed.

Lemma representable_float k e :
  0 < k < 2 ^ 53 -> emin <= e -> scaled k e < huge ->
  exists y, positive_float y /\ val y = scaled k e /\ F64.is_finite y = true.
Proof.
  intros Hk He Hh. destruct (representable k e Hk He) as (m' & e' & Hc & Hv & _).
  exists (of_canon m' e').
  pose proof (positive_float_of_canon _ _ Hc) as Hp.
  pose proof (val_of_canon _ _ Hc) as V. rewrite Hv in V.
  rewrite Z.min_l in V by lia.
  split; [assumption|]. split; [assumption|].
  destruct (positive_float_finite _ Hp) as (m & e0 & ->); [lia|reflexivity].
Qed.

(** A rounding is exact on the values of the format. *)
Lemma rounds_to_exact A B r y :
  rounds_to A B r -> positive_float y -> val y * B = A -> r = y.
Proof.
  intros [Hr Hs] Hy E. apply val_inj; try assumption.
  destruct (Hs y Hy) as [Hlo Hhi].
  specialize (Hlo ltac:(lia)). specialize (Hhi ltac:(lia)). lia.
Qed.

Lemma rounds_to_eq A B A' B' r :
  0 < B -> 0 < B' -> A * B' = A' * B -> rounds_to A B r -> rounds_to A' B' r.
Proof.
  intros HB HB' E [Hr Hs]. split; [assumption|]. intros y Hy.
  destruct (Hs y Hy) as [Hlo Hhi]. split; intros H; [apply Hlo|apply Hhi]; nia.
Qed.

(** [float(n)] is exact below [2 ^ 53]. *)
Lemma of_Z_exact n :
  0 < n < 2 ^ 53 ->
  positive_float (F64.of_Z n) /\ val (F64.of_Z n) = n * unit_value
  /\ F64.is_finite (F64.of_Z n) = true.
Proof.
  intros Hn. destruct n as [|p|p]; try lia.
  unfold F64.of_Z, binary_normalize.
  pose proof (binary_round_rounds p 0 ltac:(unfold emin; lia)) as Hr.
  assert (Hh : scaled (Zpos p) 0 < huge).
  { rewrite scaled_0. assert (2 ^ 53 * unit_value < huge) by reflexivity.
    pose proof unit_value_pos. nia. }
  destruct (representable_float (Zpos p) 0 Hn ltac:(unfold emin; lia) Hh)
    as (y & Hy & Vy & Fy).
  rewrite (rounds_to_exact _ _ _ y Hr Hy ltac:(lia)).
  rewrite <- scaled_0. now repeat split.
Qed.

Lemma eqb_zero_positive x : positive_float x -> F64.eqb x F64.zero = false.
Proof.
  destruct x as [s|[|]| |[|] m e]; cbn [positive_float]; try contradiction;
    reflexivity.
Qed.

Lemma gtb_zero_positive x : positive_float x -> F64.gtb x F64.zero = true.
Proof.
  destruct x as [s|[|]| |[|] m e]; cbn [positive_float]; try contradiction;
    reflexivity.
Qed.

Lemma add_zero_l x : positive_float x -> F64.add F64.zero x = x.
Proof.
  destruct x as [s|[|]| |[|] m e]; cbn [positive_float]; try contradiction;
    reflexivity.
Qed.

(** The float of the format with the value [k], for a small count [k]. *)
Lemma count_float k :
  0 < k < 2 ^ 53 -> exists y, positive_float y /\ val y = k.
Proof.
  intros Hk.
  assert (Hh : scaled k emin < huge).
  { unfold scaled. rewrite Z.sub_diag. assert (2 ^ 53 < huge) by reflexivity. lia. }
  destruct (representable_float k emin Hk ltac:(lia) Hh) as (y & Hy & Vy & _).
  exists y. split; [assumption|]. rewrite Vy. unfold scaled.
  rewrite Z.sub_diag. lia.
Qed.

(** A sum of positive floats is positive, and at least as many units as
    it has terms. *)
Lemma fold_add_lower l : forall acc k,
  positive_float acc -> k <= val acc -> 0 < k ->
  k + Z.of_nat (length l) < 2 ^ 53 ->
  Forall positive_float l ->
  let r := fold_left F64.add l acc in
  positive_float r /\ k + Z.of_nat (length l) <= val r.
Proof.
  induction l as [|x l IH]; intros acc k Hacc Hk Hk0 Hlen Hall; cbn [fold_left].
  - simpl in *. split; [assumption|lia].
  - inversion Hall as [|? ? Hx Hl]; subst.
    destruct (add_rounds acc x Hacc Hx) as [Hp Hs].
    pose proof (val_positive x Hx) as Vx.
    simpl length in Hlen. rewrite Nat2Z.inj_succ in Hlen.
    destruct (count_float (k + 1) ltac:(lia)) as (y & Hy & Vy).
    destruct (Hs y Hy) as [Hlo _]. specialize (Hlo ltac:(lia)).
    destruct (IH (F64.add acc x) (k + 1) Hp ltac:(lia) ltac:(lia) ltac:(lia) Hl)
      as [Hr Hv].
    split; [assumption|]. simpl length. lia.
Qed.

Lemma sum_positive l :
  l <> [] -> Forall positive_float l -> Z.of_nat (length l) < 2 ^ 53 ->
  positive_float (Statistics.sum l) /\ Z.of_nat (length l) <= val (Statistics.sum l).
Proof.
  intros Hne Hall Hlen. destruct l as [|x l]; [congruence|].
  inversion Hall as [|? ? Hx Hl]; subst. unfold Statistics.sum. cbn [fold_left].
  rewrite (add_zero_l x Hx). pose proof (val_positive x Hx).
  simpl length in *. rewrite Nat2Z.inj_succ in *.
  destruct (fold_add_lower l x 1 Hx ltac:(lia) ltac:(lia) ltac:(lia) Hl) as [Hr Hv].
  split; [assumption|lia].
Qed.

(** The quotient of a positive float by a count that it is worth. *)
Lemma div_count_positive x n :
  positive_float x -> 0 < n < 2 ^ 53 -> n <= val x ->
  positive_float (F64.div x (F64.of_Z n)).
Proof.
  intros Hx Hn Hle. destruct (of_Z_exact n Hn) as (Hp & Vn & Fn).
  destruct (F64.of_Z n) as [s|[|]| |[|] my ey] eqn:En;
    cbn [positive_float] in Hp; try contradiction; try discriminate.
  destruct Hp as [Hcy Hey]. cbn [val] in Vn.
  assert (Hey0 : ey <= 0).
  { destruct (Z_lt_le_dec 0 ey) as [Hpos|]; [|assumption]. exfalso.
    destruct Hcy as (He & [Hm Hh] & [->|H52]); [unfold emin in Hpos; lia|].
    unfold scaled, unit_value, scaled, emin in Vn.
    replace (ey - -1074) with (ey - 1 + 1 + 1074) in Vn by lia.
    rewrite !Z.pow_add_r in Vn by lia.
    pose proof (pow2_pos (ey - 1) ltac:(lia)).
    assert (0 < 2 ^ 1074) by (apply pow2_pos; lia).
    change (2 ^ (0 - -1074)) with (2 ^ 1074) in Vn.
    change (2 ^ 53) with (2 * 2 ^ 52) in Hn. nia. }
  destruct x as [s|[|]| |[|] mx ex]; cbn [positive_float] in Hx; try contradiction.
  - exact I.
  - destruct Hx as [Hcx Hex]. cbn [val] in Hle.
    pose proof Hcx as (Hex' & _ & _). pose proof Hcy as (Hey' & _ & _).
    apply (div_finite_rounds mx ex my ey); [lia|].
    replace (ex - ey) with (ex + (- ey)) by lia.
    rewrite scaled_add by lia.
    pose proof (pow2_pos (- ey) ltac:(lia)) as P.
    unfold scaled in *. unfold unit_value, scaled in Vn.
    change (2 ^ (0 - emin)) with (2 ^ 1074) in Vn.
    replace (ey - emin) with (1074 - (- ey)) in Vn by (unfold emin; lia).
    assert (E : 2 ^ 1074 = 2 ^ (1074 - - ey) * 2 ^ (- ey)).
    { rewrite <- Z.pow_add_r by (unfold emin in *; lia). f_equal. lia. }
    pose proof (pow2_pos (1074 - - ey) ltac:(unfold emin in *; lia)) as P'.
    pose proof (pow2_pos (ex - emin) ltac:(lia)) as P''.
    assert (Zpos my = n * 2 ^ (- ey)) by nia. nia.
Qed.

(** ** Running against cycling *)

Lemma distances_positive activities :
  activities <> [] ->
  Forall (fun a => positive64 (distance_km a)) activities ->
  Z.of_nat (length activities) < 2 ^ 53 ->
  let total := Statistics.sum (map distance_km activities) in
  positive_float total
  /\ positive_float (F64.div total (F64.of_Z (Z.of_nat (length activities)))).
Proof.
  intros Hne Hall Hlen total.
  assert (Hp : Forall positive_float (map distance_km activities)).
  { apply List.Forall_map. eapply List.Forall_impl; [|exact Hall].
    intros a. apply positive64_positive_float. }
  destruct (sum_positive (map distance_km activities)) as [Hs Hv].
  { destruct activities; [congruence|discriminate]. }
  { exact Hp. }
  { now rewrite length_map. }
  rewrite length_map in Hv. split; [exact Hs|].
  apply div_count_positive; [exact Hs| |exact Hv].
  destruct activities; [congruence|]. simpl length in *. lia.
Qed.

Ltac report_step :=
  cbn -[F64.mul F64.add F64.div F64.gtb F64.eqb F64.of_Z Py.sub Py.float_truediv
        Py.float_div_int Py.int_truediv Statistics.sum f100 f3600 length Z.of_nat
        Z.add].

(** X10. On activities of positive distances, fewer than [2 ^ 53] of each
    kind, [compare_running_vs_cycling] divides by no zero and raises
    nothing.  Without runs it prints the banner and one message, without
    rides likewise, and with both it prints sixteen lines. *)
Theorem compare_running_vs_cycling_never_divides_by_zero running_act cycling_act :
  Forall (fun a => positive64 (distance_km a)) running_act ->
  Forall (fun a => positive64 (distance_km a)) cycling_act ->
  Z.of_nat (length running_act) < 2 ^ 53 ->
  Z.of_nat (length cycling_act) < 2 ^ 53 ->
  let report := compare_running_vs_cycling running_act cycling_act in
  raises report = None
  /\ (running_act = [] -> printed report = compare_banner ++ [NoRunningToCompare])
  /\ (running_act <> [] -> cycling_act = [] ->
      printed report = compare_banner ++ [NoCyclingToCompare])
  /\ (running_act <> [] -> cycling_act <> [] -> length (printed report) = 16%nat).
Proof.
  intros Hr Hc Lr Lc report. subst report. unfold compare_running_vs_cycling.
  destruct running_act as [|r0 rs] eqn:Er.
  { unfold raises, printed. simpl. repeat split; congruence. }
  destruct cycling_act as [|c0 cs] eqn:Ec.
  { unfold raises, printed. simpl. repeat split; congruence. }
  rewrite <- Er, <- Ec in *.
  assert (Nr : running_act <> []) by (subst; discriminate).
  assert (Nc : cycling_act <> []) by (subst; discriminate).
  clear Er Ec r0 rs c0 cs.
  set (nr := Z.of_nat (length running_act)) in *.
  set (nc := Z.of_nat (length cycling_act)) in *.
  assert (Hnr : 0 < nr) by (subst nr; destruct running_act; [congruence|simpl; lia]).
  assert (Hnc : 0 < nc) by (subst nc; destruct cycling_act; [congruence|simpl; lia]).
  assert (H53 : 2 ^ 53 + 2 ^ 53 < 2 ^ 63) by reflexivity.
  destruct (int_truediv_fraction nr (nr + nc)) as (q & Eq & _); [lia|lia|].
  destruct (distances_positive running_act Nr Hr Lr) as [Pr Ar].
  destruct (distances_positive cycling_act Nc Hc Lc) as [Pc Ac].
  cbv zeta in Pr, Ar, Pc, Ac. fold nr in Ar. fold nc in Ac.
  set (run_total := Statistics.sum (map distance_km running_act)) in *.
  set (cycle_total := Statistics.sum (map distance_km cycling_act)) in *.
  destruct (add_rounds run_total cycle_total Pr Pc) as [Pt _].
  assert (E1 : forall x, Py.float_truediv x (F64.add run_total cycle_total)
                         = Return (F64.div x (F64.add run_total cycle_total))).
  { intros x. unfold Py.float_truediv. now rewrite (eqb_zero_positive _ Pt). }
  assert (E2 : forall x, Py.float_truediv x (F64.div run_total (F64.of_Z nr))
                         = Return (F64.div x (F64.div run_total (F64.of_Z nr)))).
  { intros x. unfold Py.float_truediv. now rewrite (eqb_zero_positive _ Ar). }
  assert (E3 : forall x, Py.float_truediv x (F64.div cycle_total (F64.of_Z nc))
                         = Return (F64.div x (F64.div cycle_total (F64.of_Z nc)))).
  { intros x. unfold Py.float_truediv. now rewrite (eqb_zero_positive _ Ac). }
  cbv zeta. fold nr nc run_total cycle_total.
  rewrite Eq, !E1, !float_div_int_count by lia.
  unfold raises, printed. report_step.
  destruct (F64.gtb _ _); [|destruct (F64.gtb _ _)]; rewrite ?E2, ?E3; report_step;
    repeat split; congruence.
Qed.

Lemma compare_one_run_with_one_ride :
  let report := compare_running_vs_cycling [morning_run] [ride_on "Gravel Bike"] in
  raises report = None
  /\ ([morning_run] = [] -> printed report = compare_banner ++ [NoRunningToCompare])
  /\ ([morning_run] <> [] -> [ride_on "Gravel Bike"] = [] ->
      printed report = compare_banner ++ [NoCyclingToCompare])
  /\ ([morning_run] <> [] -> [ride_on "Gravel Bike"] <> [] ->
      length (printed report) = 16%nat).
Proof.
  apply (compare_running_vs_cycling_never_divides_by_zero
           [morning_run] [ride_on "Gravel Bike"]).
  - apply List.Forall_cons; [|apply List.Forall_nil]. split; vm_compute; reflexivity.
  - apply List.Forall_cons; [|apply List.Forall_nil]. split; vm_compute; reflexivity.
  - reflexivity.
  - reflexivity.
Defined.

Lemma sum_zero l :
  Forall (fun x => x = F64.zero) l -> Statistics.sum l = F64.zero.
Proof.
  unfold Statistics.sum. induction 1 as [|x l -> _ IH]; [reflexivity|]. exact IH.
Qed.

(** X11. The total distance is not guarded: when there are runs and rides
    and every distance is zero, [compare_running_vs_cycling] prints the
    banner, the frequencies and the heading of the distances, and then
    raises [ZeroDivisionError]. *)
Theorem compare_running_vs_cycling_zero_distance r0 running_act c0 cycling_act :
  Forall (fun a => distance_km a = F64.zero) (r0 :: running_act) ->
  Forall (fun a => distance_km a = F64.zero) (c0 :: cycling_act) ->
  Z.of_nat (length (r0 :: running_act)) + Z.of_nat (length (c0 :: cycling_act)) < 2 ^ 63 ->
  let report := compare_running_vs_cycling (r0 :: running_act) (c0 :: cycling_act) in
  raises report = Some ZeroDivisionError
  /\ exists share,
       printed report
       = compare_banner
           ++ [ FrequencyHeading;
                FrequencyRunning (Z.of_nat (length (r0 :: running_act))) share;
                FrequencyCycling (Z.of_nat (length (c0 :: cycling_act)))
                                 (Py.sub f100 share);
                DistanceHeading ].
Proof.
  intros Hr Hc Hlen report. subst report. unfold compare_running_vs_cycling.
  set (nr := Z.of_nat (length (r0 :: running_act))) in *.
  set (nc := Z.of_nat (length (c0 :: cycling_act))) in *.
  assert (Hnr : 0 < nr) by (subst nr; simpl length; lia).
  assert (Hnc : 0 < nc) by (subst nc; simpl length; lia).
  destruct (int_truediv_fraction nr (nr + nc)) as (q & Eq & _); [lia|lia|].
  cbv zeta. fold nr nc. rewrite Eq.
  rewrite (sum_zero (map distance_km (r0 :: running_act)))
    by (apply List.Forall_map; exact Hr).
  rewrite (sum_zero (map distance_km (c0 :: cycling_act)))
    by (apply List.Forall_map; exact Hc).
  unfold raises, printed. simpl. split; [reflexivity|]. eexists. reflexivity.
Qed.

Lemma compare_idle_activities :
  let report := compare_running_vs_cycling [idle "Run"] [idle "Ride"] in
  raises report = Some ZeroDivisionError
  /\ exists share,
       printed report
       = compare_banner
           ++ [ FrequencyHeading;
                FrequencyRunning 1 share;
                FrequencyCycling 1 (Py.sub f100 share);
                DistanceHeading ].
Proof.
  apply (compare_running_vs_cycling_zero_distance (idle "Run") [] (idle "Ride") []).
  - apply List.Forall_cons; [|apply List.Forall_nil]. reflexivity.
  - apply List.Forall_cons; [|apply List.Forall_nil]. reflexivity.
  - reflexivity.
Defined.

(** ** Products, differences and integer parts *)

(** The first shift of [binary_round_aux] from an exponent below the
    least one, for an exact value [p * 2 ^ ex] of at least [2 ^ emin]. *)
Lemma shr_fexp_canon_low p ex :
  ex < emin -> 2 ^ (emin - ex) <= Zpos p ->
  let r := fst (shr_fexp F64.prec F64.emax (Zpos p) ex loc_Exact) in
  let e := snd (shr_fexp F64.prec F64.emax (Zpos p) ex loc_Exact) in
  canon (shr_m r) e /\ located (Zpos p) (2 ^ (emin - ex)) (shr_m r) e (flags r).
Proof.
  intros He Hp. unfold shr_fexp. cbn [Zdigits2].
  pose proof (digits2_bounds p) as [Blo Bhi]. cbv zeta in Blo, Bhi.
  set (d := Zpos (digits2_pos p)) in *.
  assert (Hd : 0 < d) by (subst d; lia).
  rewrite fexp_eq.
  set (et := Z.max (d + ex - 53) emin).
  destruct (et - ex) as [|k|k] eqn:Ek; [lia| |lia].
  unfold shr. cbn [fst snd].
  assert (Hs : shifted (Zpos p) 1 (Zpos p) emin emin
                       (shr_record_of_loc (Zpos p) loc_Exact)).
  { unfold shifted, located, scaled. rewrite !Z.sub_diag. cbn [shr_record_of_loc shr_m flags shr_r shr_s orb].
    change (2 ^ 0) with 1. repeat split; lia. }
  apply (shifted_iter (Zpos p) 1 (Zpos p) emin ltac:(lia) k) in Hs.
  destruct Hs as (_ & _ & Hm & [[Hlo Hhi] Hstrict] & _).
  set (r := SpecFloat.iter_pos shr_1 k (shr_record_of_loc (Zpos p) loc_Exact)) in *.
  unfold scaled in Hlo, Hhi, Hstrict.
  replace (emin + Zpos k - emin) with (Zpos k) in * by lia.
  pose proof (pow2_pos (Zpos k) ltac:(lia)) as Pk.
  pose proof (pow2_pos (emin - ex) ltac:(lia)) as Pj.
  assert (Eet : ex + Zpos k = et) by lia. rewrite Eet.
  assert (Hk : Zpos k = et - emin + (emin - ex)) by lia.
  assert (Epow : 2 ^ Zpos k = 2 ^ (et - emin) * 2 ^ (emin - ex)).
  { rewrite <- Z.pow_add_r by lia. f_equal. lia. }
  split.
  - split; [lia|].
    destruct (Z.eq_dec et emin) as [E|Hne].
    + assert (Zpos k = emin - ex) by lia.
      assert (d + ex - 53 <= emin) by lia.
      assert (Hpow : 2 ^ d <= 2 ^ 53 * 2 ^ Zpos k).
      { rewrite <- Z.pow_add_r by lia. apply pow2_le. lia. }
      replace (2 ^ (emin - ex)) with (2 ^ Zpos k) in Hp by (f_equal; lia).
      split; [split; nia|now left].
    + assert (Hkd : Zpos k = d - 53) by lia.
      assert (E53 : 2 ^ d = 2 ^ 53 * 2 ^ Zpos k).
      { rewrite <- Z.pow_add_r by lia. f_equal. lia. }
      assert (E52 : 2 ^ (d - 1) = 2 ^ 52 * 2 ^ Zpos k).
      { rewrite <- Z.pow_add_r by lia. f_equal. lia. }
      set (K := 2 ^ Zpos k) in *.
      assert (shr_m r < 2 ^ 53) by nia.
      assert (2 ^ 52 <= shr_m r) by nia.
      split; [lia|now right].
  - unfold located, scaled. split; [nia|]. intros Hf. specialize (Hstrict Hf). nia.
Qed.

(** What [binary_round_aux] returns once its first shift has given a
    float of the format that starts an interval around [A / B]. *)
Lemma binary_round_aux_next A B p ex lx :
  0 < B ->
  (let r := fst (shr_fexp F64.prec F64.emax (Zpos p) ex lx) in
   let e := snd (shr_fexp F64.prec F64.emax (Zpos p) ex lx) in
   canon (shr_m r) e /\ located A B (shr_m r) e (flags r)) ->
  rounds_to A B (binary_round_aux F64.prec F64.emax false (Zpos p) ex lx).
Proof.
  intros HB [Hc [[Hlo Hhi] Hstrict]].
  unfold binary_round_aux.
  destruct (shr_fexp F64.prec F64.emax (Zpos p) ex lx) as [r1 e1].
  cbn [fst snd] in *.
  set (m1 := shr_m r1) in *.
  set (m2 := round_nearest_even m1 (loc_of_shr_record r1)).
  assert (H2 : m2 = m1 \/ (m2 = m1 + 1 /\ flags r1 = true)).
  { subst m2. rewrite <- loc_of_shr_record_inexact.
    apply round_nearest_even_cases. }
  pose proof Hc as (He1 & [Hm1 Hh1] & Hn1).
  destruct (shr_fexp_rounded m2 e1 He1) as (m & e & -> & Hcm & Hval).
  { destruct H2 as [->|[-> _]]; lia. }
  { destruct H2 as [->|[-> _]]; [assumption|]. destruct Hn1; [now left|right; lia]. }
  cbn [shr_m].
  assert (Eof : match m with
                | 0 => S754_zero false
                | Zpos m0 => if e <=? F64.emax - F64.prec then S754_finite false m0 e
                             else S754_infinity false
                | Zneg _ => S754_nan
                end = of_canon m e).
  { unfold of_canon. destruct Hcm as (_ & [Hm _] & _).
    destruct m as [|q|q]; try lia. reflexivity. }
  rewrite Eof. apply of_canon_rounds_to; try assumption; rewrite Hval.
  - intros my ey Hy Hle.
    assert (Hlt : scaled my ey < scaled (m1 + 1) e1) by nia.
    pose proof (canon_below m1 e1 my ey Hc Hy Hlt) as Hbelow.
    destruct H2 as [->|[-> _]]; [assumption|].
    pose proof (proj2 (scaled_le m1 (m1 + 1) e1 He1) ltac:(lia)). lia.
  - intros my ey Hy Hle.
    destruct H2 as [->|[-> Hf]].
    + nia.
    + specialize (Hstrict Hf).
      apply (canon_above m1 e1 my ey Hc Hy). nia.
Qed.

(** The product of two finite positive floats that is at least
    [2 ^ emin]. *)
Lemma mul_rounds mx ex my ey :
  canon (Zpos mx) ex -> canon (Zpos my) ey ->
  unit_value <= scaled (Zpos mx) ex * scaled (Zpos my) ey ->
  rounds_to (scaled (Zpos mx) ex * scaled (Zpos my) ey) unit_value
            (F64.mul (S754_finite false mx ex) (S754_finite false my ey)).
Proof.
  intros Hx Hy Hu. unfold F64.mul, SFmul. cbn [xorb].
  pose proof Hx as (Hex & [Hmx Hhx] & Hnx). pose proof Hy as (Hey & [Hmy Hhy] & Hny).
  pose proof unit_value_pos as U.
  pose proof (pow2_pos (ex - emin) ltac:(lia)) as Px.
  pose proof (pow2_pos (ey - emin) ltac:(lia)) as Py.
  destruct (Z_lt_le_dec (ex + ey) emin) as [Hlow|Hhigh].
  - apply (rounds_to_eq (Zpos (mx * my)) (2 ^ (emin - (ex + ey)))).
    + apply pow2_pos. lia.
    + exact U.
    + unfold scaled, unit_value, scaled. rewrite Pos2Z.inj_mul.
      change (0 - emin) with (- emin).
      assert (E : 2 ^ (ex - emin) * 2 ^ (ey - emin) * 2 ^ (emin - (ex + ey))
                  = 2 ^ (- emin)).
      { rewrite <- !Z.pow_add_r by lia. f_equal. lia. }
      nia.
    + apply binary_round_aux_next; [apply pow2_pos; lia|].
      apply shr_fexp_canon_low; [exact Hlow|].
      unfold scaled, unit_value, scaled in Hu. rewrite Pos2Z.inj_mul.
      change (0 - emin) with (- emin) in Hu.
      assert (E : 2 ^ (ex - emin) * 2 ^ (ey - emin) * 2 ^ (emin - (ex + ey))
                  = 2 ^ (- emin)).
      { rewrite <- !Z.pow_add_r by lia. f_equal. lia. }
      pose proof (pow2_pos (emin - (ex + ey)) ltac:(lia)) as Pj.
      set (J := 2 ^ (emin - (ex + ey))) in *.
      set (X := 2 ^ (ex - emin)) in *. set (Y := 2 ^ (ey - emin)) in *.
      assert (Hxy : 0 < X * Y) by nia.
      assert (H1 : X * Y * J <= Zpos mx * Zpos my * (X * Y)) by nia.
      assert (H2 : (X * Y) * J <= (X * Y) * (Zpos mx * Zpos my)) by lia.
      apply Z.mul_le_mono_pos_l in H2; [exact H2|exact Hxy].
  - apply (rounds_to_eq (scaled (Zpos (mx * my)) (ex + ey)) 1); [lia|exact U| |].
    + unfold scaled, unit_value, scaled. rewrite Pos2Z.inj_mul.
      change (0 - emin) with (- emin).
      assert (E : 2 ^ (ex + ey - emin) * 2 ^ (- emin)
                  = 2 ^ (ex - emin) * 2 ^ (ey - emin)).
      { rewrite <- !Z.pow_add_r by (unfold emin in *; lia). f_equal. lia. }
      nia.
    + apply rounding_rounds_to; [lia|exact Hhigh| |].
      * rewrite fexp_eq.
        pose proof (digits2_bounds (mx * my)) as [_ Dh]. cbv zeta in Dh.
        set (d := Zpos (digits2_pos (mx * my))) in *.
        assert (H52 : 2 ^ 52 <= Zpos (mx * my)).
        { rewrite Pos2Z.inj_mul.
          destruct Hnx as [->|Hnx]; [|nia].
          destruct Hny as [->|Hny]; [unfold emin in Hhigh; lia|nia]. }
        destruct (Z_lt_le_dec d 53) as [Hlt|]; [|lia].
        assert (2 ^ d <= 2 ^ 52) by (apply pow2_le; subst d; lia). lia.
      * unfold located. simpl inexact.
        assert (scaled (Zpos (mx * my)) (ex + ey)
                < scaled (Zpos (mx * my) + 1) (ex + ey)) by (apply scaled_lt; lia).
        split; [lia|discriminate].
Qed.

(** The difference of two finite positive floats, the greater first. *)
Lemma sub_rounds mx ex my ey :
  canon (Zpos mx) ex -> canon (Zpos my) ey ->
  scaled (Zpos my) ey < scaled (Zpos mx) ex ->
  rounds_to (scaled (Zpos mx) ex - scaled (Zpos my) ey) 1
            (Py.sub (S754_finite false mx ex) (S754_finite false my ey)).
Proof.
  intros Hcx Hcy Hlt. unfold Py.sub, SFsub. cbn [cond_Zopp].
  set (ez := Z.min ex ey).
  assert (Hez : emin <= ez) by (destruct Hcx, Hcy; subst ez; lia).
  destruct (shl_align_value mx ex ez Hez) as (Vmx & Sx & Kx).
  destruct (shl_align_value my ey ez Hez) as (Vmy & Sy & Ky).
  assert (Ex : snd (shl_align mx ex ez) = ez).
  { destruct (Z_lt_le_dec ez ex) as [H|H]; [apply Sx, H|].
    rewrite Kx by assumption. subst ez. simpl. lia. }
  assert (Ey : snd (shl_align my ey ez) = ez).
  { destruct (Z_lt_le_dec ez ey) as [H|H]; [apply Sy, H|].
    rewrite Ky by assumption. subst ez. simpl. lia. }
  rewrite Ex in Vmx. rewrite Ey in Vmy.
  set (ax := fst (shl_align mx ex ez)) in *.
  set (ay := fst (shl_align my ey ez)) in *.
  rewrite <- Vmx, <- Vmy in *.
  pose proof (pow2_pos (ez - emin) ltac:(lia)) as P.
  assert (Hd : 0 < Zpos ax - Zpos ay) by (unfold scaled in Hlt; nia).
  destruct (Zpos ax - Zpos ay) as [|dm|dm] eqn:Ed; try lia.
  cbn [binary_normalize].
  replace (scaled (Zpos ax) ez - scaled (Zpos ay) ez) with (scaled (Zpos dm) ez).
  - apply binary_round_rounds, Hez.
  - unfold scaled. lia.
Qed.

Lemma sub_self m e : Py.sub (S754_finite false m e) (S754_finite false m e) = F64.zero.
Proof.
  unfold Py.sub, SFsub. cbn [cond_Zopp]. rewrite Z.min_id.
  unfold shl_align. rewrite Z.sub_diag. cbn [fst].
  replace (Zpos m - Zpos m) with 0 by lia. reflexivity.
Qed.

(** [int(x)] is the integer part of the value. *)
Lemma int_value m e :
  canon (Zpos m) e ->
  Py.int (S754_finite false m e) = Return (scaled (Zpos m) e / unit_value).
Proof.
  intros (He & _ & _). unfold Py.int. f_equal.
  assert (U : unit_value = 2 ^ 1074) by reflexivity. rewrite U. unfold scaled.
  assert (P : 0 < 2 ^ 1074) by (apply pow2_pos; lia).
  destruct e as [|k|k].
  - change (0 - emin) with 1074. rewrite Z.div_mul by lia. lia.
  - replace (Zpos k - emin) with (Zpos k + 1074) by (unfold emin; lia).
    rewrite Z.pow_add_r, Z.mul_assoc by lia. now rewrite Z.div_mul by lia.
  - unfold emin in *. set (X := 2 ^ (Zneg k - -1074)).
    assert (E : 2 ^ 1074 = X * 2 ^ Zpos k).
    { subst X. rewrite <- Z.pow_add_r by lia. f_equal. lia. }
    assert (HX : 0 < X) by (subst X; apply pow2_pos; lia).
    pose proof (pow2_pos (Zpos k) ltac:(lia)) as Pk.
    rewrite E, (Z.mul_comm (Zpos m) X).
    rewrite Z.div_mul_cancel_l by lia. reflexivity.
Qed.

(** ** Pace as text *)

Lemma positive_float_canon m e :
  positive_float (S754_finite false m e) -> canon (Zpos m) e.
Proof. intros [H _]. exact H. Qed.

(** The floats below [1.0]. *)
Lemma floats_below_one x :
  positive_float x -> val x < unit_value ->
  val x <= unit_value - 2 ^ 1022 \/ x = below_one.
Proof.
  intros Hx Hlt.
  destruct (Z_le_gt_dec (val x) (unit_value - 2 ^ 1022)) as [H|H]; [now left|right].
  assert (C1 : canon 9007199254740991 (-53)) by (unfold canon, emin; simpl; lia).
  assert (C2 : canon 9007199254740990 (-53)) by (unfold canon, emin; simpl; lia).
  assert (P1 : positive_float below_one) by (split; [exact C1|lia]).
  destruct (positive_float_inv x Hx) as (m & e & Hc & E & _).
  pose proof (val_of_canon m e Hc) as V. rewrite <- E in V.
  assert (Hh : unit_value < huge) by reflexivity.
  assert (Vx : val x = scaled m e).
  { destruct (Z.min_spec (scaled m e) huge) as [[_ E']|[_ E']]; lia. }
  apply val_inj; try assumption.
  assert (V2 : scaled 9007199254740990 (-53) = unit_value - 2 ^ 1022) by reflexivity.
  assert (V1 : scaled (9007199254740990 + 1) (-53) = val below_one) by reflexivity.
  assert (V0 : scaled (9007199254740991 + 1) (-53) = unit_value) by reflexivity.
  pose proof (canon_above _ _ m e C2 Hc ltac:(lia)) as Ha.
  pose proof (canon_below _ _ m e C1 Hc ltac:(lia)) as Hb.
  rewrite V1 in Ha. change (scaled 9007199254740991 (-53)) with (val below_one) in Hb.
  lia.
Qed.

Lemma f60_value : F64.of_Z 60 = S754_finite false 8444249301319680 (-47).
Proof. vm_compute. reflexivity. Qed.

(** Sixty times a fraction of a minute is below sixty. *)
Lemma seconds_below_sixty x :
  positive_float x -> val x <= unit_value - 2 ^ 1022 \/ x = below_one ->
  exists seconds,
    Py.int (F64.mul x (F64.of_Z 60)) = Return seconds /\ 0 <= seconds <= 59.
Proof.
  intros Hx [Hle| ->].
  2:{ exists 59. split; [vm_compute; reflexivity|lia]. }
  rewrite f60_value.
  assert (C60 : canon 8444249301319680 (-47)) by (unfold canon, emin; simpl; lia).
  assert (V60 : scaled 8444249301319680 (-47) = 60 * unit_value) by reflexivity.
  assert (Cb : positive_float below_sixty).
  { split; [unfold canon, emin; simpl; lia|lia]. }
  assert (Vb : val below_sixty = 60 * unit_value - 2 ^ 1027) by reflexivity.
  assert (U : unit_value = 2 ^ 1074) by reflexivity.
  assert (P : 0 < 2 ^ 1022) by (apply pow2_pos; lia).
  assert (E27 : 2 ^ 1027 = 32 * 2 ^ 1022) by reflexivity.
  assert (Hh : 60 * unit_value < huge) by reflexivity.
  pose proof (val_positive x Hx) as Vx.
  destruct (positive_float_finite x Hx) as (m & e & ->).
  { assert (unit_value < huge) by reflexivity. lia. }
  pose proof (positive_float_canon m e Hx) as Cx. cbn [val] in *.
  destruct (mul_rounds m e 8444249301319680 (-47) Cx C60) as [Hp Hs].
  { rewrite V60. nia. }
  rewrite V60 in Hs.
  destruct (Hs below_sixty Cb) as [_ Hup].
  specialize (Hup ltac:(rewrite Vb; nia)).
  set (r := F64.mul _ _) in *.
  destruct (positive_float_finite r Hp) as (m2 & e2 & Er); [lia|].
  rewrite Er in *. rewrite (int_value m2 e2 (positive_float_canon _ _ Hp)).
  cbn [val] in Hup. pose proof (val_positive _ Hp) as Vr. cbn [val] in Vr.
  eexists. split; [reflexivity|]. split.
  - apply Z.div_pos; lia.
  - apply Z.lt_succ_r. apply Z.div_lt_upper_bound; lia.
Qed.

Lemma format_02d_length seconds :
  0 <= seconds <= 59 -> String.length (Py.format_02d seconds) = 2%nat.
Proof.
  intros H.
  assert (E : exists n, (n < 60)%nat /\ seconds = Z.of_nat n)
    by (exists (Z.to_nat seconds); lia).
  destruct E as (n & Hn & ->).
  do 60 (destruct n as [|n]; [reflexivity|]). lia.
Qed.

Lemma leb_zero_positive x : positive_float x -> F64.leb x F64.zero = false.
Proof.
  destruct x as [s|[|]| |[|] m e]; cbn [positive_float]; try contradiction;
    reflexivity.
Qed.

(** A finite positive pace has a text, with minutes and seconds. *)
Lemma format_pace_finite pace :
  positive_float pace -> F64.is_finite pace = true ->
  exists minutes seconds,
    Py.int pace = Return minutes /\ 0 <= minutes /\ 0 <= seconds <= 59
    /\ format_pace pace
       = Return (Py.str minutes ++ ":" ++ Py.format_02d seconds ++ " min/km")%string
    /\ String.length (Py.format_02d seconds) = 2%nat.
Proof.
  intros Hpos Hfin.
  destruct pace as [s|[|]| |[|] m e]; cbn [positive_float] in Hpos;
    try contradiction; try discriminate.
  pose proof (proj1 Hpos) as Hc.
  change (positive_float (S754_finite false m e)) in Hpos.
  unfold format_pace. rewrite (leb_zero_positive _ Hpos), (int_value m e Hc).
  assert (U : 0 < unit_value) by reflexivity.
  pose proof (val_positive _ Hpos) as Vp. cbn [val] in Vp.
  set (v := scaled (Zpos m) e) in *.
  set (minutes := v / unit_value).
  pose proof (Z.div_mod v unit_value ltac:(lia)) as Hdiv.
  pose proof (Z.mod_pos_bound v unit_value U) as Hmod.
  fold minutes in Hdiv. set (F := v mod unit_value) in *.
  assert (Hm0 : 0 <= minutes) by (subst minutes; apply Z.div_pos; lia).
  assert (Hfinal : forall x,
            positive_float x -> val x <= unit_value - 2 ^ 1022 \/ x = below_one ->
            exists seconds,
              0 <= seconds <= 59
              /\ match Py.int (F64.mul x (F64.of_Z 60)) with
                 | Throw e0 => Throw e0
                 | Return seconds =>
                     Return (Py.str minutes ++ ":" ++ Py.format_02d seconds
                             ++ " min/km")%string
                 end
                 = Return (Py.str minutes ++ ":" ++ Py.format_02d seconds
                           ++ " min/km")%string
              /\ String.length (Py.format_02d seconds) = 2%nat).
  { intros x Hx Hb. destruct (seconds_below_sixty x Hx Hb) as (sec & -> & Hsec).
    exists sec. split; [exact Hsec|]. split; [reflexivity|].
    now apply format_02d_length. }
  destruct (Z.eq_dec minutes 0) as [E0|Hne].
  - (* less than a minute *)
    rewrite E0 in *. change (Py.float_of_int 0) with (Return (S754_zero false)).
    change (Py.sub (S754_finite false m e) (S754_zero false))
      with (S754_finite false m e).
    destruct (Hfinal (S754_finite false m e) Hpos) as (sec & Hsec & Ef & El).
    { apply floats_below_one; [exact Hpos|]. cbn [val]. fold v. lia. }
    exists 0, sec. now repeat split; try lia.
  - assert (Hmp : 0 < minutes) by lia.
    destruct minutes as [|p|p] eqn:Emin; try lia.
    pose proof (binary_round_rounds p 0 ltac:(unfold emin; lia)) as Hr.
    rewrite scaled_0 in Hr.
    destruct (Z.eq_dec F 0) as [EF|HF].
    + (* a whole number of minutes *)
      assert (Eof : F64.of_Z (Zpos p) = S754_finite false m e).
      { unfold F64.of_Z, binary_normalize.
        apply (rounds_to_exact _ _ _ _ Hr Hpos). cbn [val]. fold v. lia. }
      unfold Py.float_of_int. rewrite Eof. cbn [F64.is_finite].
      rewrite sub_self.
      exists (Zpos p), 0. split; [reflexivity|]. split; [lia|]. split; [lia|].
      split; [|reflexivity]. rewrite f60_value. reflexivity.
    + (* minutes and a fraction *)
      assert (He : e < 0).
      { destruct (Z_lt_le_dec e 0) as [|He]; [assumption|]. exfalso. apply HF.
        subst F v. unfold scaled. replace (e - emin) with (e + 1074) by (unfold emin; lia).
        rewrite Z.pow_add_r by lia. change unit_value with (2 ^ 1074).
        rewrite Z.mul_assoc. apply Z_mod_mult. }
      pose proof Hc as (Hee & [Hm1 Hm2] & _).
      set (k := - e).
      assert (Eunit : unit_value = 2 ^ k * 2 ^ (e - emin)).
      { change unit_value with (2 ^ 1074). rewrite <- Z.pow_add_r by (subst k; lia).
        f_equal. subst k. unfold emin. lia. }
      pose proof (pow2_pos k ltac:(subst k; lia)) as Pk.
      pose proof (pow2_pos (e - emin) ltac:(lia)) as Pe.
      assert (EF : F = scaled (Zpos m mod 2 ^ k) e).
      { subst F v. unfold scaled. rewrite Eunit.
        rewrite Z.mul_mod_distr_r by lia. reflexivity. }
      assert (Emn : Zpos p = Zpos m / 2 ^ k).
      { rewrite <- Emin. subst minutes v. unfold scaled. rewrite Eunit.
        rewrite Z.div_mul_cancel_r by lia. reflexivity. }
      pose proof (Z.mod_pos_bound (Zpos m) (2 ^ k) Pk) as Hmk.
      pose proof (Z.div_mod (Zpos m) (2 ^ k) ltac:(lia)) as Hdk.
      assert (Hp53 : Zpos p < 2 ^ 53) by (rewrite Emn; apply Z.div_lt_upper_bound; nia).
      assert (Hk52 : k <= 52).
      { destruct (Z_le_gt_dec k 52) as [|Hk]; [assumption|]. exfalso.
        assert (2 ^ 53 <= 2 ^ k) by (apply pow2_le; lia).
        assert (Zpos m / 2 ^ k = 0) by (apply Z.div_small; lia). lia. }
      destruct (of_Z_exact (Zpos p) ltac:(lia)) as (Pm & Vm & Fm).
      unfold Py.float_of_int. rewrite Fm.
      destruct (F64.of_Z (Zpos p)) as [s|[|]| |[|] m2 e2] eqn:Eof;
        cbn [positive_float] in Pm; try contradiction; try discriminate.
      pose proof (positive_float_canon m2 e2 Pm) as Hc2. cbn [val] in Vm.
      destruct (sub_rounds m e m2 e2 Hc Hc2) as [Ps Hs].
      { fold v. lia. }
      fold v in Hs. rewrite Vm in Hs.
      assert (HFv : v - Zpos p * unit_value = F) by lia. rewrite HFv in Hs.
      set (r1 := Py.sub (S754_finite false m e) (S754_finite false m2 e2)) in *.
      assert (VF : val r1 = F).
      { destruct (representable_float (Zpos m mod 2 ^ k) e) as (y & Hy & Vy & _).
        - split; [|lia]. rewrite EF in HF. unfold scaled in HF.
          destruct (Z.eq_dec (Zpos m mod 2 ^ k) 0) as [Ez|]; [|lia].
          rewrite Ez, Z.mul_0_l in HF. congruence.
        - lia.
        - rewrite <- EF. assert (unit_value < huge) by reflexivity. lia.
        - rewrite <- EF in Vy.
          rewrite (rounds_to_exact _ _ r1 y (conj Ps Hs) Hy ltac:(lia)). exact Vy. }
      destruct (Hfinal r1 Ps) as (sec & Hsec & Ef & El).
      { left. rewrite VF, EF. unfold scaled. rewrite Eunit.
        assert (Zpos m mod 2 ^ k <= 2 ^ k - 1) by lia.
        assert (2 ^ 1022 <= 2 ^ (e - emin)).
        { apply pow2_le. subst k. unfold emin. lia. }
        nia. }
      exists (Zpos p), sec. split; [reflexivity|]. split; [lia|].
      split; [exact Hsec|]. split; [exact Ef|exact El].
Qed.

(** X12. [format_pace] gives ["N/A"] for a pace that is [<= 0]; it raises
    [ValueError] for NaN and [OverflowError] for [+inf]; and for every
    finite positive pace it returns the text [M:SS min/km] where [M] is
    the integer part of the pace and [SS] is two digits of a number from
    0 to 59 (never 60).  A pace of 5.5 reads ["5:30 min/km"]. *)
Theorem format_pace_text :
  (forall pace, F64.leb pace F64.zero = true -> format_pace pace = Return "N/A")
  /\ format_pace F64.nan = Throw (Exn ValueError)
  /\ format_pace (F64.infinity false) = Throw OverflowError
  /\ (forall pace,
        positive64 pace -> F64.is_finite pace = true ->
        exists minutes seconds,
          Py.int pace = Return minutes /\ 0 <= minutes /\ 0 <= seconds <= 59
          /\ format_pace pace
             = Return (Py.str minutes ++ ":" ++ Py.format_02d seconds ++ " min/km")%string
          /\ String.length (Py.format_02d seconds) = 2%nat)
  /\ format_pace (F64.div (F64.of_Z 11) (F64.of_Z 2)) = Return "5:30 min/km".
Proof.
  split; [intros pace H; unfold format_pace; now rewrite H|].
  split; [reflexivity|]. split; [reflexivity|].
  split; [|vm_compute; reflexivity].
  intros pace Hpos Hfin. apply positive64_positive_float in Hpos.
  now apply format_pace_finite.
Qed.

(** ** The bar chart *)

Lemma max_int_spec l x :
  In x l -> exists m, Py.max_int l = Some m /\ In m l /\ x <= m.
Proof.
  destruct l as [|x0 l]; [intros []|]. intros Hx. cbn [Py.max_int].
  assert (H : forall l m0,
            let r := fold_left (fun m y => if y >? m then y else m) l m0 in
            (r = m0 \/ In r l) /\ m0 <= r /\ forall y, In y l -> y <= r).
  { clear. induction l as [|y l IH]; intros m0; cbn [fold_left].
    - split; [now left|]. split; [lia|intros y []].
    - destruct (y >? m0) eqn:E.
      + destruct (IH y) as (Hin & Hle & Hall). cbv zeta in *.
        split; [destruct Hin as [->|Hin]; right; [now left|now right]|].
        split; [lia|]. intros z [<-|Hz]; [assumption|now apply Hall].
      + destruct (IH m0) as (Hin & Hle & Hall). cbv zeta in *.
        split; [destruct Hin as [->|Hin]; [now left|right; now right]|].
        split; [assumption|]. intros z [<-|Hz]; [lia|now apply Hall]. }
  destruct (H l x0) as (Hin & Hle & Hall). cbv zeta in *.
  eexists. split; [reflexivity|]. split.
  - destruct Hin as [->|Hin]; [now left|now right].
  - destruct Hx as [<-|Hx]; [exact Hle|now apply Hall].
Qed.

(** The length of a bar. *)
Lemma bar_length count max_value max_bar_length :
  0 < count <= max_value -> max_value < 2 ^ 63 -> 0 < max_bar_length < 2 ^ 53 ->
  exists quotient length_float bar,
    Py.int_truediv count max_value = Return quotient
    /\ Py.float_of_int max_bar_length = Return length_float
    /\ Py.int (F64.mul quotient length_float) = Return bar
    /\ 0 <= bar <= max_bar_length
    /\ (count = max_value -> bar = max_bar_length).
Proof.
  intros Hc Hm HL.
  destruct (int_truediv_fraction count max_value Hc Hm) as (q & Eq & Hq & Vq & Fq).
  destruct (of_Z_exact max_bar_length HL) as (PL & VL & FL).
  assert (U : 0 < unit_value) by reflexivity.
  assert (Hh : 2 ^ 53 * unit_value < huge) by reflexivity.
  destruct Hq as [Pq Sq]. pose proof (val_positive q Pq) as Vq0.
  exists q, (F64.of_Z max_bar_length).
  unfold Py.float_of_int. rewrite FL.
  destruct q as [s|[|]| |[|] mq eq]; cbn [positive_float] in Pq;
    try contradiction; try discriminate.
  destruct (F64.of_Z max_bar_length) as [s|[|]| |[|] ml el] eqn:EL;
    cbn [positive_float] in PL; try contradiction; try discriminate.
  cbn [val] in *.
  destruct (mul_rounds mq eq ml el (proj1 Pq) (proj1 PL)) as [Pr Sr].
  { rewrite VL.
    assert (Hlow : positive_float (S754_finite false 4503599627370496 (-115))).
    { unfold positive_float, canon, emin. simpl. lia. }
    destruct (Sq _ Hlow) as [Hge _]. cbn [val] in Hge.
    assert (Elow : scaled 4503599627370496 (-115) * 2 ^ 63 = unit_value)
      by reflexivity.
    assert (Plow : 0 < scaled 4503599627370496 (-115)) by reflexivity.
    set (low := scaled 4503599627370496 (-115)) in *.
    assert (Hstep : low * max_value <= count * unit_value).
    { apply Z.le_trans with (low * 2 ^ 63).
      - apply Z.mul_le_mono_nonneg_l; lia.
      - rewrite Elow. apply Z.le_trans with (1 * unit_value); [lia|].
        apply Z.mul_le_mono_nonneg_r; lia. }
    specialize (Hge Hstep).
    apply Z.le_trans with (low * (1 * unit_value)).
    - rewrite Z.mul_1_l. apply Z.le_trans with (1 * unit_value); [lia|].
      apply Z.mul_le_mono_nonneg_r; lia.
    - apply Z.mul_le_mono_nonneg; try lia.
      apply Z.mul_le_mono_nonneg_r; lia. }
  set (r := F64.mul _ _) in *.
  assert (PLf : positive_float (S754_finite false ml el)) by exact PL.
  destruct (Sr _ PLf) as [_ Hup]. cbn [val] in Hup. rewrite VL in Hup.
  specialize (Hup ltac:(nia)).
  pose proof (val_positive r Pr) as Vr.
  destruct (positive_float_finite r Pr) as (m2 & e2 & Er); [nia|].
  assert (Cr : canon (Zpos m2) e2) by (rewrite Er in Pr; exact (proj1 Pr)).
  exists (scaled (Zpos m2) e2 / unit_value).
  split; [exact Eq|]. split; [reflexivity|].
  split; [now rewrite Er, (int_value m2 e2 Cr)|].
  rewrite Er in Hup, Vr. cbn [val] in Hup, Vr. split.
  - split; [apply Z.div_pos; lia|]. apply Z.div_le_upper_bound; lia.
  - intros ->.
    assert (Eone : S754_finite false mq eq = one).
    { destruct one_positive as [P1 V1].
      assert (Rq : rounds_to (max_value * unit_value) max_value
                             (S754_finite false mq eq)) by (split; assumption).
      apply (rounds_to_exact _ _ _ one Rq P1). rewrite V1. lia. }
    assert (Ers : r = S754_finite false ml el).
    { assert (Rr : rounds_to (scaled (Zpos mq) eq * scaled (Zpos ml) el)
                             unit_value r) by (split; assumption).
      apply (rounds_to_exact _ _ _ _ Rr PLf). cbn [val].
      injection Eone as -> ->. rewrite VL.
      change (scaled 4503599627370496 (-52)) with unit_value. lia. }
    rewrite Er in Ers. injection Ers as -> ->. rewrite VL.
    now rewrite Z.div_mul by lia.
Qed.

Lemma chart_bars_spec items max_value max_bar_length :
  Forall (fun item => 0 < snd item <= max_value) items ->
  max_value < 2 ^ 63 -> 0 < max_bar_length < 2 ^ 53 ->
  exists bars,
    chart_bars items max_value max_bar_length = (bars, Return tt)
    /\ Forall2 (bar_of max_value max_bar_length) items bars.
Proof.
  intros Hall Hm HL. induction Hall as [|[month count] items Hc _ IH].
  - exists []. split; [reflexivity|constructor].
  - destruct IH as (bars & Eb & Hb). simpl in Hc. cbn [chart_bars].
    assert (Hpos : (max_value >? 0) = true) by (apply Z.gtb_lt; lia).
    rewrite Hpos.
    destruct (bar_length count max_value max_bar_length Hc Hm HL)
      as (q & lf & bar & Eq & Elf & Eint & Hbar & Hfull).
    rewrite Eq, Elf, Eint.
    rewrite Eb. eexists. split; [reflexivity|]. constructor; [|exact Hb].
    exists bar. cbn [fst snd]. rewrite Z.max_r by lia.
    split; [reflexivity|]. split; assumption.
Qed.

Lemma create_text_bar_chart_spec data_dict title max_bar_length :
  Forall (fun item => 0 < snd item < 2 ^ 63) data_dict ->
  0 < max_bar_length < 2 ^ 53 ->
  data_dict <> [] ->
  exists lines,
    create_text_bar_chart data_dict title max_bar_length = (lines, Return tt)
    /\ chart_of title max_bar_length data_dict lines.
Proof.
  intros Hall HL Hne. unfold create_text_bar_chart.
  destruct data_dict as [|item0 items] eqn:Ed; [congruence|].
  rewrite <- Ed in *.
  assert (Hin0 : In (snd item0) (map snd data_dict)) by (subst; now left).
  destruct (max_int_spec _ _ Hin0) as (mx & Emx & Hmx & _).
  rewrite Emx.
  assert (Hbound : Forall (fun item => 0 < snd item <= mx) data_dict
                   /\ mx < 2 ^ 63).
  { split.
    - apply List.Forall_forall. intros item Hitem.
      rewrite List.Forall_forall in Hall. specialize (Hall item Hitem).
      assert (Hs : In (snd item) (map snd data_dict)) by now apply in_map.
      destruct (max_int_spec _ _ Hs) as (mx' & Emx' & _ & Hle).
      rewrite Emx in Emx'. injection Emx' as <-. lia.
    - apply in_map_iff in Hmx as (item & <- & Hitem).
      rewrite List.Forall_forall in Hall. apply (Hall item Hitem). }
  destruct Hbound as [Hb Hm].
  destruct (chart_bars_spec data_dict mx max_bar_length Hb Hm HL) as (bars & Eb & HF).
  rewrite Eb. eexists. split; [reflexivity|]. exists mx, bars. now repeat split.
Qed.

(** X13. For counts that are positive and below [2 ^ 63] and a greatest
    length of bar from 1 to below [2 ^ 53], [create_text_bar_chart] raises
    nothing.  It prints the title, the rule and, for an empty dictionary,
    the message that there is no data; otherwise one bar per item in the
    order of the dictionary, with the label and the count of the item and
    a length from 0 to the greatest length, which the item of the greatest
    count reaches. *)
Theorem create_text_bar_chart_bars data_dict title max_bar_length :
  Forall (fun item => 0 < snd item < 2 ^ 63) data_dict ->
  0 < max_bar_length < 2 ^ 53 ->
  let report := create_text_bar_chart data_dict title max_bar_length in
  raises report = None
  /\ (data_dict = [] ->
      printed report
      = [ChartTitle title; ChartRule (Z.of_nat (String.length title)); ChartNoData])
  /\ (data_dict <> [] -> chart_of title max_bar_length data_dict (printed report)).
Proof.
  intros Hall HL report. subst report.
  destruct data_dict as [|item0 items] eqn:Ed.
  { unfold raises, printed. simpl. repeat split; congruence. }
  rewrite <- Ed in *. assert (Hne : data_dict <> []) by (subst; discriminate).
  destruct (create_text_bar_chart_spec data_dict title max_bar_length Hall HL Hne)
    as (lines & -> & Hchart).
  split; [reflexivity|]. split; [contradiction|]. intros _. exact Hchart.
Qed.

Lemma chart_of_two_months :
  let data_dict := [("2024-01", 2); ("2024-02", 4)] in
  let report := create_text_bar_chart data_dict "RUNNING ACTIVITIES BY MONTH" 40 in
  raises report = None
  /\ (data_dict = [] ->
      printed report
      = [ChartTitle "RUNNING ACTIVITIES BY MONTH";
         ChartRule (Z.of_nat (String.length "RUNNING ACTIVITIES BY MONTH"));
         ChartNoData])
  /\ (data_dict <> [] ->
      chart_of "RUNNING ACTIVITIES BY MONTH" 40 data_dict (printed report)).
Proof.
  apply (create_text_bar_chart_bars [("2024-01", 2); ("2024-02", 4)]
           "RUNNING ACTIVITIES BY MONTH" 40).
  - apply List.Forall_cons; [|apply List.Forall_cons; [|apply List.Forall_nil]];
      split; reflexivity.
  - split; reflexivity.
Defined.

(** ** The labels of the months *)

Lemma month_keys_round_trip :
  forallb (fun y => forallb (month_key_round_trip y) (seqZ 1 12)) (seqZ 1000 9000)
  = true.
Proof. vm_compute. reflexivity. Qed.

(** X14. Keys and labels of months agree from the year 1000 on: the key
    [strftime('%Y-%m')] of a date of the calendar is read back by
    [strptime] as the first day of its month, so the label of its bar is
    [strftime('%b %Y')] of the date.  (Before the year 1000 the key has
    fewer than four digits of year and is not read back.) *)
Theorem month_key_reads_back d :
  Datetime.valid d = true -> 1000 <= Datetime.year d ->
  strptime_month (strftime_Y_m d) = Some (month_start d)
  /\ chart_label (strftime_Y_m d) = strftime_b_Y d.
Proof.
  intros Hv Hy. apply valid_bounds in Hv as (Hyear & Hmonth & _).
  pose proof month_keys_round_trip as H.
  rewrite forallb_forall in H. specialize (H (Datetime.year d)).
  rewrite forallb_forall in H.
  assert (Hrt : month_key_round_trip (Datetime.year d) (Datetime.month d) = true).
  { apply H; apply list_elem_of_In, elem_of_seqZ; lia. }
  unfold month_key_round_trip in Hrt.
  assert (Ekey : strftime_Y_m (Datetime.mk_datetime (Datetime.year d)
                                 (Datetime.month d) 1 0 0 0)
                 = strftime_Y_m d) by reflexivity.
  rewrite Ekey in Hrt.
  assert (E : strptime_month (strftime_Y_m d) = Some (month_start d)).
  { destruct (strptime_month (strftime_Y_m d)) as [d'|]; [|discriminate].
    rewrite !andb_true_iff, !Z.eqb_eq in Hrt.
    destruct Hrt as (((((Y & M) & D) & Hh) & Mi) & S).
    destruct d'; simpl in *; subst. reflexivity. }
  split; [exact E|]. unfold chart_label. rewrite E. reflexivity.
Qed.

Lemma month_key_of_new_year :
  strptime_month (strftime_Y_m new_year_noon) = Some (month_start new_year_noon)
  /\ chart_label (strftime_Y_m new_year_noon) = strftime_b_Y new_year_noon.
Proof.
  apply (month_key_reads_back new_year_noon).
  - reflexivity.
  - vm_compute. discriminate.
Defined.

(** A key of the year 999 is not read back, and labels its own bar. *)
Lemma month_key_before_1000 :
  let d := Datetime.mk_datetime 999 1 1 12 0 0 in
  strftime_Y_m d = "999-01"
  /\ strptime_month (strftime_Y_m d) = None
  /\ chart_label (strftime_Y_m d) = "999-01".
Proof. vm_compute. repeat split. Qed.

(** ** The order of texts *)

Lemma string_ltb_trans x y z :
  String.ltb x y = true -> String.ltb y z = true -> String.ltb x z = true.
Proof.
  unfold String.ltb. intros Hxy Hyz.
  destruct (String.compare x y) eqn:Exy; try discriminate.
  destruct (String.compare y z) eqn:Eyz; try discriminate.
  apply OrderedTypeEx.String_as_OT.cmp_lt in Exy, Eyz.
  pose proof (OrderedTypeEx.String_as_OT.lt_trans _ _ _ Exy Eyz) as H.
  apply OrderedTypeEx.String_as_OT.cmp_lt in H.
  unfold OrderedTypeEx.String_as_OT.cmp in H. now rewrite H.
Qed.

Lemma string_ltb_total x y :
  String.eqb x y = false -> String.ltb x y = false -> String.ltb y x = true.
Proof.
  unfold String.ltb. intros Hne Hlt. rewrite String.compare_antisym.
  destruct (String.compare x y) eqn:E; try discriminate; [|reflexivity].
  apply String.compare_eq_iff in E. subst. now rewrite String.eqb_refl in Hne.
Qed.

Lemma insert_text_In x l z : In z (Py.insert_text x l) <-> z = x \/ In z l.
Proof.
  induction l as [|y l IH]; simpl; [intuition|].
  destruct (String.eqb x y) eqn:E.
  - apply String.eqb_eq in E. subst. simpl. intuition.
  - destruct (String.ltb x y); simpl; [intuition|]. rewrite IH. intuition.
Qed.

Lemma insert_text_ascending x l : ascending l -> ascending (Py.insert_text x l).
Proof.
  unfold ascending. induction 1 as [|y l Hs IH Hall]; simpl.
  - constructor; constructor.
  - destruct (String.eqb x y) eqn:E; [now constructor|].
    destruct (String.ltb x y) eqn:L.
    + constructor; [now constructor|]. constructor; [exact L|].
      eapply List.Forall_impl; [|exact Hall]. intros z Hz.
      now apply (string_ltb_trans x y z).
    + constructor; [exact IH|]. apply List.Forall_forall. intros z Hz.
      apply insert_text_In in Hz as [->|Hz].
      * now apply string_ltb_total.
      * rewrite List.Forall_forall in Hall. now apply Hall.
Qed.

Lemma sorted_set_spec keys :
  ascending (Py.sorted_set keys)
  /\ forall z, In z (Py.sorted_set keys) <-> In z keys.
Proof.
  unfold Py.sorted_set.
  induction keys as [|k keys [IHs IHi]] using rev_ind.
  - split; [constructor|reflexivity].
  - rewrite fold_left_app. simpl. split; [now apply insert_text_ascending|].
    intros z. rewrite insert_text_In, IHi, in_app_iff. simpl. intuition.
Qed.

Lemma ascending_app l1 l2 :
  ascending (l1 ++ l2) ->
  ascending l2 /\ forall x y, In x l1 -> In y l2 -> String.ltb x y = true.
Proof.
  unfold ascending. induction l1 as [|a l1 IH]; simpl; intros H.
  - split; [exact H|intros x y []].
  - inversion H as [|? ? Hs Hall]; subst. destruct (IH Hs) as [H2 Hc].
    split; [exact H2|]. intros x y [<-|Hx] Hy.
    + rewrite List.Forall_forall in Hall. apply Hall, in_or_app. now right.
    + now apply Hc.
Qed.

(** The last twelve of a list: those that are left out come before. *)
Lemma last_twelve_spec {A} (l : list A) :
  exists before,
    l = before ++ last_twelve l
    /\ (length (last_twelve l) <= 12)%nat
    /\ (before <> [] -> length (last_twelve l) = 12%nat).
Proof.
  unfold last_twelve. destruct (12 <=? length l)%nat eqn:E.
  - apply Nat.leb_le in E. exists (take (length l - 12) l).
    rewrite take_drop, length_drop. split; [reflexivity|]. split; lia.
  - apply Nat.leb_gt in E. exists []. split; [reflexivity|]. split; [lia|congruence].
Qed.

(** ** Counting by month *)

Lemma tally_months_snoc activities a :
  tally_months (activities ++ [a])
  = dd_update 0 (fun c => c + 1) (tally_months activities) (strftime_Y_m (date a)).
Proof. unfold tally_months. now rewrite fold_left_app. Qed.

Lemma tally_months_values activities month :
  dd_value 0 (tally_months activities) month
  = Z.of_nat (length (in_month month activities)).
Proof.
  induction activities as [|a activities IH] using rev_ind; [reflexivity|].
  rewrite tally_months_snoc, dd_update_value. unfold in_month.
  rewrite List.filter_app, length_app. fold (in_month month activities).
  simpl. destruct (String.eqb month (strftime_Y_m (date a))) eqn:E.
  - apply String.eqb_eq in E. subst month. rewrite IH. simpl. lia.
  - rewrite IH. simpl. lia.
Qed.

Lemma tally_months_keys activities k :
  k ∈ dd_keys (tally_months activities)
  <-> exists a, In a activities /\ strftime_Y_m (date a) = k.
Proof.
  induction activities as [|a activities IH] using rev_ind.
  - split; [intros Hk; now apply not_elem_of_nil in Hk|intros (a & [] & _)].
  - rewrite tally_months_snoc, dd_keys_update, elem_of_snoc_key, IH. split.
    + intros [(a' & Ha' & E)| ->].
      * exists a'. split; [apply in_or_app; now left|exact E].
      * exists a. split; [apply in_or_app; right; now left|reflexivity].
    + intros (a' & Ha' & E). apply in_app_or in Ha' as [Ha'|[<-|[]]].
      * left. now exists a'.
      * right. now symmetry.
Qed.

Lemma recent_spec activities months :
  recent (tally_months activities) months = month_counts months activities.
Proof.
  unfold recent, month_counts. induction months as [|month months IH]; [reflexivity|].
  cbn [omap list_omap map List.filter snd]. rewrite dd_getitem_value, tally_months_values.
  rewrite Z.gtb_ltb. destruct (0 <? _); cbn; now rewrite IH.
Qed.

Lemma month_counts_bounds months activities :
  Z.of_nat (length activities) < 2 ^ 63 ->
  Forall (fun item => 0 < snd item < 2 ^ 63) (month_counts months activities).
Proof.
  intros Hlen. apply List.Forall_forall. intros [month count] Hin.
  unfold month_counts in Hin. apply List.filter_In in Hin as [Hin Hpos].
  apply in_map_iff in Hin as (m & [= <- <-] & _). simpl in *.
  apply Z.ltb_lt in Hpos. split; [exact Hpos|].
  pose proof (List.filter_length_le
                (fun a => String.eqb m (strftime_Y_m (date a))) activities) as Hle.
  unfold in_month. lia.
Qed.

(** One of the three charts. *)
Lemma monthly_chart_spec title months activities :
  Z.of_nat (length activities) < 2 ^ 63 ->
  exists lines,
    (if month_counts months activities is [] then mret tt
     else within MonthlyChart
            (create_text_bar_chart (month_counts months activities) title 40))
    = (map MonthlyChart lines, Return tt)
    /\ month_chart title months activities lines.
Proof.
  intros Hlen. pose proof (month_counts_bounds months activities Hlen) as Hb.
  destruct (month_counts months activities) as [|item items] eqn:E.
  - exists []. split; [reflexivity|]. unfold month_chart. rewrite E.
    split; [reflexivity|congruence].
  - destruct (create_text_bar_chart_spec (item :: items) title 40 Hb)
      as (lines & El & Hl); [split; reflexivity|discriminate|].
    exists lines. rewrite El. split; [reflexivity|]. unfold month_chart. rewrite E.
    split; [discriminate|]. intros _. exact Hl.
Qed.

(** X15. For lists of lengths a Python list can have,
    [analyze_monthly_patterns] raises nothing and prints its banner and
    up to three charts over the same months: at most twelve, in ascending
    order of their keys, each the month of some activity, and the months
    left out are all earlier than these twelve.  The chart of a kind has
    one bar per month in which the kind has activities, with their number,
    and is left out when there is none. *)
Theorem analyze_monthly_patterns_report running cycling other :
  Z.of_nat (length running) < 2 ^ 63 ->
  Z.of_nat (length cycling) < 2 ^ 63 ->
  Z.of_nat (length other) < 2 ^ 63 ->
  let report := analyze_monthly_patterns running cycling other in
  raises report = None
  /\ exists months running_chart cycling_chart other_chart,
       printed report
       = [MonthlyRule; MonthlyTitle; MonthlyRule]
           ++ map MonthlyChart (running_chart ++ cycling_chart ++ other_chart)
       /\ ascending months
       /\ (length months <= 12)%nat
       /\ (forall a, In a (running ++ cycling ++ other) ->
             In (strftime_Y_m (date a)) months
             \/ length months = 12%nat
                /\ forall month, In month months ->
                     String.ltb (strftime_Y_m (date a)) month = true)
       /\ (forall month, In month months ->
             exists a, In a (running ++ cycling ++ other)
                       /\ strftime_Y_m (date a) = month)
       /\ month_chart "RUNNING ACTIVITIES BY MONTH" months running running_chart
       /\ month_chart "CYCLING ACTIVITIES BY MONTH" months cycling cycling_chart
       /\ month_chart "OTHER ACTIVITIES BY MONTH" months other other_chart.
Proof.
  intros Hr Hc Ho report. subst report. unfold analyze_monthly_patterns.
  cbv zeta. rewrite !recent_spec.
  set (all_months := Py.sorted_set _).
  set (months := last_twelve all_months).
  destruct (monthly_chart_spec "RUNNING ACTIVITIES BY MONTH" months running Hr)
    as (lr & -> & Hlr).
  destruct (monthly_chart_spec "CYCLING ACTIVITIES BY MONTH" months cycling Hc)
    as (lc & -> & Hlc).
  destruct (monthly_chart_spec "OTHER ACTIVITIES BY MONTH" months other Ho)
    as (lo & -> & Hlo).
  split; [reflexivity|]. exists months, lr, lc, lo.
  split.
  { unfold printed. cbn. rewrite !map_app. reflexivity. }
  destruct (sorted_set_spec (map fst (tally_months running)
                             ++ map fst (tally_months cycling)
                             ++ map fst (tally_months other))) as [Hs Hi].
  fold all_months in Hs, Hi.
  assert (Hkeys : forall k, In k all_months
                    <-> exists a, In a (running ++ cycling ++ other)
                                  /\ strftime_Y_m (date a) = k).
  { intros k. rewrite Hi, !in_app_iff.
    change (map fst (tally_months running)) with (dd_keys (tally_months running)).
    change (map fst (tally_months cycling)) with (dd_keys (tally_months cycling)).
    change (map fst (tally_months other)) with (dd_keys (tally_months other)).
    rewrite <- !list_elem_of_In, !tally_months_keys. split.
    - intros [(a & Ha & E)|[(a & Ha & E)|(a & Ha & E)]]; exists a;
        rewrite !in_app_iff; tauto.
    - intros (a & Ha & E). rewrite !in_app_iff in Ha.
      destruct Ha as [Ha|[Ha|Ha]]; [left|right; left|right; right]; now exists a. }
  destruct (last_twelve_spec all_months) as (before & Eall & Hlen & Hfull).
  fold months in Eall, Hlen, Hfull.
  rewrite Eall in Hs. apply ascending_app in Hs as [Hsm Hcross].
  split; [exact Hsm|]. split; [exact Hlen|]. split; [|split].
  - intros a Ha.
    assert (Hin : In (strftime_Y_m (date a)) all_months)
      by (apply Hkeys; now exists a).
    rewrite Eall in Hin. apply in_app_or in Hin as [Hin|Hin]; [right|now left].
    split; [apply Hfull; now destruct before|].
    intros month Hm. now apply Hcross.
  - intros month Hm. apply Hkeys. rewrite Eall. apply in_or_app. now right.
  - split; [exact Hlr|]. split; [exact Hlc|exact Hlo].
Qed.

Lemma monthly_patterns_of_a_run_and_a_ride :
  let report := analyze_monthly_patterns [morning_run] [ride_on "Gravel Bike"] [] in
  raises report = None
  /\ exists months running_chart cycling_chart other_chart,
       printed report
       = [MonthlyRule; MonthlyTitle; MonthlyRule]
           ++ map MonthlyChart (running_chart ++ cycling_chart ++ other_chart)
       /\ ascending months
       /\ (length months <= 12)%nat
       /\ (forall a, In a ([morning_run] ++ [ride_on "Gravel Bike"] ++ []) ->
             In (strftime_Y_m (date a)) months
             \/ length months = 12%nat
                /\ forall month, In month months ->
                     String.ltb (strftime_Y_m (date a)) month = true)
       /\ (forall month, In month months ->
             exists a, In a ([morning_run] ++ [ride_on "Gravel Bike"] ++ [])
                       /\ strftime_Y_m (date a) = month)
       /\ month_chart "RUNNING ACTIVITIES BY MONTH" months [morning_run] running_chart
       /\ month_chart "CYCLING ACTIVITIES BY MONTH" months [ride_on "Gravel Bike"]
                      cycling_chart
       /\ month_chart "OTHER ACTIVITIES BY MONTH" months [] other_chart.
Proof.
  apply (analyze_monthly_patterns_report [morning_run] [ride_on "Gravel Bike"] []);
    reflexivity.
Defined.

(** ** What a report mentions, and how it ends *)

Lemma mentions_ret {L A} (l : L) (a : A) : mentions l false (mret a : printing L A).
Proof. split; [reflexivity|]. simpl. split; [intros []|discriminate]. Qed.

Lemma mentions_print {L} (l l' : L) : l' <> l -> mentions l false (print l').
Proof.
  intros H. split; [reflexivity|]. simpl. split; [|discriminate].
  intros [E|[]]. contradiction.
Qed.

Lemma mentions_bind {L A B} (l : L) b1 b2 (m : printing L A)
    (f : A -> printing L B) :
  mentions l b1 m -> (forall a, mentions l b2 (f a)) ->
  mentions l (b1 || b2) (m ≫= f).
Proof.
  destruct m as [out [a|e]]; unfold mentions, raises, printed; simpl.
  - intros [_ H1] Hf. specialize (Hf a). destruct (f a) as [out' r].
    simpl in *. destruct Hf as [Hr H2]. split; [exact Hr|].
    rewrite in_app_iff, orb_true_iff. tauto.
  - intros [H _]. discriminate.
Qed.

Lemma mentions_unless_nil {L X} (l : L) (xs : list X) (m : printing L unit) :
  mentions l false m -> mentions l false (if xs is [] then mret tt else m).
Proof. intros H. destruct xs; [apply mentions_ret|exact H]. Qed.

Lemma ends_with_bind {L A B} (l : L) e (m : printing L A) (f : A -> printing L B) :
  raises m = None -> (forall a, ends_with l e (f a)) -> ends_with l e (m ≫= f).
Proof.
  destruct m as [out [a|e']]; unfold ends_with, raises, printed; simpl;
    [|discriminate].
  intros _ Hf. specialize (Hf a). destruct (f a) as [out' r]. simpl in *.
  destruct Hf as [Hr Hl]. split; [exact Hr|]. now rewrite last_app, Hl.
Qed.

(** ** The report of the aggregator *)

Lemma calculate_advanced_stats_full activities activity_type_name :
  activities <> [] ->
  exists stats,
    calculate_advanced_stats activities activity_type_name = Stats.Full stats
    /\ Stats.count stats = Z.of_nat (length activities)
    /\ Stats.commute_count stats
       = Z.of_nat (length (List.filter is_commute activities))
    /\ Stats.avg_pace stats
       = if_any Statistics.mean (positive_values pace_min_per_km activities)
    /\ Stats.best_pace stats
       = if_any Statistics.min (positive_values pace_min_per_km activities).
Proof.
  intros Hne. destruct activities as [|a rest]; [contradiction|].
  eexists. split; [reflexivity|]. repeat split.
Qed.

(** The line of the commutes. *)
Lemma commute_share activities :
  Z.of_nat (length activities) < 2 ^ 63 ->
  0 < Z.of_nat (length (List.filter is_commute activities)) ->
  exists quotient,
    Py.int_truediv (Z.of_nat (length (List.filter is_commute activities)))
                   (Z.of_nat (length activities)) = Return quotient.
Proof.
  intros Hlen Hpos.
  pose proof (List.filter_length_le is_commute activities) as Hle.
  destruct (int_truediv_fraction
              (Z.of_nat (length (List.filter is_commute activities)))
              (Z.of_nat (length activities))) as (q & Eq & _); [lia|lia|].
  now exists q.
Qed.

Lemma has_pace_positive_values activities :
  positive_values pace_min_per_km activities <> []
  <-> Exists has_pace activities.
Proof.
  unfold positive_values, has_pace. induction activities as [|a activities IH]; simpl.
  - split; [congruence|]. intros H. inversion H.
  - destruct (F64.gtb (pace_min_per_km a) F64.zero) eqn:E.
    + split; [intros _; now apply Exists_cons_hd|discriminate].
    + rewrite IH. split; [apply Exists_cons_tl|].
      intros H. inversion H as [? ? Hh|? ? Ht]; subst; [congruence|exact Ht].
Qed.

(** The two paces of the report, of finite paces. *)
Lemma finite_paces_have_texts activities :
  Z.of_nat (length activities) < 2 ^ 63 ->
  Forall (fun a => binary64 (pace_min_per_km a)
                   /\ F64.is_finite (pace_min_per_km a) = true) activities ->
  positive_values pace_min_per_km activities <> [] ->
  exists average best,
    format_pace (if_any Statistics.mean (positive_values pace_min_per_km activities))
    = Return average
    /\ format_pace (if_any Statistics.min (positive_values pace_min_per_km activities))
       = Return best.
Proof.
  intros Hlen Hall Hne.
  assert (Hpos : Forall positive_float (positive_values pace_min_per_km activities)).
  { apply positive_values_positive. eapply List.Forall_impl; [|exact Hall].
    intros a [H _]. exact H. }
  assert (Hfin : forall x, In x (positive_values pace_min_per_km activities) ->
                           val x < huge).
  { intros x Hx. apply finite_val_lt_huge.
    - rewrite Forall_forall in Hpos. apply Hpos. now apply list_elem_of_In.
    - unfold positive_values in Hx. apply List.filter_In in Hx as [Hx _].
      apply in_map_iff in Hx as (a & <- & Ha).
      rewrite List.Forall_forall in Hall. now apply Hall. }
  pose proof (positive_values_length pace_min_per_km activities) as Hle.
  set (paces := positive_values pace_min_per_km activities) in *.
  destruct (min_max_bounds paces Hne Hpos) as (lo & hi & Emin & Emax & Hlo & Hhi & Hb).
  assert (Hlen' : Z.of_nat (length paces) < 2 ^ 63).
  { lia. }
  destruct (mean_between paces lo hi Hne Hlen' Hpos Hlo Hhi Hb)
    as (av & Emean & Hav & Bav).
  assert (Hx0 : exists x0, In x0 paces).
  { destruct paces as [|x0 ?]; [contradiction|]. exists x0. now left. }
  destruct Hx0 as (x0 & Hx0). pose proof (Hb x0 Hx0) as Bx0.
  pose proof (Hfin x0 Hx0) as Fx0.
  assert (Hhi_in : val hi < huge).
  { destruct paces as [|p0 rest] eqn:Ep; [contradiction|].
    inversion Hpos as [|? ? Hp0 Hrest]; subst.
    destruct (max_fold rest p0 Hp0 Hrest) as (Hin & _). cbv zeta in Hin.
    cbn [Statistics.max] in Emax. injection Emax as <-.
    apply Hfin. destruct Hin as [->|Hin]; [now left|now right]. }
  destruct (positive_float_finite av Hav ltac:(lia)) as (m1 & e1 & E1).
  destruct (positive_float_finite lo Hlo ltac:(lia)) as (m2 & e2 & E2).
  destruct (format_pace_finite av Hav) as (min1 & sec1 & _ & _ & _ & F1 & _);
    [now rewrite E1|].
  destruct (format_pace_finite lo Hlo) as (min2 & sec2 & _ & _ & _ & F2 & _);
    [now rewrite E2|].
  unfold if_any. destruct paces as [|p0 rest] eqn:Ep; [contradiction|].
  rewrite Emean, Emin. cbn [default from_option id]. rewrite F1, F2. eauto.
Qed.

(** The mean of paces of which one is infinite. *)
Lemma infinite_pace_mean activities a0 :
  Z.of_nat (length activities) < 2 ^ 63 ->
  Forall (fun a => binary64 (pace_min_per_km a)) activities ->
  In a0 activities -> pace_min_per_km a0 = S754_infinity false ->
  positive_values pace_min_per_km activities <> []
  /\ if_any Statistics.mean (positive_values pace_min_per_km activities)
     = S754_infinity false.
Proof.
  intros Hlen Hall Ha0 Einf.
  pose proof (positive_values_positive pace_min_per_km activities Hall) as Hpos.
  pose proof (positive_values_length pace_min_per_km activities) as Hle.
  assert (Hin : In (S754_infinity false) (positive_values pace_min_per_km activities)).
  { unfold positive_values. apply List.filter_In. split; [|reflexivity].
    rewrite <- Einf. now apply in_map. }
  set (paces := positive_values pace_min_per_km activities) in *.
  assert (Hnf : forallb F64.is_finite paces = false).
  { destruct (forallb F64.is_finite paces) eqn:E; [|reflexivity].
    rewrite forallb_forall in E. now specialize (E _ Hin). }
  destruct paces as [|p0 rest] eqn:Ep; [destruct Hin|]. split; [discriminate|].
  unfold if_any, Statistics.mean. rewrite Hnf. cbn [default from_option id].
  unfold Statistics.special_sum.
  rewrite (special_sum_infinity (p0 :: rest) F64.zero Hpos) by (right; now split).
  destruct (of_Z_finite (Z.of_nat (length (p0 :: rest)))) as (m & e & ->);
    [simpl length in *; lia|reflexivity].
Qed.

Ltac quiet_lines :=
  repeat first
    [ apply mentions_ret
    | apply mentions_print; discriminate
    | apply mentions_unless_nil
    | apply (mentions_bind _ false false); [|intros ?] ].

(** X16. When every pace is a finite binary64 value, the report of
    [calculate_advanced_stats] raises nothing, for a list of a length a
    Python list can have; and it prints the pace statistics exactly when
    the name of the type is ["running"] up to case and some activity has
    a positive pace. *)
Theorem advanced_stats_report_completes activities activity_type_name :
  Z.of_nat (length activities) < 2 ^ 63 ->
  Forall (fun a => binary64 (pace_min_per_km a)
                   /\ F64.is_finite (pace_min_per_km a) = true) activities ->
  let report := advanced_stats_report activities activity_type_name in
  raises report = None
  /\ (In PaceStatistics (printed report)
      <-> PyStr.lower activity_type_name = "running" /\ Exists has_pace activities).
Proof.
  intros Hlen Hall report. subst report.
  assert (Hgoal : mentions PaceStatistics
            (String.eqb (PyStr.lower activity_type_name) "running"
             && negb (bool_decide (positive_values pace_min_per_km activities = [])))
            (advanced_stats_report activities activity_type_name)).
  { unfold advanced_stats_report.
    destruct activities as [|a0 rest] eqn:Ea.
    { simpl. rewrite andb_false_r. apply mentions_print. discriminate. }
    rewrite <- Ea in *. assert (Hne : activities <> []) by (subst; discriminate).
    destruct (calculate_advanced_stats_full activities activity_type_name Hne)
      as (stats & -> & Ecount & Ecommute & Eavg & Ebest).
    cbv zeta. rewrite Ecount, Ecommute, Eavg, Ebest.
    set (paces := positive_values pace_min_per_km activities) in *.
    replace (String.eqb (PyStr.lower activity_type_name) "running"
             && negb (bool_decide (paces = [])))
      with (false || (false || (false || (false || (false || (false || (false
            || (false || (false || (false || (false || (false
            || ((String.eqb (PyStr.lower activity_type_name) "running"
                 && negb (bool_decide (paces = [])))
                || (false || false))))))))))))))
      by (simpl; now rewrite orb_false_r).
    apply mentions_bind; [apply mentions_print; discriminate|intros _].
    apply mentions_bind; [apply mentions_print; discriminate|intros _].
    apply mentions_bind.
    { destruct (_ >? 0) eqn:Ec; [|apply mentions_ret].
      apply Z.gtb_lt in Ec. destruct (commute_share activities Hlen Ec) as (q & ->).
      apply mentions_print. discriminate. }
    intros _.
    do 8 (apply mentions_bind; [apply mentions_print; discriminate|intros _]).
    apply mentions_bind; [quiet_lines|intros _].
    apply mentions_bind; [|intros _; apply mentions_bind; [|intros _]; quiet_lines].
    destruct (decide (paces = [])) as [Ep|Ep].
    - rewrite Ep. rewrite andb_false_r. apply mentions_ret.
    - rewrite bool_decide_eq_false_2 by exact Ep.
      destruct (finite_paces_have_texts activities Hlen Hall Ep)
        as (average & best & Eaverage & Ebest').
      fold paces in Eaverage, Ebest'. rewrite Eaverage, Ebest'.
      destruct paces as [|p0 ps]; [contradiction|].
      destruct (String.eqb _ "running"); [|apply mentions_ret].
      split; [reflexivity|]. simpl. tauto. }
  destruct Hgoal as [Hr Hm]. split; [exact Hr|]. rewrite Hm.
  rewrite andb_true_iff, String.eqb_eq, negb_true_iff, bool_decide_eq_false.
  now rewrite has_pace_positive_values.
Qed.

Lemma stats_report_of_one_run :
  let report := advanced_stats_report [morning_run] "Running" in
  raises report = None
  /\ (In PaceStatistics (printed report)
      <-> PyStr.lower "Running" = "running" /\ Exists has_pace [morning_run]).
Proof.
  apply (advanced_stats_report_completes [morning_run] "Running").
  - reflexivity.
  - apply List.Forall_cons; [|apply List.Forall_nil]. split; vm_compute; reflexivity.
Defined.

(** X17. A pace can be [+inf] (a distance so short that time over
    distance overflows).  With one such activity in a list reported under
    a name that is ["running"] up to case, the average pace is [+inf] and
    the report ends in [OverflowError] raised by [format_pace], just
    after the heading of the pace statistics. *)
Theorem advanced_stats_report_infinite_pace activities activity_type_name a0 :
  Z.of_nat (length activities) < 2 ^ 63 ->
  Forall (fun a => binary64 (pace_min_per_km a)) activities ->
  In a0 activities -> pace_min_per_km a0 = S754_infinity false ->
  PyStr.lower activity_type_name = "running" ->
  let report := advanced_stats_report activities activity_type_name in
  raises report = Some OverflowError
  /\ last (printed report) = Some PaceStatistics.
Proof.
  intros Hlen Hall Ha0 Einf Hname report. subst report.
  change (ends_with PaceStatistics OverflowError
            (advanced_stats_report activities activity_type_name)).
  destruct (infinite_pace_mean activities a0 Hlen Hall Ha0 Einf) as [Hne Hmean].
  assert (Hact : activities <> []) by (intros ->; destruct Ha0).
  unfold advanced_stats_report.
  destruct (calculate_advanced_stats_full activities activity_type_name Hact)
    as (stats & -> & Ecount & Ecommute & Eavg & Ebest).
  cbv zeta. rewrite Ecount, Ecommute, Eavg, Hmean, Hname.
  do 2 (apply ends_with_bind; [reflexivity|intros _]).
  apply ends_with_bind.
  { destruct (_ >? 0) eqn:Ec; [|reflexivity].
    apply Z.gtb_lt in Ec. destruct (commute_share activities Hlen Ec) as (q & ->).
    reflexivity. }
  intros _.
  do 8 (apply ends_with_bind; [reflexivity|intros _]).
  apply ends_with_bind.
  { destruct (positive_values avg_speed_kmh activities); reflexivity. }
  intros _.
  destruct (positive_values pace_min_per_km activities); [contradiction|].
  split; reflexivity.
Qed.

Lemma stats_report_of_a_warm_up :
  let report := advanced_stats_report [morning_run; warm_up] "Running" in
  raises report = Some OverflowError
  /\ last (printed report) = Some PaceStatistics.
Proof.
  apply (advanced_stats_report_infinite_pace [morning_run; warm_up] "Running" warm_up).
  - reflexivity.
  - apply List.Forall_cons; [|apply List.Forall_cons; [|apply List.Forall_nil]];
      vm_compute; reflexivity.
  - right. left. reflexivity.
  - vm_compute. reflexivity.
  - reflexivity.
Defined.

(** ** The program *)

Lemma raises_bind {L A B} (m : printing L A) (f : A -> printing L B) :
  raises (m ≫= f)
  = match snd m with
    | Return a => raises (f a)
    | Throw e => Some e
    end.
Proof.
  destruct m as [out [a|e]]; unfold raises; simpl; [|reflexivity].
  now destruct (f a).
Qed.

Lemma printed_bind {L A B} (m : printing L A) (f : A -> printing L B) :
  printed (m ≫= f)
  = printed m ++ match snd m with
                 | Return a => printed (f a)
                 | Throw e => []
                 end.
Proof.
  destruct m as [out [a|e]]; unfold printed; simpl.
  - now destruct (f a).
  - now rewrite app_nil_r.
Qed.

Lemma lines_bind {L A B} (P : L -> Prop) (m : printing L A) (f : A -> printing L B) :
  Forall P (printed m) -> (forall a, Forall P (printed (f a))) ->
  Forall P (printed (m ≫= f)).
Proof.
  intros Hm Hf. rewrite printed_bind. apply Forall_app. split; [exact Hm|].
  destruct (snd m); [apply Hf|constructor].
Qed.

Lemma lines_within {L L' A} (P : L' -> Prop) (f : L -> L') (m : printing L A) :
  (forall l, P (f l)) -> Forall P (printed (within f m)).
Proof.
  intros H. unfold within, printed. simpl. apply List.Forall_forall.
  intros l' Hl'. apply in_map_iff in Hl' as (l & <- & _). apply H.
Qed.

Lemma lines_unless_empty {L} (P : L -> Prop) activities (m : printing L unit) :
  Forall P (printed m) -> Forall P (printed (unless_empty activities m)).
Proof. intros H. destruct activities; [constructor|exact H]. Qed.

Ltac report_lines :=
  repeat first
    [ apply lines_bind; [|intros ?]
    | apply lines_unless_empty
    | apply lines_within; intros ?; discriminate
    | match goal with
      | |- Forall _ (printed (if ?b then _ else _)) => destruct b
      end
    | apply List.Forall_nil ].

Lemma run_choice_lines choice running_activities cycling_activities other_activities :
  Forall before_the_end
    (printed (run_choice choice running_activities cycling_activities
                other_activities)).
Proof.
  unfold run_choice, before_the_end. report_lines.
  all: unfold printed; simpl; apply List.Forall_forall; intros l Hl;
    apply in_map_iff in Hl as (l0 & <- & _); discriminate.
Qed.

Lemma menu_lines : Forall before_the_end (menu ++ [MenuPrompt]).
Proof. unfold before_the_end. repeat constructor; discriminate. Qed.

Lemma menu_loop_lines inputs running_activities cycling_activities other_activities :
  Forall before_the_end
    (printed (menu_loop inputs running_activities cycling_activities
                other_activities)).
Proof.
  induction inputs as [|line inputs IH]; cbn [menu_loop].
  - exact menu_lines.
  - apply lines_bind; [exact menu_lines|intros _].
    apply lines_bind; [apply run_choice_lines|intros _].
    destruct (chosen _ _); [constructor|exact IH].
Qed.

Lemma menu_loop_without_exit inputs running_activities cycling_activities
    other_activities :
  Forall (fun line => leaves line = false) inputs ->
  raises (menu_loop inputs running_activities cycling_activities other_activities)
  <> None.
Proof.
  unfold leaves. induction 1 as [|line inputs Hline _ IH]; cbn [menu_loop].
  - discriminate.
  - rewrite raises_bind. cbn [snd]. rewrite raises_bind.
    destruct (snd (run_choice _ _ _ _)); [|discriminate].
    now rewrite Hline.
Qed.

Lemma menu_loop_stops before line rest running_activities cycling_activities
    other_activities :
  leaves line = true ->
  menu_loop (before ++ line :: rest) running_activities cycling_activities
            other_activities
  = menu_loop (before ++ [line]) running_activities cycling_activities
              other_activities.
Proof.
  unfold leaves. intros Hline. induction before as [|line0 before IH]; cbn [app menu_loop].
  - now rewrite Hline.
  - now rewrite IH.
Qed.

(** X18. [main] reads no input after the first choice that is ["0"] or
    ["8"] once stripped: the lines typed after it change nothing. *)
Theorem main_stops_at_the_exit fs before line rest :
  leaves line = true ->
  main fs (before ++ line :: rest) = main fs (before ++ [line]).
Proof.
  intros Hline. unfold main.
  destruct (read_csv_file fs "md_strava_acts.csv") as [[activities|e] out];
    [|reflexivity].
  destruct activities as [|a activities]; [reflexivity|].
  cbn -[menu_loop length Z.of_nat menu separate_running_and_cycling].
  destruct (separate_running_and_cycling (a :: activities))
    as [[[running_activities cycling_activities] other_activities]|e];
    [|reflexivity].
  cbn -[menu_loop length Z.of_nat menu].
  now rewrite (menu_loop_stops before line rest).
Qed.

Lemma main_stops_at_cancel :
  main one_run_file (["9"] ++ "0" :: ["1"]) = main one_run_file (["9"] ++ ["0"]).
Proof.
  apply (main_stops_at_the_exit one_run_file ["9"] "0" ["1"]). reflexivity.
Defined.

(** X19. When no line typed is the choice ["0"] or ["8"], [main] never
    prints its closing message; and if the loader did not return the
    empty list, [main] ends with an exception: that of a report, of the
    loader or of the categoriser, or [EOFError] from [input] when the
    lines are used up.  (The empty choice runs every report and asks
    again.) *)
Theorem main_without_exit_does_not_complete fs inputs :
  Forall (fun line => leaves line = false) inputs ->
  ~ In MainComplete (printed (main fs inputs))
  /\ (fst (read_csv_file fs "md_strava_acts.csv") <> Ok [] ->
      raises (main fs inputs) <> None).
Proof.
  intros Hinputs. unfold main.
  destruct (read_csv_file fs "md_strava_acts.csv") as [loaded out] eqn:Eread.
  cbn [fst].
  assert (Hout : ~ In MainComplete (map MainLoader out)).
  { intros H. apply in_map_iff in H as (d & E & _). discriminate. }
  destruct loaded as [[|a activities]|e].
  - split; [|congruence]. unfold printed. cbn.
    intros H. repeat (destruct H as [H|H]; [discriminate|]).
    apply in_app_or in H as [H|H]; [tauto|].
    repeat (destruct H as [H|H]; [discriminate|]). destruct H.
  - cbn -[menu_loop length Z.of_nat menu separate_running_and_cycling].
    destruct (separate_running_and_cycling (a :: activities))
      as [[[running_activities cycling_activities] other_activities]|e].
    + cbn -[menu_loop length Z.of_nat menu].
      pose proof (menu_loop_lines inputs running_activities cycling_activities
                    other_activities) as Hlines.
      pose proof (menu_loop_without_exit inputs running_activities
                    cycling_activities other_activities Hinputs) as Hraise.
      destruct (menu_loop inputs running_activities cycling_activities
                  other_activities) as [lines [[]|e]]; [now contradiction Hraise|].
      unfold printed, raises in *. cbn in *. split; [|discriminate].
      intros H. repeat (destruct H as [H|H]; [discriminate|]).
      apply in_app_or in H as [H|H]; [tauto|].
      repeat (destruct H as [H|H]; [discriminate|]).
      try rewrite app_nil_r in H. rewrite List.Forall_forall in Hlines.
      now apply (Hlines MainComplete H).
    + unfold printed, raises. cbn. split; [|discriminate].
      intros H. repeat (destruct H as [H|H]; [discriminate|]).
      apply in_app_or in H as [H|H]; [tauto|].
      repeat (destruct H as [H|H]; [discriminate|]). destruct H.
  - unfold printed, raises. cbn. split; [|discriminate].
    intros H. repeat (destruct H as [H|H]; [discriminate|]).
    try rewrite app_nil_r in H. tauto.
Qed.

Lemma main_with_two_choices_does_not_complete :
  ~ In MainComplete (printed (main one_run_file ["2"; "x"]))
  /\ (fst (read_csv_file one_run_file "md_strava_acts.csv") <> Ok [] ->
      raises (main one_run_file ["2"; "x"]) <> None).
Proof.
  apply (main_without_exit_does_not_complete one_run_file ["2"; "x"]).
  apply List.Forall_cons; [|apply List.Forall_cons; [|apply List.Forall_nil]];
    reflexivity.
Defined.
